(** * ch432.c: SPI driver for the CH432 dual UART -- a shallow embedding

    The development follows src/ch432.c.  Integers are [Z] with the C
    conversions written out ([u8], [u32], [ulong], [to_int]); the driver's
    side effects (SPI transactions, delays, calls into the serial core) are
    recorded in an append-only [trace]; the bytes answered by the chip on
    single-register reads come from an input queue ([wire]), so a theorem
    quantified over the wire holds whatever the hardware answers.

    The two mutexes only serialise callers and are not modelled: every
    function below is the body that runs with the locks held. *)

From Stdlib Require Import ZArith List Bool Lia.
Import ListNotations.
Local Open Scope Z_scope.

(** ** C integer conversions *)

Definition u8 (x : Z) : Z := x mod 256.
Definition u32 (x : Z) : Z := x mod 2 ^ 32.
(** conversion of an unsigned value to [int] (two's complement, 32 bits) *)
Definition to_int (x : Z) : Z := (x + 2 ^ 31) mod 2 ^ 32 - 2 ^ 31.
(** truth value of the C expression [x & mask] *)
Definition tst (x mask : Z) : bool := negb (Z.land x mask =? 0).

(** ** Register map (the #define block of ch432.c) *)

Definition CH43X_RHR_REG : Z := 0x00.
Definition CH43X_THR_REG : Z := 0x00.
Definition CH43X_IER_REG : Z := 0x01.
Definition CH43X_IIR_REG : Z := 0x02.
Definition CH43X_FCR_REG : Z := 0x02.
Definition CH43X_LCR_REG : Z := 0x03.
Definition CH43X_MCR_REG : Z := 0x04.
Definition CH43X_LSR_REG : Z := 0x05.
Definition CH43X_MSR_REG : Z := 0x06.
Definition CH43X_SPR_REG : Z := 0x07.
Definition CH43X_DLL_REG : Z := 0x00.
Definition CH43X_DLH_REG : Z := 0x01.

Definition CH43X_IER_RDI_BIT : Z := Z.shiftl 1 0.
Definition CH43X_IER_THRI_BIT : Z := Z.shiftl 1 1.
Definition CH43X_IER_RLSI_BIT : Z := Z.shiftl 1 2.
Definition CH43X_IER_MSI_BIT : Z := Z.shiftl 1 3.
Definition CH43X_IER_RESET_BIT : Z := Z.shiftl 1 7.
Definition CH43X_IER_LOWPOWER_BIT : Z := Z.shiftl 1 6.
Definition CH43X_IER_SLEEP_BIT : Z := Z.shiftl 1 5.
Definition CH43X_IER_CK2X_BIT : Z := Z.shiftl 1 5.

Definition CH43X_IIR_RLSE_SRC : Z := 0x06.

Definition CH43X_LCR_LENGTH0_BIT : Z := Z.shiftl 1 0.
Definition CH43X_LCR_LENGTH1_BIT : Z := Z.shiftl 1 1.
Definition CH43X_LCR_STOPLEN_BIT : Z := Z.shiftl 1 2.
Definition CH43X_LCR_PARITY_BIT : Z := Z.shiftl 1 3.
Definition CH43X_LCR_ODDPARITY_BIT : Z := 0.
Definition CH43X_LCR_EVENPARITY_BIT : Z := Z.shiftl 1 4.
Definition CH43X_LCR_MARKPARITY_BIT : Z := Z.shiftl 1 5.
Definition CH43X_LCR_SPACEPARITY_BIT : Z := Z.shiftl 3 4.
Definition CH43X_LCR_TXBREAK_BIT : Z := Z.shiftl 1 6.
Definition CH43X_LCR_DLAB_BIT : Z := Z.shiftl 1 7.
Definition CH43X_LCR_WORD_LEN_5 : Z := 0x00.
Definition CH43X_LCR_WORD_LEN_6 : Z := 0x01.
Definition CH43X_LCR_WORD_LEN_7 : Z := 0x02.
Definition CH43X_LCR_WORD_LEN_8 : Z := 0x03.
Definition CH43X_LCR_CONF_MODE_A : Z := CH43X_LCR_DLAB_BIT.

Definition CH43X_MCR_DTR_BIT : Z := Z.shiftl 1 0.
Definition CH43X_MCR_RTS_BIT : Z := Z.shiftl 1 1.
Definition CH43X_MCR_OUT1 : Z := Z.shiftl 1 2.
Definition CH43X_MCR_OUT2 : Z := Z.shiftl 1 3.
Definition CH43X_MCR_LOOP_BIT : Z := Z.shiftl 1 4.
Definition CH43X_MCR_AFE : Z := Z.shiftl 1 5.

Definition CH43X_LSR_DR_BIT : Z := Z.shiftl 1 0.
Definition CH43X_LSR_OE_BIT : Z := Z.shiftl 1 1.
Definition CH43X_LSR_PE_BIT : Z := Z.shiftl 1 2.
Definition CH43X_LSR_FE_BIT : Z := Z.shiftl 1 3.
Definition CH43X_LSR_BI_BIT : Z := Z.shiftl 1 4.
Definition CH43X_LSR_BRK_ERROR_MASK : Z := 0x1E.
Definition CH43X_LSR_TEMT_BIT : Z := Z.shiftl 1 6.
Definition CH43X_LSR_FIFOE_BIT : Z := Z.shiftl 1 7.

Definition CH43X_FIFO_SIZE : Z := 16.
Definition CH43X_REG_SHIFT : Z := 2.
Definition CRYSTAL_FREQ : Z := 22118400.

(** ** Data *)

(** the per-character flag handed to the tty layer *)
Inductive tty_flag := TTY_NORMAL | TTY_BREAK | TTY_FRAME | TTY_PARITY | TTY_OVERRUN.

(** [struct uart_icount], the counters the driver touches (each a __u32) *)
Record uart_icount := mk_icount {
  rx : Z; tx : Z; frame : Z; overrun : Z; parity : Z; brk : Z }.

(** [struct circ_buf]: the transmit ring owned by the serial core *)
Record circ_buf := mk_circ { buf : list Z; head : Z; tail : Z }.

(** the fields of [struct ktermios] read or written by the driver *)
Record ktermios := mk_termios { c_iflag : Z; c_cflag : Z; c_ospeed : Z }.

Record serial_rs485 := mk_rs485 {
  flags : Z; delay_rts_before_send : Z; delay_rts_after_send : Z }.

(** the fields of [struct uart_port] used by the driver; [tx_stopped] is
    what uart_tx_stopped() reports (tty stopped or hw_stopped) *)
Record uart_port := mk_uart_port {
  line : Z;
  uartclk : Z;
  read_status_mask : Z;
  ignore_status_mask : Z;
  x_char : Z;
  mctrl : Z;
  icount : uart_icount;
  xmit : circ_buf;
  tx_stopped : bool }.

(** [struct ch43x_one] without its work items *)
Record ch43x_one := mk_one {
  port : uart_port;
  rs485 : serial_rs485;
  msr_reg : Z;
  ier : Z;
  mcr_force : Z }.

(** what the driver does to the outside world, in program order *)
Inductive event :=
| SpiRead (cmd result : Z)            (* spi_write_then_read, one result byte *)
| SpiWrite (cmd val : Z)              (* spi_write of the two bytes cmd, val *)
| SpiBurst (cmd : Z) (data : list Z)  (* spi_sync: address byte, then payload *)
| Mdelay (ms : Z)
| DevErrOverrun                       (* dev_err "overrun detect" *)
| InsertChar (status overrun ch : Z) (flag : tty_flag) (* uart_insert_char *)
| FlipBufferPush                      (* tty_flip_buffer_push *)
| WriteWakeup                         (* uart_write_wakeup *)
| CtsChange (status : Z)              (* uart_handle_cts_change *)
| UpdateTimeout (cflag baud : Z).     (* uart_update_timeout *)

(** One channel together with its surroundings: the caller's termios record
    (passed by pointer to set_termios), the answers the chip will give to
    the next single-register reads, and the trace so far. *)
Record machine := mk_machine {
  one : ch43x_one;
  termios : ktermios;
  wire : list Z;
  trace : list event }.

(** What is taken from the kernel headers and the serial core, none of which
    is part of the driver: the termios bit layout, a few constants and the
    hooks whose verdict the driver obeys. *)
Record kernel := mk_kernel {
  CSIZE : Z; CS5 : Z; CS6 : Z; CS7 : Z; CS8 : Z;
  CSTOPB : Z; CREAD : Z; PARENB : Z; PARODD : Z; CMSPAR : Z; CRTSCTS : Z;
  INPCK : Z; BRKINT : Z; PARMRK : Z; IGNBRK : Z;
  SER_RS485_ENABLED : Z;
  UART_XMIT_SIZE : Z;
  WAKEUP_CHARS : Z;
  BITS_PER_LONG : Z;
  uart_handle_break : uart_port -> bool;
  uart_handle_sysrq_char : uart_port -> Z -> bool;
  uart_get_baud_rate : uart_port -> ktermios -> Z -> Z -> Z }.

(** Modelled from the spec: [round_closest] of section 4.2, the kernel macro
    DIV_ROUND_CLOSEST of include/linux/math.h, which is not under src/.  Both
    operands are [unsigned long] in ch43x_set_baud, where the macro is
    [(x + d / 2) / d]. *)
Definition DIV_ROUND_CLOSEST (x d : Z) : Z := (x + d / 2) / d.

(** ** The driver monad: state, kernel oops, unbounded spinning *)

Inductive outcome (A : Type) :=
| Done (a : A) (m : machine)   (* the function returned *)
| Oops (m : machine)           (* the CPU trapped (division by zero) *)
| Spin (m : machine).          (* a polling loop used up its fuel *)
Arguments Done {A} a m.
Arguments Oops {A} m.
Arguments Spin {A} m.

Definition M (A : Type) : Type := machine -> outcome A.

Definition ret {A} (a : A) : M A := fun m => Done a m.
Definition bind {A B} (c : M A) (k : A -> M B) : M B :=
  fun m => match c m with
           | Done a m' => k a m'
           | Oops m' => Oops m'
           | Spin m' => Spin m'
           end.
Definition oops {A} : M A := fun m => Oops m.
Definition spin {A} : M A := fun m => Spin m.

Declare Scope drv_scope.
Delimit Scope drv_scope with drv.
Notation "x <- c ;; k" := (bind c (fun x => k))
  (at level 100, c at next level, right associativity) : drv_scope.
Notation "c ;; k" := (bind c (fun _ => k))
  (at level 100, right associativity) : drv_scope.
Local Open Scope drv_scope.

(** the machine an outcome stopped in *)
Definition final {A} (o : outcome A) : machine :=
  match o with Done _ m => m | Oops m => m | Spin m => m end.

Definition get_one : M ch43x_one := fun m => Done (one m) m.
Definition get_port : M uart_port := fun m => Done (port (one m)) m.
Definition get_termios : M ktermios := fun m => Done (termios m) m.

Definition set_one (o : ch43x_one) : M unit :=
  fun m => Done tt (mk_machine o (termios m) (wire m) (trace m)).
Definition set_termios_rec (t : ktermios) : M unit :=
  fun m => Done tt (mk_machine (one m) t (wire m) (trace m)).
Definition emit (e : event) : M unit :=
  fun m => Done tt (mk_machine (one m) (termios m) (wire m) (trace m ++ [e])).

(** the chip's answer to the next single-register read; a transaction with
    no answer left yields zero *)
Definition next_read (w : list Z) : Z := u8 (hd 0 w).

(** field updates *)
Definition upd_port (f : uart_port -> uart_port) (o : ch43x_one) : ch43x_one :=
  mk_one (f (port o)) (rs485 o) (msr_reg o) (ier o) (mcr_force o).
Definition upd_mcr_force (v : Z) (o : ch43x_one) : ch43x_one :=
  mk_one (port o) (rs485 o) (msr_reg o) (ier o) v.
Definition upd_read_status_mask (v : Z) (p : uart_port) : uart_port :=
  mk_uart_port (line p) (uartclk p) v (ignore_status_mask p) (x_char p)
    (mctrl p) (icount p) (xmit p) (tx_stopped p).
Definition upd_ignore_status_mask (v : Z) (p : uart_port) : uart_port :=
  mk_uart_port (line p) (uartclk p) (read_status_mask p) v (x_char p)
    (mctrl p) (icount p) (xmit p) (tx_stopped p).
Definition upd_x_char (v : Z) (p : uart_port) : uart_port :=
  mk_uart_port (line p) (uartclk p) (read_status_mask p) (ignore_status_mask p) v
    (mctrl p) (icount p) (xmit p) (tx_stopped p).
Definition upd_icount (f : uart_icount -> uart_icount) (p : uart_port) : uart_port :=
  mk_uart_port (line p) (uartclk p) (read_status_mask p) (ignore_status_mask p)
    (x_char p) (mctrl p) (f (icount p)) (xmit p) (tx_stopped p).
Definition upd_xmit (x : circ_buf) (p : uart_port) : uart_port :=
  mk_uart_port (line p) (uartclk p) (read_status_mask p) (ignore_status_mask p)
    (x_char p) (mctrl p) (icount p) x (tx_stopped p).

Definition add_rx (n : Z) (c : uart_icount) : uart_icount :=
  mk_icount (u32 (rx c + n)) (tx c) (frame c) (overrun c) (parity c) (brk c).
Definition add_tx (n : Z) (c : uart_icount) : uart_icount :=
  mk_icount (rx c) (u32 (tx c + n)) (frame c) (overrun c) (parity c) (brk c).
Definition add_frame (n : Z) (c : uart_icount) : uart_icount :=
  mk_icount (rx c) (tx c) (u32 (frame c + n)) (overrun c) (parity c) (brk c).
Definition add_overrun (n : Z) (c : uart_icount) : uart_icount :=
  mk_icount (rx c) (tx c) (frame c) (u32 (overrun c + n)) (parity c) (brk c).
Definition add_parity (n : Z) (c : uart_icount) : uart_icount :=
  mk_icount (rx c) (tx c) (frame c) (overrun c) (u32 (parity c + n)) (brk c).
Definition add_brk (n : Z) (c : uart_icount) : uart_icount :=
  mk_icount (rx c) (tx c) (frame c) (overrun c) (parity c) (u32 (brk c + n)).

Definition modify_port (f : uart_port -> uart_port) : M unit :=
  o <- get_one ;; set_one (upd_port f o).
Definition count (f : uart_icount -> uart_icount) : M unit :=
  modify_port (upd_icount f).

(** ** Register access layer *)

(** address byte of a read: [0xFD & ((reg + portnum * 0x08) << CH43X_REG_SHIFT)] *)
Definition rd_cmd (portnum reg : Z) : Z :=
  u8 (Z.land 0xFD (Z.shiftl (reg + portnum * 0x08) CH43X_REG_SHIFT)).
(** address byte of a write: [0x02 | ((reg + portnum * 0x08) << CH43X_REG_SHIFT)] *)
Definition wr_cmd (portnum reg : Z) : Z :=
  u8 (Z.lor 0x02 (Z.shiftl (reg + portnum * 0x08) CH43X_REG_SHIFT)).

Definition ch43x_port_read_specify (portnum reg : Z) : M Z :=
  fun m =>
    let result := next_read (wire m) in
    Done result (mk_machine (one m) (termios m) (tl (wire m))
                   (trace m ++ [SpiRead (rd_cmd portnum reg) result])).

Definition ch43x_port_read (reg : Z) : M Z :=
  p <- get_port ;; ch43x_port_read_specify (line p) reg.

Definition ch43x_port_write_spefify (portnum reg val : Z) : M unit :=
  emit (SpiWrite (wr_cmd portnum reg) (u8 val)).

Definition ch43x_port_write (reg val : Z) : M unit :=
  p <- get_port ;; ch43x_port_write_spefify (line p) reg val.

(** read-modify-write: [tmp &= ~mask; tmp |= val & mask] *)
Definition ch43x_port_update (reg mask val : Z) : M unit :=
  tmp <- ch43x_port_read reg ;;
  let tmp := Z.land tmp (Z.lnot mask) in
  let tmp := Z.lor tmp (Z.land val mask) in
  ch43x_port_write reg tmp.

Definition ch43x_port_update_specify (portnum reg mask val : Z) : M unit :=
  tmp <- ch43x_port_read_specify portnum reg ;;
  let tmp := Z.land tmp (Z.lnot mask) in
  let tmp := Z.lor tmp (Z.land val mask) in
  ch43x_port_write_spefify portnum reg tmp.

(** burst write of [len] bytes of [buf] behind the address byte [reg] *)
Definition ch43x_raw_write (reg : Z) (data : list Z) (len : Z) : M unit :=
  emit (SpiBurst reg (firstn (Z.to_nat len) data)).

(** the sleep bit lives in the interrupt-enable register of UART 0, whichever
    port is being powered *)
Definition ch43x_power (on : bool) : M unit :=
  ch43x_port_update_specify 0 CH43X_IER_REG CH43X_IER_SLEEP_BIT
    (if on then 0 else CH43X_IER_SLEEP_BIT).

(** ** The driver proper *)

Section Driver.

Variable K : kernel.

Definition ulong (x : Z) : Z := x mod 2 ^ BITS_PER_LONG K.

(** Modelled from the spec: the byte source's emptiness and pending-count
    queries of section 6 -- the serial core's uart_circ_empty and
    uart_circ_chars_pending (CIRC_CNT over UART_XMIT_SIZE), which are kernel
    macros and not under src/. *)
Definition uart_circ_empty (c : circ_buf) : bool := head c =? tail c.
Definition uart_circ_chars_pending (c : circ_buf) : Z :=
  Z.land (head c - tail c) (UART_XMIT_SIZE K - 1).

(** *** Baud rate (ch43x_set_baud) *)

Definition ch43x_set_baud (baud : Z) : M Z :=
  p <- get_port ;;
  let clk := ulong (uartclk p) in
  let baud := ulong baud in
  if baud =? 0 then oops else
  let div := clk / 16 / baud in
  lcr <- ch43x_port_read CH43X_LCR_REG ;;
  ch43x_port_write CH43X_LCR_REG CH43X_LCR_CONF_MODE_A ;;
  ch43x_port_write CH43X_DLH_REG (div / 256) ;;
  ch43x_port_write CH43X_DLL_REG (div mod 256) ;;
  ch43x_port_write CH43X_LCR_REG lcr ;;
  if div =? 0 then oops
  else ret (to_int (DIV_ROUND_CLOSEST (clk / 16) div)).

(** *** Receive path (ch43x_handle_rx) *)

(** lines 517-520: offer the character to sysrq, else hand it to the tty *)
Definition rx_insert (lsr ch : Z) (flag : tty_flag) : M unit :=
  p <- get_port ;;
  if uart_handle_sysrq_char K p ch then ret tt
  else emit (InsertChar lsr CH43X_LSR_OE_BIT ch flag).

(** lines 505-514: filter by read_status_mask, then derive the flag *)
Definition rx_filter (lsr ch : Z) : M unit :=
  p <- get_port ;;
  let lsr := Z.land lsr (read_status_mask p) in
  let flag :=
    if tst lsr CH43X_LSR_BI_BIT then TTY_BREAK
    else if tst lsr CH43X_LSR_PE_BIT then TTY_PARITY
    else if tst lsr CH43X_LSR_FE_BIT then TTY_FRAME
    else TTY_NORMAL in
  (if tst lsr CH43X_LSR_OE_BIT then emit DevErrOverrun else ret tt) ;;
  rx_insert lsr ch flag.

(** from the label ch_handler down to the label ignore_char *)
Definition ch_handler (lsr ch : Z) : M unit :=
  count (add_rx 1) ;;
  if tst lsr CH43X_LSR_BRK_ERROR_MASK then
    if tst lsr CH43X_LSR_BI_BIT then
      let lsr := Z.land lsr (Z.lnot (Z.lor CH43X_LSR_FE_BIT CH43X_LSR_PE_BIT)) in
      count (add_brk 1) ;;
      p <- get_port ;;
      if uart_handle_break K p then ret tt
      else rx_filter lsr ch
    else
      (if tst lsr CH43X_LSR_PE_BIT then count (add_parity 1)
       else if tst lsr CH43X_LSR_FE_BIT then count (add_frame 1)
       else if tst lsr CH43X_LSR_OE_BIT then count (add_overrun 1)
       else ret tt) ;;
      rx_filter lsr ch
  else rx_insert lsr ch TTY_NORMAL.

(** [while (((lsr = read(LSR)) & DR) == 0) ;] *)
Fixpoint wait_dr (fuel : nat) : M Z :=
  lsr <- ch43x_port_read CH43X_LSR_REG ;;
  if tst lsr CH43X_LSR_DR_BIT then ret lsr
  else match fuel with
       | O => spin
       | S fuel' => wait_dr fuel'
       end.

(** the do-while loop, entered at its top with the status in [lsr] *)
Fixpoint rx_drain (fuel : nat) (lsr : Z) : M unit :=
  if tst lsr CH43X_LSR_DR_BIT then
    ch <- ch43x_port_read CH43X_RHR_REG ;;
    ch_handler lsr ch ;;
    lsr <- ch43x_port_read CH43X_LSR_REG ;;
    if tst lsr CH43X_LSR_DR_BIT then
      match fuel with
      | O => spin
      | S fuel' => rx_drain fuel' lsr
      end
    else ret tt
  else ret tt.

Definition ch43x_handle_rx (fuel : nat) (iir : Z) : M unit :=
  let read_lsr := iir =? CH43X_IIR_RLSE_SRC in
  lsr <- (if read_lsr then ch43x_port_read CH43X_LSR_REG else ret 0) ;;
  let read_lsr := read_lsr && tst lsr CH43X_LSR_FIFOE_BIT in
  (if read_lsr then
     ch <- ch43x_port_read CH43X_RHR_REG ;;
     ch_handler lsr ch ;;
     lsr <- ch43x_port_read CH43X_LSR_REG ;;
     if tst lsr CH43X_LSR_DR_BIT then rx_drain fuel lsr else ret tt
   else
     lsr <- wait_dr fuel ;;
     rx_drain fuel lsr) ;;
  emit FlipBufferPush.

(** *** Transmit path (ch43x_handle_tx) *)

(** the copy loop: [n] bytes from the ring into the linear buffer, the tail
    advancing as [(tail + 1) & (UART_XMIT_SIZE - 1)] *)
Fixpoint tx_copy (n : nat) (x : circ_buf) : list Z * circ_buf :=
  match n with
  | O => ([], x)
  | S n' =>
      let b := nth (Z.to_nat (tail x)) (buf x) 0 in
      let x' := mk_circ (buf x) (head x)
                  (Z.land (tail x + 1) (UART_XMIT_SIZE K - 1)) in
      let '(bs, x'') := tx_copy n' x' in
      (b :: bs, x'')
  end.

Definition ch43x_handle_tx : M unit :=
  p <- get_port ;;
  if negb (x_char p =? 0) then
    ch43x_port_write CH43X_THR_REG (x_char p) ;;
    count (add_tx 1) ;;
    modify_port (upd_x_char 0)
  else if uart_circ_empty (xmit p) || tx_stopped p then
    ch43x_port_update CH43X_IER_REG CH43X_IER_THRI_BIT 0
  else
    let to_send := uart_circ_chars_pending (xmit p) in
    (if negb (to_send =? 0) then
       let txlen := CH43X_FIFO_SIZE in
       let to_send := if to_send >? txlen then txlen else to_send in
       count (add_tx to_send) ;;
       let '(data, x') := tx_copy (Z.to_nat to_send) (xmit p) in
       modify_port (upd_xmit x') ;;
       let thr_reg :=
         u8 (Z.lor 0x02 (Z.shiftl (CH43X_THR_REG + line p * 0x08) CH43X_REG_SHIFT)) in
       ch43x_raw_write thr_reg data to_send
     else ret tt) ;;
    p <- get_port ;;
    if uart_circ_chars_pending (xmit p) <? WAKEUP_CHARS K then emit WriteWakeup
    else ret tt.

(** *** Deferred work *)

Definition ch43x_stop_rx_work_proc : M unit :=
  p <- get_port ;;
  modify_port (upd_read_status_mask
                 (Z.land (read_status_mask p) (Z.lnot CH43X_LSR_DR_BIT))) ;;
  ch43x_port_update CH43X_IER_REG CH43X_IER_RDI_BIT 0 ;;
  ch43x_port_update CH43X_IER_REG CH43X_IER_RLSI_BIT 0.

Definition ch43x_stop_tx_work_proc : M unit :=
  o <- get_one ;;
  if tst (flags (rs485 o)) (SER_RS485_ENABLED K) then
    lsr <- ch43x_port_read CH43X_LSR_REG ;;
    if negb (tst lsr CH43X_LSR_TEMT_BIT) then ret tt
    else
      (if uart_circ_empty (xmit (port o)) && (delay_rts_after_send (rs485 o) >? 0)
       then emit (Mdelay (delay_rts_after_send (rs485 o)))
       else ret tt) ;;
      ch43x_port_update CH43X_IER_REG CH43X_IER_THRI_BIT 0
  else ch43x_port_update CH43X_IER_REG CH43X_IER_THRI_BIT 0.

(** *** Line configuration (ch43x_set_termios) *)

(** the word-size switch: the line-control value and the c_cflag it leaves *)
Definition termios_word_size (cflag : Z) : Z * Z :=
  let sz := Z.land cflag (CSIZE K) in
  if sz =? CS5 K then (CH43X_LCR_WORD_LEN_5, cflag)
  else if sz =? CS6 K then (CH43X_LCR_WORD_LEN_6, cflag)
  else if sz =? CS7 K then (CH43X_LCR_WORD_LEN_7, cflag)
  else if sz =? CS8 K then (CH43X_LCR_WORD_LEN_8, cflag)
  else (CH43X_LCR_WORD_LEN_8,
        Z.lor (Z.land cflag (Z.lnot (CSIZE K))) (CS8 K)).

(** [bParityType] and the parity switch *)
Definition termios_parity (cflag lcr : Z) : Z :=
  let bParityType :=
    u8 (if tst cflag (PARENB K)
        then (if tst cflag (PARODD K) then 1 else 2)
             + (if tst cflag (CMSPAR K) then 2 else 0)
        else 0) in
  let lcr := Z.lor lcr CH43X_LCR_PARITY_BIT in
  if bParityType =? 0x01 then Z.lor lcr CH43X_LCR_ODDPARITY_BIT
  else if bParityType =? 0x02 then Z.lor lcr CH43X_LCR_EVENPARITY_BIT
  else if bParityType =? 0x03 then Z.lor lcr CH43X_LCR_MARKPARITY_BIT
  else if bParityType =? 0x04 then Z.lor lcr CH43X_LCR_SPACEPARITY_BIT
  else Z.land lcr (Z.lnot CH43X_LCR_PARITY_BIT).

(** lines 824-877: from the requested c_cflag to the line-control value and
    the c_cflag written back into the caller's record *)
Definition termios_lcr (cflag : Z) : Z * Z :=
  let cflag := Z.land cflag (Z.lnot (CMSPAR K)) in
  let '(lcr, cflag) := termios_word_size cflag in
  let lcr := termios_parity cflag lcr in
  let lcr := if tst cflag (CSTOPB K) then Z.lor lcr CH43X_LCR_STOPLEN_BIT else lcr in
  (lcr, cflag).

(** lines 879-884 *)
Definition termios_read_status_mask (iflag : Z) : Z :=
  let m := CH43X_LSR_OE_BIT in
  let m := if tst iflag (INPCK K)
           then Z.lor m (Z.lor CH43X_LSR_PE_BIT CH43X_LSR_FE_BIT) else m in
  if tst iflag (Z.lor (BRKINT K) (PARMRK K)) then Z.lor m CH43X_LSR_BI_BIT else m.

(** lines 886-891 *)
Definition termios_ignore_status_mask (iflag cflag : Z) : Z :=
  let m := 0 in
  let m := if tst iflag (IGNBRK K) then Z.lor m CH43X_LSR_BI_BIT else m in
  if negb (tst cflag (CREAD K)) then Z.lor m CH43X_LSR_BRK_ERROR_MASK else m.

Definition ch43x_set_termios : M unit :=
  t <- get_termios ;;
  let '(lcr, cflag) := termios_lcr (c_cflag t) in
  set_termios_rec (mk_termios (c_iflag t) cflag (c_ospeed t)) ;;
  modify_port (upd_read_status_mask (termios_read_status_mask (c_iflag t))) ;;
  modify_port (upd_ignore_status_mask
                 (termios_ignore_status_mask (c_iflag t) cflag)) ;;
  ch43x_port_write CH43X_LCR_REG lcr ;;
  (if tst cflag (CRTSCTS K) then
     ch43x_port_update CH43X_MCR_REG (Z.lor CH43X_MCR_AFE CH43X_MCR_RTS_BIT)
       (Z.lor CH43X_MCR_AFE CH43X_MCR_RTS_BIT) ;;
     o <- get_one ;;
     set_one (upd_mcr_force
                (u8 (Z.lor (mcr_force o) (Z.lor CH43X_MCR_AFE CH43X_MCR_RTS_BIT))) o) ;;
     emit (CtsChange 1)
   else
     ch43x_port_update CH43X_MCR_REG CH43X_MCR_AFE 0 ;;
     o <- get_one ;;
     set_one (upd_mcr_force
                (u8 (Z.land (mcr_force o)
                       (Z.lnot (Z.lor CH43X_MCR_AFE CH43X_MCR_RTS_BIT)))) o)) ;;
  p <- get_port ;;
  t <- get_termios ;;
  let baud := uart_get_baud_rate K p t
                (uartclk p / 16 / 0xffff) (u32 (uartclk p / 16 * 24)) in
  baud <- ch43x_set_baud baud ;;
  emit (UpdateTimeout (c_cflag t) baud).

(** *** Shutdown (ch43x_shutdown) *)

Definition ch43x_shutdown : M unit :=
  p <- get_port ;;
  (if line p =? 0 then ch43x_port_write CH43X_IER_REG 0 else ret tt) ;;
  ch43x_port_write CH43X_MCR_REG 0 ;;
  o <- get_one ;;
  set_one (upd_mcr_force 0 o) ;;
  ch43x_power false.

End Driver.

(** ** A concrete kernel

    The bit layout of include/uapi/asm-generic/termbits.h, a 4096-byte
    transmit ring, a 64-bit [long], no sysrq support, and a baud-rate helper
    that honours c_ospeed inside the range it is given (9600 otherwise). *)
Definition linux : kernel :=
  {| CSIZE := 0x30; CS5 := 0x00; CS6 := 0x10; CS7 := 0x20; CS8 := 0x30;
     CSTOPB := 0x40; CREAD := 0x80; PARENB := 0x100; PARODD := 0x200;
     CMSPAR := 0x40000000; CRTSCTS := 0x80000000;
     INPCK := 0x10; BRKINT := 0x02; PARMRK := 0x08; IGNBRK := 0x01;
     SER_RS485_ENABLED := 1;
     UART_XMIT_SIZE := 4096;
     WAKEUP_CHARS := 256;
     BITS_PER_LONG := 64;
     uart_handle_break := fun _ => false;
     uart_handle_sysrq_char := fun _ _ => false;
     uart_get_baud_rate := fun _ t lo hi =>
       if (lo <=? c_ospeed t) && (c_ospeed t <=? hi) then c_ospeed t else 9600 |}.

(** a channel as ch43x_probe leaves it: clock = 2 x 22.1184 MHz *)
Definition probe_port (ln : Z) : uart_port :=
  {| line := ln; uartclk := CRYSTAL_FREQ * 2;
     read_status_mask := 0; ignore_status_mask := 0; x_char := 0; mctrl := 0;
     icount := mk_icount 0 0 0 0 0 0;
     xmit := mk_circ [] 0 0; tx_stopped := false |}.
Definition probe_one (ln : Z) : ch43x_one :=
  {| port := probe_port ln; rs485 := mk_rs485 0 0 0;
     msr_reg := 0; ier := 0; mcr_force := 0 |}.
Definition probe_machine (ln : Z) (t : ktermios) (w : list Z) : machine :=
  {| one := probe_one ln; termios := t; wire := w; trace := [] |}.

(** * Specification-side definitions, examples and tactics *)

(** ** Running the monad symbolically *)

Ltac run1 :=
  unfold bind, ret, oops, spin, get_one, get_port, get_termios, set_one,
    set_termios_rec, emit, modify_port, count, ch43x_port_read,
    ch43x_port_read_specify, ch43x_port_write, ch43x_port_write_spefify,
    ch43x_port_update, ch43x_port_update_specify, ch43x_raw_write, ch43x_power;
  cbn -[u8 u32 to_int tst rd_cmd wr_cmd next_read DIV_ROUND_CLOSEST ch_handler
        Z.land Z.lor Z.lnot Z.shiftl Z.modulo Z.div Z.add Z.mul Z.sub Z.eqb
        Z.ltb Z.gtb Z.pow Z.to_nat nth firstn app].
Ltac run := repeat progress run1.
(** expose nested field updates as explicit records *)
Ltac norm :=
  repeat progress
    (unfold upd_port, upd_mcr_force, upd_read_status_mask,
       upd_ignore_status_mask, upd_x_char, upd_icount, upd_xmit;
     run1).
Ltac flat := rewrite <- ?app_assoc; cbn [app].

(** a channel configured by set_termios (mask = overrun only), the chip
    answering 0x05 and then 0x04 for its interrupt-enable register *)
Definition stop_rx_example : machine :=
  {| one := upd_port (upd_read_status_mask CH43X_LSR_OE_BIT) (probe_one 0);
     termios := mk_termios 0 0 0;
     wire := [0x05; 0x04];
     trace := [] |}.

(** an RS485 channel with a 5 ms post-send delay and an empty ring; the chip
    answers the given bytes *)
Definition rs485_machine (w : list Z) : machine :=
  {| one := mk_one (probe_port 0) (mk_rs485 1 0 5) 0 0 CH43X_MCR_OUT2;
     termios := mk_termios 0 0 0;
     wire := w;
     trace := [] |}.

(** the counters after one received character with status [lsr] *)
Definition rx_counts (lsr : Z) (c : uart_icount) : uart_icount :=
  let c := add_rx 1 c in
  if tst lsr CH43X_LSR_BI_BIT then add_brk 1 c
  else if tst lsr CH43X_LSR_PE_BIT then add_parity 1 c
  else if tst lsr CH43X_LSR_FE_BIT then add_frame 1 c
  else if tst lsr CH43X_LSR_OE_BIT then add_overrun 1 c
  else c.

(** the status as it is when the flag is derived and the character inserted *)
Definition rx_status (lsr mask : Z) : Z :=
  if tst lsr CH43X_LSR_BRK_ERROR_MASK then
    Z.land (if tst lsr CH43X_LSR_BI_BIT
            then Z.land lsr (Z.lnot (Z.lor CH43X_LSR_FE_BIT CH43X_LSR_PE_BIT))
            else lsr) mask
  else lsr.

Definition rx_flag (status : Z) : tty_flag :=
  if tst status CH43X_LSR_BI_BIT then TTY_BREAK
  else if tst status CH43X_LSR_PE_BIT then TTY_PARITY
  else if tst status CH43X_LSR_FE_BIT then TTY_FRAME
  else TTY_NORMAL.

(** what one received character adds to the trace; [p] is the port as the
    hooks see it *)
Definition rx_events (K : kernel) (lsr ch : Z) (p : uart_port) : list event :=
  let status := rx_status lsr (read_status_mask p) in
  if tst lsr CH43X_LSR_BI_BIT && uart_handle_break K p then []
  else (if tst status CH43X_LSR_OE_BIT then [DevErrOverrun] else [])
       ++ (if uart_handle_sysrq_char K p ch then []
           else [InsertChar status CH43X_LSR_OE_BIT ch (rx_flag status)]).

(** a channel whose read-status-mask is [mask], nothing on the wire *)
Definition rx_machine (mask : Z) : machine :=
  {| one := upd_port (upd_read_status_mask mask) (probe_one 0);
     termios := mk_termios 0 0 0;
     wire := [];
     trace := [] |}.

Inductive word_length := Bits5 | Bits6 | Bits7 | Bits8.
Inductive parity_mode :=
  ParityNone | ParityOdd | ParityEven | ParityMark | ParitySpace.
Inductive stop_bits := Stop1 | Stop2.

Record line_config := mk_config {
  cfg_word : word_length; cfg_parity : parity_mode; cfg_stop : stop_bits }.

(** the configuration a c_cflag word asks for, by the termios conventions the
    driver itself reads it with: CSIZE selects the word length, PARENB turns
    parity on, PARODD picks odd over even, CMSPAR turns odd/even into
    mark/space, CSTOPB asks for two stop bits *)
Definition requested_word (K : kernel) (cflag : Z) : option word_length :=
  let sz := Z.land cflag (CSIZE K) in
  if sz =? CS5 K then Some Bits5
  else if sz =? CS6 K then Some Bits6
  else if sz =? CS7 K then Some Bits7
  else if sz =? CS8 K then Some Bits8
  else None.

Definition requested_parity (K : kernel) (cflag : Z) : parity_mode :=
  if tst cflag (PARENB K) then
    if tst cflag (CMSPAR K)
    then (if tst cflag (PARODD K) then ParityMark else ParitySpace)
    else (if tst cflag (PARODD K) then ParityOdd else ParityEven)
  else ParityNone.

Definition requested_stop (K : kernel) (cflag : Z) : stop_bits :=
  if tst cflag (CSTOPB K) then Stop2 else Stop1.

Definition requested_config (K : kernel) (cflag : Z) : option line_config :=
  match requested_word K cflag with
  | Some w => Some (mk_config w (requested_parity K cflag) (requested_stop K cflag))
  | None => None
  end.

(** the configuration a line-control byte stands for, by the bit tables of
    the #define block: bits 1:0 word length, bit 2 stop length, bit 3 parity
    enable, bits 5:4 odd / even / mark / space *)
Definition lcr_word (lcr : Z) : word_length :=
  let f := Z.land lcr (Z.lor CH43X_LCR_LENGTH1_BIT CH43X_LCR_LENGTH0_BIT) in
  if f =? CH43X_LCR_WORD_LEN_5 then Bits5
  else if f =? CH43X_LCR_WORD_LEN_6 then Bits6
  else if f =? CH43X_LCR_WORD_LEN_7 then Bits7
  else Bits8.

Definition lcr_parity (lcr : Z) : parity_mode :=
  if tst lcr CH43X_LCR_PARITY_BIT then
    let f := Z.land lcr CH43X_LCR_SPACEPARITY_BIT in
    if f =? CH43X_LCR_ODDPARITY_BIT then ParityOdd
    else if f =? CH43X_LCR_EVENPARITY_BIT then ParityEven
    else if f =? CH43X_LCR_MARKPARITY_BIT then ParityMark
    else ParitySpace
  else ParityNone.

Definition lcr_stop (lcr : Z) : stop_bits :=
  if tst lcr CH43X_LCR_STOPLEN_BIT then Stop2 else Stop1.

Definition lcr_config (lcr : Z) : line_config :=
  mk_config (lcr_word lcr) (lcr_parity lcr) (lcr_stop lcr).

(** what becomes of a parity request once CMSPAR has been masked out *)
Definition without_stick (p : parity_mode) : parity_mode :=
  match p with
  | ParityMark => ParityOdd
  | ParitySpace => ParityEven
  | _ => p
  end.

(** CMSPAR shares no bit with the other c_cflag fields the driver reads *)
Definition cmspar_separate (K : kernel) : Prop :=
  Z.land (CMSPAR K) (CSIZE K) = 0 /\ Z.land (CMSPAR K) (PARENB K) = 0
  /\ Z.land (CMSPAR K) (PARODD K) = 0 /\ Z.land (CMSPAR K) (CSTOPB K) = 0.

(** 7 data bits, even parity, two stop bits, receiver on, 115200 baud *)
Definition termios_7E2 : ktermios :=
  mk_termios 0 (Z.lor (CS7 linux) (Z.lor (PARENB linux)
                  (Z.lor (CSTOPB linux) (CREAD linux)))) 115200.

(** 8 data bits, mark parity (PARENB | PARODD | CMSPAR), one stop bit *)
Definition termios_8M1 : ktermios :=
  mk_termios 0 (Z.lor (CS8 linux) (Z.lor (PARENB linux)
                  (Z.lor (PARODD linux) (Z.lor (CMSPAR linux) (CREAD linux)))))
    9600.

(** 8 data bits, no parity, no input checks, 115200 baud *)
Definition termios_raw : ktermios :=
  mk_termios 0 (Z.lor (CS8 linux) (CREAD linux)) 115200.

(** input parity checking off, break reporting on (BRKINT) *)
Definition termios_brkint : ktermios :=
  mk_termios (BRKINT linux) (Z.lor (CS8 linux) (CREAD linux)) 115200.

(** [n] consecutive bytes of the ring [b], starting at position [t] and
    wrapping at UART_XMIT_SIZE *)
Definition ring_bytes (K : kernel) (b : list Z) (t : Z) (n : nat) : list Z :=
  map (fun i => nth (Z.to_nat ((t + Z.of_nat i) mod UART_XMIT_SIZE K)) b 0)
    (seq 0 n).

(** the wake-up decision after a chunk, [left] bytes remaining *)
Definition wakeup (K : kernel) (left : Z) : list event :=
  if left <? WAKEUP_CHARS K then [WriteWakeup] else [].

(** a 4096-byte ring holding byte [i mod 256] at position [i], with 40 bytes
    pending across the wrap-around: tail 4090, head 34 *)
Definition tx_machine : machine :=
  {| one := upd_port
              (upd_xmit (mk_circ (map (fun i => Z.of_nat i mod 256) (seq 0 4096))
                           34 4090))
              (probe_one 0);
     termios := mk_termios 0 0 0;
     wire := [0x0F];
     trace := [] |}.

(** the c_cflag word that asks for a configuration *)
Definition cflag_of_config (K : kernel) (cfg : line_config) : Z :=
  Z.lor (match cfg_word cfg with
         | Bits5 => CS5 K | Bits6 => CS6 K | Bits7 => CS7 K | Bits8 => CS8 K
         end)
    (Z.lor (match cfg_parity cfg with
            | ParityNone => 0
            | ParityOdd => Z.lor (PARENB K) (PARODD K)
            | ParityEven => PARENB K
            | ParityMark => Z.lor (PARENB K) (Z.lor (PARODD K) (CMSPAR K))
            | ParitySpace => Z.lor (PARENB K) (CMSPAR K)
            end)
       (match cfg_stop cfg with Stop1 => 0 | Stop2 => CSTOPB K end)).

(** * The rest of the driver

    The functions of ch432.c that the development above did not need: the
    chip test, the interrupt dispatch loop, the modem-control and break
    services, the RS485 ioctl, start-up, power management and the register
    dump.  They run in the same monad over the same machine. *)

(** ** More of the #define block *)

Definition CH43X_FCR_FIFO_BIT : Z := Z.shiftl 1 0.
Definition CH43X_FCR_RXRESET_BIT : Z := Z.shiftl 1 1.
Definition CH43X_FCR_TXRESET_BIT : Z := Z.shiftl 1 2.
Definition CH43X_FCR_RXLVLL_BIT : Z := Z.shiftl 1 6.
Definition CH43X_FCR_RXLVLH_BIT : Z := Z.shiftl 1 7.

Definition CH43X_IIR_NO_INT_BIT : Z := Z.shiftl 1 0.
Definition CH43X_IIR_ID_MASK : Z := 0x0e.
Definition CH43X_IIR_THRI_SRC : Z := 0x02.
Definition CH43X_IIR_RDI_SRC : Z := 0x04.
Definition CH43X_IIR_RTOI_SRC : Z := 0x0c.
Definition CH43X_IIR_MSI_SRC : Z := 0x00.

Definition IOCTL_MAGIC : Z := 87. (* 'W' *)

(** What these functions take from linux/serial_reg.h, linux/tty.h,
    linux/serial_core.h, the errno and the ioctl headers: the modem bit
    layouts on both sides, a few codes, and the two ioctl number macros
    (type, number, size of the argument). *)
Record serial_abi := mk_abi {
  TIOCM_DTR : Z; TIOCM_RTS : Z; TIOCM_CAR : Z; TIOCM_RNG : Z; TIOCM_DSR : Z;
  TIOCM_CTS : Z; TIOCM_OUT1 : Z; TIOCM_OUT2 : Z; TIOCM_LOOP : Z;
  UART_MSR_DCD : Z; UART_MSR_RI : Z; UART_MSR_DSR : Z; UART_MSR_CTS : Z;
  UART_MCR_RTS : Z; UART_MCR_DTR : Z; UART_MCR_OUT1 : Z; UART_MCR_OUT2 : Z;
  UART_MCR_LOOP : Z;
  TIOCSER_TEMT : Z;
  UART_PM_STATE_ON : Z;
  EFAULT : Z; ENOIOCTLCMD : Z;
  IOR : Z -> Z -> Z -> Z;
  IOW : Z -> Z -> Z -> Z }.

(** the log calls that stay compiled in (dev_err); a message changes neither
    the channel nor the bus and is not recorded *)
Inductive err_msg :=
| ErrRxOverrun | ErrUnexpectedInterrupt | ErrSprTestFailed.
Definition dev_err (msg : err_msg) : M unit := ret tt.

(** udelay: a busy wait of [us] microseconds, which changes neither the
    channel nor the bus; the trace times only the RS485 turnaround *)
Definition udelay (us : Z) : M unit := ret tt.

Definition upd_msr_reg (v : Z) (o : ch43x_one) : ch43x_one :=
  mk_one (port o) (rs485 o) v (ier o) (mcr_force o).
Definition upd_rs485 (r : serial_rs485) (o : ch43x_one) : ch43x_one :=
  mk_one (port o) r (msr_reg o) (ier o) (mcr_force o).

(** the ioctl argument as the kernel finds it: an address it cannot access,
    or a user buffer holding a record *)
Inductive user_arg := UserFault | UserBuf (r : serial_rs485).

Section Services.

Variable K : kernel.
Variable A : serial_abi.

Definition IOCTL_CMD_GRS485 : Z := IOR A IOCTL_MAGIC 0x86 2.
Definition IOCTL_CMD_SRS485 : Z := IOW A IOCTL_MAGIC 0x87 2.

(** *** Chip test (ch43x_spi_test) *)

Definition ch43x_spi_test : M Z :=
  _ <- ch43x_port_read CH43X_IIR_REG ;;
  _ <- ch43x_port_read CH43X_LSR_REG ;;
  ch43x_port_write CH43X_SPR_REG 0x55 ;;
  val <- ch43x_port_read CH43X_SPR_REG ;;
  if negb (val =? 0x55) then
    dev_err ErrSprTestFailed ;; ret (-1)
  else
    ch43x_port_write CH43X_SPR_REG 0xAA ;;
    val <- ch43x_port_read CH43X_SPR_REG ;;
    if negb (val =? 0xAA) then
      dev_err ErrSprTestFailed ;; ret (-1)
    else ret 0.

(** *** Interrupt dispatch (ch43x_port_irq) *)

(** one turn of the do-while loop per unit of fuel; [fuel] also bounds the
    polling inside ch43x_handle_rx *)
Fixpoint ch43x_port_irq (fuel : nat) : M unit :=
  lsr <- ch43x_port_read CH43X_LSR_REG ;;
  (if tst lsr 0x02 then dev_err ErrRxOverrun else ret tt) ;;
  iir <- ch43x_port_read CH43X_IIR_REG ;;
  if tst iir CH43X_IIR_NO_INT_BIT then ret tt
  else
    let iir := Z.land iir CH43X_IIR_ID_MASK in
    (if (iir =? CH43X_IIR_RDI_SRC) || (iir =? CH43X_IIR_RLSE_SRC)
        || (iir =? CH43X_IIR_RTOI_SRC)
     then ch43x_handle_rx K fuel iir
     else if iir =? CH43X_IIR_MSI_SRC then
       msr <- ch43x_port_read CH43X_MSR_REG ;;
       o <- get_one ;;
       set_one (upd_msr_reg (u8 msr) o)
     else if iir =? CH43X_IIR_THRI_SRC then ch43x_handle_tx K
     else dev_err ErrUnexpectedInterrupt) ;;
    match fuel with
    | O => spin
    | S fuel' => ch43x_port_irq fuel'
    end.

(** *** Start of transmission (ch43x_wq_proc, ch43x_start_tx) *)

Definition ch43x_wq_proc : M unit :=
  ch43x_port_update CH43X_IER_REG CH43X_IER_THRI_BIT CH43X_IER_THRI_BIT.

(** [pending] is what work_pending(&one->tx_work) answers; the result tells
    whether schedule_work(&one->tx_work) was called *)
Definition ch43x_start_tx (pending : bool) : M bool :=
  o <- get_one ;;
  (if tst (flags (rs485 o)) (SER_RS485_ENABLED K)
      && (delay_rts_before_send (rs485 o) >? 0)
   then emit (Mdelay (delay_rts_before_send (rs485 o)))
   else ret tt) ;;
  if negb pending then ret true else ret false.

(** *** Line and modem status (ch43x_tx_empty, ch43x_get_mctrl) *)


Definition ch43x_get_mctrl : M Z :=
  o <- get_one ;;
  let status := msr_reg o in
  let r := 0 in
  let r := if tst status (UART_MSR_DCD A) then Z.lor r (TIOCM_CAR A) else r in
  let r := if tst status (UART_MSR_RI A) then Z.lor r (TIOCM_RNG A) else r in
  let r := if tst status (UART_MSR_DSR A) then Z.lor r (TIOCM_DSR A) else r in
  let r := if tst status (UART_MSR_CTS A) then Z.lor r (TIOCM_CTS A) else r in
  ret (u32 r).

(** *** Modem control (ch43x_md_proc) and break (ch43x_break_ctl) *)

Definition ch43x_md_proc : M unit :=
  o <- get_one ;;
  let mctrl := mctrl (port o) in
  let mcr := 0 in
  let mcr := if tst mctrl (TIOCM_RTS A) then u8 (Z.lor mcr (UART_MCR_RTS A)) else mcr in
  let mcr := if tst mctrl (TIOCM_DTR A) then u8 (Z.lor mcr (UART_MCR_DTR A)) else mcr in
  let mcr := if tst mctrl (TIOCM_OUT1 A) then u8 (Z.lor mcr (UART_MCR_OUT1 A)) else mcr in
  let mcr := if tst mctrl (TIOCM_OUT2 A) then u8 (Z.lor mcr (UART_MCR_OUT2 A)) else mcr in
  let mcr := if tst mctrl (TIOCM_LOOP A) then u8 (Z.lor mcr (UART_MCR_LOOP A)) else mcr in
  let mcr := u8 (Z.lor mcr (mcr_force o)) in
  ch43x_port_write CH43X_MCR_REG mcr.

Definition ch43x_break_ctl (break_state : Z) : M unit :=
  ch43x_port_update CH43X_LCR_REG CH43X_LCR_TXBREAK_BIT
    (if negb (break_state =? 0) then CH43X_LCR_TXBREAK_BIT else 0).

(** *** RS485 configuration (ch43x_config_rs485, ch43x_ioctl) *)

Definition ch43x_config_rs485 (r : serial_rs485) : M unit :=
  o <- get_one ;; set_one (upd_rs485 r o).

(** the result is the return value and the user buffer afterwards *)
Definition ch43x_ioctl (cmd : Z) (arg : user_arg) : M (Z * user_arg) :=
  if cmd =? IOCTL_CMD_SRS485 then
    match arg with
    | UserFault => ret (- EFAULT A, arg)
    | UserBuf r => ch43x_config_rs485 r ;; ret (0, arg)
    end
  else if cmd =? IOCTL_CMD_GRS485 then
    match arg with
    | UserFault => ret (- EFAULT A, arg)
    | UserBuf _ => o <- get_one ;; ret (0, UserBuf (rs485 o))
    end
  else ret (- ENOIOCTLCMD A, arg).

(** *** Start-up and power (ch43x_startup, ch43x_pm) *)

Definition ch43x_startup : M Z :=
  ch43x_power true ;;
  let val := Z.lor CH43X_FCR_RXRESET_BIT CH43X_FCR_TXRESET_BIT in
  ch43x_port_write CH43X_FCR_REG val ;;
  udelay 5 ;;
  ch43x_port_write CH43X_FCR_REG
    (Z.lor CH43X_FCR_RXLVLH_BIT CH43X_FCR_FIFO_BIT) ;;
  ch43x_port_write CH43X_LCR_REG CH43X_LCR_WORD_LEN_8 ;;
  val <- ch43x_port_read CH43X_IER_REG ;;
  let val := Z.lor val (Z.lor (Z.lor CH43X_IER_RDI_BIT CH43X_IER_RLSI_BIT)
                          CH43X_IER_MSI_BIT) in
  ch43x_port_write CH43X_IER_REG val ;;
  ch43x_port_write CH43X_MCR_REG CH43X_MCR_OUT2 ;;
  o <- get_one ;;
  set_one (upd_mcr_force CH43X_MCR_OUT2 o) ;;
  ret 0.

Definition ch43x_pm (state : Z) : M unit :=
  ch43x_power (state =? UART_PM_STATE_ON A).

(** *** Register dump (ch43x_dump_register) *)

(** [for (i = first; i < first + n; i++) reg = ch43x_port_read(port, i);] *)
Fixpoint dump_reads (first : Z) (n : nat) : M unit :=
  match n with
  | O => ret tt
  | S n' => _ <- ch43x_port_read (u8 first) ;; dump_reads (first + 1) n'
  end.

Definition ch43x_dump_register : M Z :=
  lcr <- ch43x_port_read CH43X_LCR_REG ;;
  ch43x_port_write CH43X_LCR_REG CH43X_LCR_CONF_MODE_A ;;
  dump_reads 0 1 ;;
  ch43x_port_update CH43X_LCR_REG CH43X_LCR_CONF_MODE_A 0 ;;
  dump_reads 0 16 ;;
  ch43x_port_write CH43X_LCR_REG lcr ;;
  ret 0.

End Services.

(** the values of the Linux headers; _IOR and _IOW as on the asm-generic
    ioctl layout *)
Definition linux_abi : serial_abi :=
  {| TIOCM_DTR := 0x002; TIOCM_RTS := 0x004; TIOCM_CAR := 0x040;
     TIOCM_RNG := 0x080; TIOCM_DSR := 0x100; TIOCM_CTS := 0x020;
     TIOCM_OUT1 := 0x2000; TIOCM_OUT2 := 0x4000; TIOCM_LOOP := 0x8000;
     UART_MSR_DCD := 0x80; UART_MSR_RI := 0x40; UART_MSR_DSR := 0x20;
     UART_MSR_CTS := 0x10;
     UART_MCR_RTS := 0x02; UART_MCR_DTR := 0x01; UART_MCR_OUT1 := 0x04;
     UART_MCR_OUT2 := 0x08; UART_MCR_LOOP := 0x10;
     TIOCSER_TEMT := 0x01;
     UART_PM_STATE_ON := 0;
     EFAULT := 14; ENOIOCTLCMD := 515;
     IOR := fun ty nr sz =>
       Z.lor (Z.shiftl 2 30) (Z.lor (Z.shiftl sz 16) (Z.lor (Z.shiftl ty 8) nr));
     IOW := fun ty nr sz =>
       Z.lor (Z.shiftl 1 30) (Z.lor (Z.shiftl sz 16) (Z.lor (Z.shiftl ty 8) nr)) |}.

(** ** Specification-side definitions for the rest of the driver *)


(** running the monad with the larger functions kept folded, so that their
    own lemmas can be used on the calls *)
Ltac step1 :=
  unfold bind, ret, oops, spin, get_one, get_port, get_termios, set_one,
    set_termios_rec, emit, modify_port, count, ch43x_port_read,
    ch43x_port_read_specify, ch43x_port_write, ch43x_port_write_spefify,
    ch43x_port_update, ch43x_port_update_specify, ch43x_raw_write, ch43x_power,
    dev_err, udelay;
  cbn -[u8 u32 to_int tst rd_cmd wr_cmd next_read DIV_ROUND_CLOSEST ch_handler
        ch43x_set_baud ch43x_handle_rx ch43x_handle_tx ch43x_port_irq
        rx_drain wait_dr
        Z.land Z.lor Z.lnot Z.shiftl Z.modulo Z.div Z.add Z.mul Z.sub Z.eqb
        Z.ltb Z.gtb Z.pow Z.to_nat Z.opp nth firstn app].
Ltac steps :=
  repeat progress
    (unfold upd_port, upd_mcr_force, upd_read_status_mask,
       upd_ignore_status_mask, upd_x_char, upd_icount, upd_xmit,
       upd_msr_reg, upd_rs485;
     step1).

(** the four TIOCM_* bits ch43x_get_mctrl reports are non-empty 32-bit
    values with no bit in common *)
Definition modem_bits_separate (A : serial_abi) : Prop :=
  (0 < TIOCM_CAR A < 2 ^ 32 /\ 0 < TIOCM_RNG A < 2 ^ 32
   /\ 0 < TIOCM_DSR A < 2 ^ 32 /\ 0 < TIOCM_CTS A < 2 ^ 32)
  /\ Z.land (TIOCM_CAR A) (TIOCM_RNG A) = 0
  /\ Z.land (TIOCM_CAR A) (TIOCM_DSR A) = 0
  /\ Z.land (TIOCM_CAR A) (TIOCM_CTS A) = 0
  /\ Z.land (TIOCM_RNG A) (TIOCM_DSR A) = 0
  /\ Z.land (TIOCM_RNG A) (TIOCM_CTS A) = 0
  /\ Z.land (TIOCM_DSR A) (TIOCM_CTS A) = 0.

(** the characters handed to the tty layer, in the order of the trace *)
Fixpoint delivered (t : list event) : list Z :=
  match t with
  | [] => []
  | InsertChar _ _ ch _ :: t' => ch :: delivered t'
  | _ :: t' => delivered t'
  end.

(** the payload bytes written to the chip in bursts, in the order of the
    trace *)
Fixpoint sent (t : list event) : list Z :=
  match t with
  | [] => []
  | SpiBurst _ data :: t' => data ++ sent t'
  | _ :: t' => sent t'
  end.

(** the chip's answers while a receive FIFO is drained: for each character a
    line status and the character itself, then the status that ends the loop *)
Definition rx_answers (l : list (Z * Z)) (last : Z) : list Z :=
  flat_map (fun sc => [fst sc; snd sc]) l ++ [last].

(** [n] calls in a row *)
Fixpoint times (n : nat) (c : M unit) : M unit :=
  match n with
  | O => ret tt
  | S n' => c ;; times n' c
  end.

(** hardware flow control requested *)
Definition termios_crtscts : ktermios :=
  mk_termios 0 (Z.lor (CS8 linux) (Z.lor (CREAD linux) (CRTSCTS linux))) 115200.

(** * Verification *)

(** ** Bit-level toolkit *)

Lemma u8_range (x : Z) : 0 <= u8 x < 256.
Proof. unfold u8. apply Z.mod_pos_bound. lia. Qed.

Lemma u8_small (x : Z) : 0 <= x < 256 -> u8 x = x.
Proof. intros H. unfold u8. apply Z.mod_small. exact H. Qed.

Lemma u8_idem (x : Z) : u8 (u8 x) = u8 x.
Proof. apply u8_small, u8_range. Qed.

Lemma u8_as_land (x : Z) : u8 x = Z.land x 255.
Proof.
  unfold u8. change 255 with (Z.ones 8). rewrite Z.land_ones by lia. reflexivity.
Qed.

Lemma u8_land (x y : Z) : u8 (Z.land x y) = Z.land (u8 x) y.
Proof.
  rewrite !u8_as_land, <- !Z.land_assoc, (Z.land_comm y 255). reflexivity.
Qed.

Lemma u8_lor (x y : Z) : u8 (Z.lor x y) = Z.lor (u8 x) (u8 y).
Proof. rewrite !u8_as_land. apply Z.land_lor_distr_l. Qed.

Lemma land_pow2 (x k : Z) :
  0 <= k -> Z.land x (2 ^ k) = if Z.testbit x k then 2 ^ k else 0.
Proof.
  intros Hk. apply Z.bits_inj'. intros i Hi.
  rewrite Z.land_spec, Z.pow2_bits_eqb by exact Hk.
  destruct (Z.eqb_spec k i) as [->|Hne].
  - destruct (Z.testbit x i); simpl.
    + symmetry. apply Z.pow2_bits_true. exact Hi.
    + rewrite Z.bits_0. reflexivity.
  - rewrite andb_false_r.
    destruct (Z.testbit x k).
    + symmetry. apply Z.pow2_bits_false. exact Hne.
    + rewrite Z.bits_0. reflexivity.
Qed.

Lemma tst_pow2 (x k : Z) : 0 <= k -> tst x (2 ^ k) = Z.testbit x k.
Proof.
  intros Hk. unfold tst. rewrite land_pow2 by exact Hk.
  destruct (Z.testbit x k).
  - assert (0 < 2 ^ k) by (apply Z.pow_pos_nonneg; lia).
    destruct (Z.eqb_spec (2 ^ k) 0); [lia | reflexivity].
  - reflexivity.
Qed.

Lemma tst_lor (x a b : Z) : tst x (Z.lor a b) = tst x a || tst x b.
Proof.
  unfold tst. rewrite Z.land_lor_distr_r.
  destruct (Z.eqb_spec (Z.land x a) 0) as [Ha|Ha];
    destruct (Z.eqb_spec (Z.land x b) 0) as [Hb|Hb]; simpl;
    destruct (Z.eqb_spec (Z.lor (Z.land x a) (Z.land x b)) 0) as [H|H];
    try reflexivity; exfalso.
  - apply H. apply Z.lor_eq_0_iff. split; assumption.
  - apply Z.lor_eq_0_iff in H. tauto.
  - apply Z.lor_eq_0_iff in H. tauto.
  - apply Z.lor_eq_0_iff in H. tauto.
Qed.

Lemma tst_0_l (mask : Z) : tst 0 mask = false.
Proof. unfold tst. rewrite Z.land_0_l. reflexivity. Qed.

(** the status bits, as bit numbers *)
Lemma tst_DR x : tst x CH43X_LSR_DR_BIT = Z.testbit x 0.
Proof. apply (tst_pow2 x 0). lia. Qed.
Lemma tst_OE x : tst x CH43X_LSR_OE_BIT = Z.testbit x 1.
Proof. apply (tst_pow2 x 1). lia. Qed.
Lemma tst_PE x : tst x CH43X_LSR_PE_BIT = Z.testbit x 2.
Proof. apply (tst_pow2 x 2). lia. Qed.
Lemma tst_FE x : tst x CH43X_LSR_FE_BIT = Z.testbit x 3.
Proof. apply (tst_pow2 x 3). lia. Qed.
Lemma tst_BI x : tst x CH43X_LSR_BI_BIT = Z.testbit x 4.
Proof. apply (tst_pow2 x 4). lia. Qed.
Lemma tst_BRK_ERROR_MASK x :
  tst x CH43X_LSR_BRK_ERROR_MASK
  = Z.testbit x 1 || Z.testbit x 2 || Z.testbit x 3 || Z.testbit x 4.
Proof.
  change CH43X_LSR_BRK_ERROR_MASK
    with (Z.lor (Z.lor (Z.lor CH43X_LSR_OE_BIT CH43X_LSR_PE_BIT) CH43X_LSR_FE_BIT)
            CH43X_LSR_BI_BIT).
  rewrite !tst_lor, tst_OE, tst_PE, tst_FE, tst_BI. reflexivity.
Qed.

(** what ch43x_port_update writes when it clears, resp. sets, [mask] *)
Lemma update_clear (r mask : Z) :
  u8 (Z.lor (Z.land (u8 r) (Z.lnot mask)) (Z.land 0 mask))
  = Z.land (u8 r) (Z.lnot mask).
Proof.
  rewrite Z.land_0_l, Z.lor_0_r, u8_land, u8_idem. reflexivity.
Qed.

Lemma update_set (r mask : Z) :
  0 <= mask < 256 ->
  u8 (Z.lor (Z.land (u8 r) (Z.lnot mask)) (Z.land mask mask))
  = Z.lor (u8 r) mask.
Proof.
  intros Hm. rewrite Z.land_diag, u8_lor, u8_land, u8_idem, (u8_small mask) by exact Hm.
  apply Z.bits_inj'. intros i Hi.
  rewrite !Z.lor_spec, Z.land_spec, Z.lnot_spec by exact Hi.
  destruct (Z.testbit (u8 r) i), (Z.testbit mask i); reflexivity.
Qed.

(** ** Deferred stop-rx (ch43x_stop_rx_work_proc) *)

Lemma clear_DR_keeps_OE (mask : Z) :
  tst (Z.land mask (Z.lnot CH43X_LSR_DR_BIT)) CH43X_LSR_OE_BIT
  = tst mask CH43X_LSR_OE_BIT.
Proof.
  rewrite !tst_OE, Z.land_spec, Z.lnot_spec by lia.
  change (Z.testbit CH43X_LSR_DR_BIT 1) with false.
  apply andb_true_r.
Qed.

Lemma clear_DR_clears_DR (mask : Z) :
  tst (Z.land mask (Z.lnot CH43X_LSR_DR_BIT)) CH43X_LSR_DR_BIT = false.
Proof.
  rewrite tst_DR, Z.land_spec, Z.lnot_spec by lia.
  change (Z.testbit CH43X_LSR_DR_BIT 0) with true.
  apply andb_false_r.
Qed.

(** C6, as amended: the deferred stop-rx action removes the data-ready bit
    (bit 0) from the channel's read-status-mask -- the overrun bit of the mask
    is left exactly as it was -- and clears first the RX-data and then the
    RX-line-status enable bit of the interrupt-enable register, each by a
    read-modify-write of its own; the rest of the channel state is unchanged
    and nothing else is sent to the chip. *)
Theorem stop_rx_work_proc_effect (m : machine) :
  ch43x_stop_rx_work_proc m
  = Done tt
      {| one := upd_port
                  (upd_read_status_mask
                     (Z.land (read_status_mask (port (one m)))
                        (Z.lnot CH43X_LSR_DR_BIT)))
                  (one m);
         termios := termios m;
         wire := tl (tl (wire m));
         trace := trace m ++
           [SpiRead (rd_cmd (line (port (one m))) CH43X_IER_REG)
              (next_read (wire m));
            SpiWrite (wr_cmd (line (port (one m))) CH43X_IER_REG)
              (Z.land (next_read (wire m)) (Z.lnot CH43X_IER_RDI_BIT));
            SpiRead (rd_cmd (line (port (one m))) CH43X_IER_REG)
              (next_read (tl (wire m)));
            SpiWrite (wr_cmd (line (port (one m))) CH43X_IER_REG)
              (Z.land (next_read (tl (wire m))) (Z.lnot CH43X_IER_RLSI_BIT))] |}
  /\ tst (Z.land (read_status_mask (port (one m))) (Z.lnot CH43X_LSR_DR_BIT))
       CH43X_LSR_OE_BIT
     = tst (read_status_mask (port (one m))) CH43X_LSR_OE_BIT
  /\ tst (Z.land (read_status_mask (port (one m))) (Z.lnot CH43X_LSR_DR_BIT))
       CH43X_LSR_DR_BIT
     = false.
Proof.
  split; [| split].
  - unfold ch43x_stop_rx_work_proc. run. flat.
    unfold next_read. rewrite !update_clear. reflexivity.
  - apply clear_DR_keeps_OE.
  - apply clear_DR_clears_DR.
Qed.

(** C6 as stated fails: after the stop-rx action the overrun bit is still in
    the read-status-mask. *)
Lemma stop_rx_keeps_overrun_bit :
  exists m',
    ch43x_stop_rx_work_proc stop_rx_example = Done tt m'
    /\ read_status_mask (port (one stop_rx_example)) = CH43X_LSR_OE_BIT
    /\ read_status_mask (port (one m')) = CH43X_LSR_OE_BIT
    /\ trace m' = [SpiRead 0x04 0x05; SpiWrite 0x06 0x04;
                   SpiRead 0x04 0x04; SpiWrite 0x06 0x00].
Proof.
  eexists. split; [vm_compute; reflexivity |].
  split; [reflexivity |]. split; reflexivity.
Qed.

(** ** Shutdown (ch43x_shutdown) *)

Lemma set_SLEEP (r : Z) :
  u8 (Z.lor (Z.land (u8 r) (Z.lnot CH43X_IER_SLEEP_BIT))
        (Z.land CH43X_IER_SLEEP_BIT CH43X_IER_SLEEP_BIT))
  = Z.lor (u8 r) CH43X_IER_SLEEP_BIT.
Proof. apply update_set. unfold CH43X_IER_SLEEP_BIT. simpl. lia. Qed.

(** C9, as amended: shutting a channel down writes zero to that channel's
    modem-control register, clears its forced modem-control bits and sets the
    sleep bit in the interrupt-enable register of channel 0 (by
    read-modify-write); the interrupt-enable register is written with zero
    only when the channel is channel 0 -- for channel 1 its interrupt-enable
    register is not written at all. *)
Theorem shutdown_effect (m : machine) :
  ch43x_shutdown m
  = Done tt
      {| one := upd_mcr_force 0 (one m);
         termios := termios m;
         wire := tl (wire m);
         trace := trace m ++
           (if line (port (one m)) =? 0
            then [SpiWrite (wr_cmd (line (port (one m))) CH43X_IER_REG) 0]
            else []) ++
           [SpiWrite (wr_cmd (line (port (one m))) CH43X_MCR_REG) 0;
            SpiRead (rd_cmd 0 CH43X_IER_REG) (next_read (wire m));
            SpiWrite (wr_cmd 0 CH43X_IER_REG)
              (Z.lor (next_read (wire m)) CH43X_IER_SLEEP_BIT)] |}.
Proof.
  unfold ch43x_shutdown. run.
  destruct (line (port (one m)) =? 0); run; flat;
    unfold next_read; rewrite set_SLEEP; reflexivity.
Qed.

(** C9 as stated fails for channel 1: its shutdown sends three transactions,
    none of which writes the interrupt-enable register of channel 1 (address
    byte 0x26); the sleep bit goes to channel 0's register (0x06). *)
Lemma shutdown_channel1_leaves_ier :
  exists m',
    ch43x_shutdown (probe_machine 1 (mk_termios 0 0 0) [0x0D]) = Done tt m'
    /\ wr_cmd 1 CH43X_IER_REG = 0x26
    /\ trace m' = [SpiWrite 0x32 0; SpiRead 0x04 0x0D; SpiWrite 0x06 0x2D]
    /\ forall v, ~ In (SpiWrite (wr_cmd 1 CH43X_IER_REG) v) (trace m').
Proof.
  eexists. split; [vm_compute; reflexivity |].
  split; [reflexivity |]. split; [reflexivity |].
  intros v H. vm_compute in H.
  repeat (destruct H as [H | H]; [discriminate H |]). exact H.
Qed.

(** ** Deferred stop-tx and the RS485 turnaround (ch43x_stop_tx_work_proc) *)

Lemma clear_THRI (r : Z) :
  u8 (Z.lor (Z.land (u8 r) (Z.lnot CH43X_IER_THRI_BIT))
        (Z.land 0 CH43X_IER_THRI_BIT))
  = Z.land (u8 r) (Z.lnot CH43X_IER_THRI_BIT).
Proof. apply update_clear. Qed.

(** without RS485 the action is the plain read-modify-write that clears the
    TX-ready enable bit *)
Lemma stop_tx_work_proc_plain (K : kernel) (m : machine) :
  tst (flags (rs485 (one m))) (SER_RS485_ENABLED K) = false ->
  ch43x_stop_tx_work_proc K m
  = Done tt
      {| one := one m; termios := termios m; wire := tl (wire m);
         trace := trace m ++
           [SpiRead (rd_cmd (line (port (one m))) CH43X_IER_REG)
              (next_read (wire m));
            SpiWrite (wr_cmd (line (port (one m))) CH43X_IER_REG)
              (Z.land (next_read (wire m)) (Z.lnot CH43X_IER_THRI_BIT))] |}.
Proof.
  intros Hoff. unfold ch43x_stop_tx_work_proc. run. rewrite Hoff. run. flat.
  unfold next_read. rewrite clear_THRI. reflexivity.
Qed.

(** C4: with RS485 enabled, an invocation that finds the transmitter-empty
    bit clear only reads the line-status register: the channel state is
    unchanged, nothing is written to the chip (so the TX-ready enable bit
    stays as it is) and no delay is taken.  An invocation that finds the bit
    set, the transmit ring empty and a post-send delay configured waits that
    delay once and then clears the TX-ready enable bit by read-modify-write of
    the interrupt-enable register. *)
Theorem stop_tx_rs485_gating (K : kernel) (m : machine) :
  tst (flags (rs485 (one m))) (SER_RS485_ENABLED K) = true ->
  (tst (next_read (wire m)) CH43X_LSR_TEMT_BIT = false ->
   ch43x_stop_tx_work_proc K m
   = Done tt
       {| one := one m; termios := termios m; wire := tl (wire m);
          trace := trace m ++
            [SpiRead (rd_cmd (line (port (one m))) CH43X_LSR_REG)
               (next_read (wire m))] |})
  /\
  (tst (next_read (wire m)) CH43X_LSR_TEMT_BIT = true ->
   uart_circ_empty (xmit (port (one m))) = true ->
   0 < delay_rts_after_send (rs485 (one m)) ->
   ch43x_stop_tx_work_proc K m
   = Done tt
       {| one := one m; termios := termios m; wire := tl (tl (wire m));
          trace := trace m ++
            [SpiRead (rd_cmd (line (port (one m))) CH43X_LSR_REG)
               (next_read (wire m));
             Mdelay (delay_rts_after_send (rs485 (one m)));
             SpiRead (rd_cmd (line (port (one m))) CH43X_IER_REG)
               (next_read (tl (wire m)));
             SpiWrite (wr_cmd (line (port (one m))) CH43X_IER_REG)
               (Z.land (next_read (tl (wire m)))
                  (Z.lnot CH43X_IER_THRI_BIT))] |}).
Proof.
  intros Hon. split.
  - intros Hbusy. unfold ch43x_stop_tx_work_proc. run.
    rewrite Hon. run. rewrite Hbusy. run. reflexivity.
  - intros Hidle Hempty Hdelay. unfold ch43x_stop_tx_work_proc. run.
    rewrite Hon. run. rewrite Hidle. run. rewrite Hempty.
    assert (Hgt : (delay_rts_after_send (rs485 (one m)) >? 0) = true)
      by (apply Z.gtb_lt; exact Hdelay).
    rewrite Hgt. run. flat.
    unfold next_read. rewrite clear_THRI. reflexivity.
Qed.

Lemma stop_tx_rs485_gating_witness :
  ch43x_stop_tx_work_proc linux (rs485_machine [0x20; 0x60; 0x07])
  = Done tt
      {| one := one (rs485_machine []); termios := mk_termios 0 0 0;
         wire := [0x60; 0x07];
         trace := [SpiRead 0x14 0x20] |}
  /\
  ch43x_stop_tx_work_proc linux (rs485_machine [0x60; 0x07])
  = Done tt
      {| one := one (rs485_machine []); termios := mk_termios 0 0 0;
         wire := [];
         trace := [SpiRead 0x14 0x60; Mdelay 5; SpiRead 0x04 0x07;
                   SpiWrite 0x06 0x05] |}.
Proof.
  split.
  - apply (stop_tx_rs485_gating linux (rs485_machine [0x20; 0x60; 0x07]));
      reflexivity.
  - apply (stop_tx_rs485_gating linux (rs485_machine [0x60; 0x07]));
      reflexivity.
Defined.

(** ** Receive classification (ch43x_handle_rx, label ch_handler) *)

Lemma no_error_bits (x : Z) :
  tst x CH43X_LSR_BRK_ERROR_MASK = false ->
  tst x CH43X_LSR_OE_BIT = false /\ tst x CH43X_LSR_PE_BIT = false
  /\ tst x CH43X_LSR_FE_BIT = false /\ tst x CH43X_LSR_BI_BIT = false.
Proof.
  rewrite tst_BRK_ERROR_MASK, tst_OE, tst_PE, tst_FE, tst_BI.
  destruct (Z.testbit x 1), (Z.testbit x 2), (Z.testbit x 3), (Z.testbit x 4);
    simpl; intros H; try discriminate H; repeat split.
Qed.

Lemma some_error_bit (x : Z) :
  tst x CH43X_LSR_BRK_ERROR_MASK = true <->
  tst x CH43X_LSR_OE_BIT = true \/ tst x CH43X_LSR_PE_BIT = true
  \/ tst x CH43X_LSR_FE_BIT = true \/ tst x CH43X_LSR_BI_BIT = true.
Proof.
  rewrite tst_BRK_ERROR_MASK, tst_OE, tst_PE, tst_FE, tst_BI.
  destruct (Z.testbit x 1), (Z.testbit x 2), (Z.testbit x 3), (Z.testbit x 4);
    simpl; intuition discriminate.
Qed.

(** the whole effect of the classification block on the machine *)
Lemma ch_handler_spec (K : kernel) (lsr ch : Z) (m : machine) :
  ch_handler K lsr ch m
  = Done tt
      {| one := upd_port (upd_icount (rx_counts lsr)) (one m);
         termios := termios m;
         wire := wire m;
         trace := trace m ++
           rx_events K lsr ch
             (upd_icount (rx_counts lsr) (port (one m))) |}.
Proof.
  unfold ch_handler, rx_filter, rx_insert, rx_events, rx_status, rx_flag,
    rx_counts.
  destruct (tst lsr CH43X_LSR_BRK_ERROR_MASK) eqn:Hmask.
  - destruct (tst lsr CH43X_LSR_BI_BIT) eqn:Hbi.
    + norm.
      match goal with |- context [uart_handle_break K ?p] =>
        destruct (uart_handle_break K p) end; norm.
      * rewrite app_nil_r. reflexivity.
      * match goal with |- context [tst ?s CH43X_LSR_OE_BIT] =>
          destruct (tst s CH43X_LSR_OE_BIT) end; norm;
        match goal with |- context [uart_handle_sysrq_char K ?p ch] =>
          destruct (uart_handle_sysrq_char K p ch) end; norm; flat;
        rewrite ?app_nil_r; reflexivity.
    + norm.
      destruct (tst lsr CH43X_LSR_PE_BIT); [| destruct (tst lsr CH43X_LSR_FE_BIT);
        [| destruct (tst lsr CH43X_LSR_OE_BIT)]]; norm;
      match goal with |- context [tst ?s CH43X_LSR_OE_BIT] =>
        destruct (tst s CH43X_LSR_OE_BIT) end; norm;
      match goal with |- context [uart_handle_sysrq_char K ?p ch] =>
        destruct (uart_handle_sysrq_char K p ch) end; norm; flat;
      rewrite ?app_nil_r; reflexivity.
  - destruct (no_error_bits lsr Hmask) as (Hoe & Hpe & Hfe & Hbi).
    rewrite Hoe, Hpe, Hfe, Hbi. norm.
    match goal with |- context [uart_handle_sysrq_char K ?p ch] =>
      destruct (uart_handle_sysrq_char K p ch) end; norm; flat;
    rewrite ?app_nil_r; reflexivity.
Qed.

(** *** Facts about the classification *)

Lemma rx_status_break (lsr mask : Z) :
  tst lsr CH43X_LSR_BI_BIT = true ->
  rx_status lsr mask
  = Z.land (Z.land lsr (Z.lnot (Z.lor CH43X_LSR_FE_BIT CH43X_LSR_PE_BIT))) mask.
Proof.
  intros Hbi. unfold rx_status. rewrite Hbi.
  assert (H : tst lsr CH43X_LSR_BRK_ERROR_MASK = true)
    by (apply some_error_bit; tauto).
  rewrite H. reflexivity.
Qed.

Lemma rx_status_no_break (lsr mask : Z) :
  tst lsr CH43X_LSR_BI_BIT = false ->
  tst lsr CH43X_LSR_BRK_ERROR_MASK = true ->
  rx_status lsr mask = Z.land lsr mask.
Proof. intros Hbi Herr. unfold rx_status. rewrite Hbi, Herr. reflexivity. Qed.

Lemma rx_flag_break (lsr mask : Z) :
  tst lsr CH43X_LSR_BI_BIT = true ->
  rx_flag (rx_status lsr mask)
  = if tst mask CH43X_LSR_BI_BIT then TTY_BREAK else TTY_NORMAL.
Proof.
  intros Hbi. rewrite (rx_status_break lsr mask Hbi). unfold rx_flag.
  rewrite tst_BI in Hbi.
  rewrite !tst_BI, !tst_PE, !tst_FE, !Z.land_spec, !Z.lnot_spec by lia.
  rewrite Hbi.
  change (Z.testbit (Z.lor CH43X_LSR_FE_BIT CH43X_LSR_PE_BIT) 4) with false.
  change (Z.testbit (Z.lor CH43X_LSR_FE_BIT CH43X_LSR_PE_BIT) 2) with true.
  change (Z.testbit (Z.lor CH43X_LSR_FE_BIT CH43X_LSR_PE_BIT) 3) with true.
  simpl. rewrite !andb_false_r. simpl.
  destruct (Z.testbit mask 4); reflexivity.
Qed.

Lemma rx_status_OE (lsr mask : Z) :
  tst (rx_status lsr mask) CH43X_LSR_OE_BIT
  = tst lsr CH43X_LSR_OE_BIT && tst mask CH43X_LSR_OE_BIT.
Proof.
  unfold rx_status.
  destruct (tst lsr CH43X_LSR_BRK_ERROR_MASK) eqn:Herr.
  - destruct (tst lsr CH43X_LSR_BI_BIT);
      rewrite !tst_OE, !Z.land_spec, ?Z.lnot_spec by lia;
      [change (Z.testbit (Z.lor CH43X_LSR_FE_BIT CH43X_LSR_PE_BIT) 1) with false;
       simpl; rewrite andb_true_r |]; reflexivity.
  - destruct (no_error_bits lsr Herr) as (Hoe & _). rewrite Hoe. reflexivity.
Qed.


Lemma rx_flag_parity_masked (lsr mask : Z) :
  tst lsr CH43X_LSR_PE_BIT = true ->
  tst lsr CH43X_LSR_BI_BIT = false ->
  tst mask CH43X_LSR_PE_BIT = false ->
  tst mask CH43X_LSR_FE_BIT = false ->
  rx_flag (rx_status lsr mask) = TTY_NORMAL.
Proof.
  intros Hpe Hbi Hmpe Hmfe.
  rewrite rx_status_no_break by (try apply some_error_bit; tauto).
  unfold rx_flag.
  rewrite tst_BI in Hbi. rewrite tst_PE in Hmpe. rewrite tst_FE in Hmfe.
  rewrite !tst_BI, !tst_PE, !tst_FE, !Z.land_spec, Hbi, Hmpe, Hmfe.
  simpl. rewrite !andb_false_r. reflexivity.
Qed.

Lemma rx_counts_break (lsr : Z) (c : uart_icount) :
  tst lsr CH43X_LSR_BI_BIT = true ->
  rx_counts lsr c = add_brk 1 (add_rx 1 c).
Proof. intros Hbi. unfold rx_counts. rewrite Hbi. reflexivity. Qed.

Lemma rx_counts_parity (lsr : Z) (c : uart_icount) :
  tst lsr CH43X_LSR_BI_BIT = false ->
  tst lsr CH43X_LSR_PE_BIT = true ->
  rx_counts lsr c = add_parity 1 (add_rx 1 c).
Proof. intros Hbi Hpe. unfold rx_counts. rewrite Hbi, Hpe. reflexivity. Qed.



(** *** Break priority *)

(** C3, as amended: when the status of a received character has the break
    bit set -- in particular when break, parity and frame are all set -- the
    break counter is incremented and neither the parity nor the frame counter
    is; unless the break hook or the sysrq hook consumes the character, it is
    handed to the tty exactly once, with the break flag if the
    read-status-mask contains the break bit and with the normal flag
    otherwise, never with the parity or the frame flag. *)
Theorem rx_break_priority (K : kernel) (lsr ch : Z) (m : machine) :
  tst lsr CH43X_LSR_BI_BIT = true ->
  exists m',
    ch_handler K lsr ch m = Done tt m'
    /\ brk (icount (port (one m'))) = u32 (brk (icount (port (one m))) + 1)
    /\ parity (icount (port (one m'))) = parity (icount (port (one m)))
    /\ frame (icount (port (one m'))) = frame (icount (port (one m)))
    /\ trace m' = trace m ++
         (if uart_handle_break K (port (one m')) then []
          else
            (if tst lsr CH43X_LSR_OE_BIT
                && tst (read_status_mask (port (one m))) CH43X_LSR_OE_BIT
             then [DevErrOverrun] else [])
            ++ (if uart_handle_sysrq_char K (port (one m')) ch then []
                else [InsertChar
                        (Z.land
                           (Z.land lsr
                              (Z.lnot (Z.lor CH43X_LSR_FE_BIT CH43X_LSR_PE_BIT)))
                           (read_status_mask (port (one m))))
                        CH43X_LSR_OE_BIT ch
                        (if tst (read_status_mask (port (one m))) CH43X_LSR_BI_BIT
                         then TTY_BREAK else TTY_NORMAL)])).
Proof.
  intros Hbi. eexists. split; [apply ch_handler_spec |].
  cbn [one port icount trace upd_port upd_icount read_status_mask].
  rewrite (rx_counts_break lsr _ Hbi).
  repeat split.
  unfold rx_events. cbn [read_status_mask].
  rewrite Hbi, rx_status_OE, (rx_flag_break lsr _ Hbi),
    (rx_status_break lsr _ Hbi).
  reflexivity.
Qed.

(** break + parity + frame with break reporting on: one character, break flag *)
Lemma rx_break_priority_witness :
  exists m',
    ch_handler linux 0x1D 0x41
      (rx_machine (Z.lor CH43X_LSR_OE_BIT CH43X_LSR_BI_BIT)) = Done tt m'
    /\ brk (icount (port (one m'))) = 1
    /\ parity (icount (port (one m'))) = 0
    /\ frame (icount (port (one m'))) = 0
    /\ trace m' = [InsertChar 0x10 0x02 0x41 TTY_BREAK].
Proof.
  destruct (rx_break_priority linux 0x1D 0x41
              (rx_machine (Z.lor CH43X_LSR_OE_BIT CH43X_LSR_BI_BIT)) eq_refl)
    as (m' & Hrun & Hbrk & Hpar & Hfr & Htr).
  exists m'. repeat split; assumption.
Defined.

(** C3 as stated fails: with break, parity and frame all set but break
    reporting not requested (mask = overrun only, as set_termios leaves it
    without BRKINT and PARMRK), the character is delivered with the normal
    flag, not the break flag. *)
Lemma rx_break_masked_is_normal :
  tst 0x1D CH43X_LSR_BI_BIT = true
  /\ tst 0x1D CH43X_LSR_PE_BIT = true
  /\ tst 0x1D CH43X_LSR_FE_BIT = true
  /\ exists m',
       ch_handler linux 0x1D 0x41 (rx_machine CH43X_LSR_OE_BIT) = Done tt m'
       /\ trace m' = [InsertChar 0x00 0x02 0x41 TTY_NORMAL].
Proof.
  repeat split. eexists. split; [vm_compute; reflexivity | reflexivity].
Qed.

(** *** Overrun *)



(** ** Line configuration (ch43x_set_termios) *)

Lemma land_clear_disjoint (c msk x : Z) :
  Z.land msk x = 0 -> Z.land (Z.land c (Z.lnot msk)) x = Z.land c x.
Proof.
  intros Hd. apply Z.bits_inj'. intros i Hi.
  rewrite !Z.land_spec, Z.lnot_spec by exact Hi.
  assert (Hb : Z.testbit (Z.land msk x) i = false) by (rewrite Hd; apply Z.bits_0).
  rewrite Z.land_spec in Hb.
  destruct (Z.testbit c i), (Z.testbit msk i), (Z.testbit x i);
    simpl in *; congruence.
Qed.

Lemma tst_clear_disjoint (c msk x : Z) :
  Z.land msk x = 0 -> tst (Z.land c (Z.lnot msk)) x = tst c x.
Proof. intros Hd. unfold tst. rewrite land_clear_disjoint by exact Hd. reflexivity. Qed.

Lemma tst_clear_self (c msk : Z) : tst (Z.land c (Z.lnot msk)) msk = false.
Proof.
  unfold tst. replace (Z.land (Z.land c (Z.lnot msk)) msk) with 0; [reflexivity |].
  symmetry. apply Z.bits_inj'. intros i Hi.
  rewrite !Z.land_spec, Z.lnot_spec, Z.bits_0 by exact Hi.
  destruct (Z.testbit c i), (Z.testbit msk i); reflexivity.
Qed.

(** the parity switch, by cases of the three flags it looks at *)
Lemma termios_parity_cases (K : kernel) (cflag lcr : Z) :
  termios_parity K cflag lcr
  = if tst cflag (PARENB K) then
      if tst cflag (CMSPAR K) then
        if tst cflag (PARODD K)
        then Z.lor (Z.lor lcr CH43X_LCR_PARITY_BIT) CH43X_LCR_MARKPARITY_BIT
        else Z.lor (Z.lor lcr CH43X_LCR_PARITY_BIT) CH43X_LCR_SPACEPARITY_BIT
      else
        if tst cflag (PARODD K)
        then Z.lor (Z.lor lcr CH43X_LCR_PARITY_BIT) CH43X_LCR_ODDPARITY_BIT
        else Z.lor (Z.lor lcr CH43X_LCR_PARITY_BIT) CH43X_LCR_EVENPARITY_BIT
    else Z.land (Z.lor lcr CH43X_LCR_PARITY_BIT) (Z.lnot CH43X_LCR_PARITY_BIT).
Proof.
  unfold termios_parity.
  destruct (tst cflag (PARENB K)), (tst cflag (CMSPAR K)),
    (tst cflag (PARODD K)); reflexivity.
Qed.

(** the line-control value computed for a request with a valid word size *)
Lemma termios_lcr_valid (K : kernel) (c : Z) (w : word_length) :
  cmspar_separate K ->
  requested_word K c = Some w ->
  lcr_config (u8 (fst (termios_lcr K c)))
  = mk_config w (without_stick (requested_parity K c)) (requested_stop K c)
  /\ snd (termios_lcr K c) = Z.land c (Z.lnot (CMSPAR K)).
Proof.
  intros (Hsz & Hpe & Hpo & Hst) Hw.
  unfold termios_lcr, termios_word_size.
  rewrite (land_clear_disjoint c _ _ Hsz).
  unfold requested_word in Hw.
  unfold requested_parity, requested_stop.
  destruct (Z.land c (CSIZE K) =? CS5 K);
    [| destruct (Z.land c (CSIZE K) =? CS6 K);
       [| destruct (Z.land c (CSIZE K) =? CS7 K);
          [| destruct (Z.land c (CSIZE K) =? CS8 K); [| discriminate Hw]]]];
    injection Hw as <-;
    rewrite termios_parity_cases, tst_clear_self,
      (tst_clear_disjoint c _ _ Hpe), (tst_clear_disjoint c _ _ Hpo),
      (tst_clear_disjoint c _ _ Hst);
    destruct (tst c (PARENB K)), (tst c (CMSPAR K)), (tst c (PARODD K)),
      (tst c (CSTOPB K)); split; reflexivity.
Qed.


(** what ch43x_set_termios has done by the time it stops, whether it
    returns or traps in ch43x_set_baud *)
Lemma set_termios_effects (K : kernel) (m : machine) :
  exists rest,
    trace (final (ch43x_set_termios K m))
    = trace m ++
        SpiWrite (wr_cmd (line (port (one m))) CH43X_LCR_REG)
          (u8 (fst (termios_lcr K (c_cflag (termios m))))) :: rest
    /\ c_cflag (termios (final (ch43x_set_termios K m)))
       = snd (termios_lcr K (c_cflag (termios m)))
    /\ c_iflag (termios (final (ch43x_set_termios K m))) = c_iflag (termios m)
    /\ read_status_mask (port (one (final (ch43x_set_termios K m))))
       = termios_read_status_mask K (c_iflag (termios m))
    /\ ignore_status_mask (port (one (final (ch43x_set_termios K m))))
       = termios_ignore_status_mask K (c_iflag (termios m))
           (snd (termios_lcr K (c_cflag (termios m)))).
Proof.
  unfold ch43x_set_termios. norm.
  destruct (termios_lcr K (c_cflag (termios m))) as [lcr cflag]. norm.
  destruct (tst cflag (CRTSCTS K)); norm; unfold ch43x_set_baud; norm;
    match goal with |- context [ulong K ?b =? 0] =>
      destruct (ulong K b =? 0) end; norm;
    try match goal with |- context [?d =? 0] =>
      destruct (d =? 0) end; norm; flat;
    eexists; (split; [reflexivity | repeat split]).
Qed.

(** *** The line-control byte and the request it came from *)

(** whatever the parity request, the byte written decodes to the requested
    word length and stop bits and to the parity left once stick parity has
    been masked out; CMSPAR is cleared in the caller's record *)
Lemma set_termios_lcr_decodes (K : kernel) (m : machine) (cfg : line_config) :
  cmspar_separate K ->
  requested_config K (c_cflag (termios m)) = Some cfg ->
  exists v rest,
    trace (final (ch43x_set_termios K m))
    = trace m ++ SpiWrite (wr_cmd (line (port (one m))) CH43X_LCR_REG) v :: rest
    /\ lcr_config v
       = mk_config (cfg_word cfg) (without_stick (cfg_parity cfg)) (cfg_stop cfg)
    /\ tst (c_cflag (termios (final (ch43x_set_termios K m)))) (CMSPAR K) = false.
Proof.
  intros Hsep Hreq. unfold requested_config in Hreq.
  destruct (requested_word K (c_cflag (termios m))) as [w |] eqn:Hw;
    [| discriminate Hreq].
  injection Hreq as <-.
  destruct (termios_lcr_valid K _ w Hsep Hw) as (Hdec & Hcflag).
  destruct (set_termios_effects K m) as (rest & Htr & Hc & _).
  eexists. exists rest. split; [exact Htr |].
  cbn [cfg_word cfg_parity cfg_stop].
  split; [exact Hdec |].
  rewrite Hc, Hcflag. apply tst_clear_self.
Qed.

(** C5, as amended: for every request with one of the four word sizes,
    parity none, odd or even, and one or two stop bits, the line-control byte
    written by ch43x_set_termios encodes that configuration: decoding the
    byte gives back the requested word length, parity and stop bits. *)
Theorem set_termios_lcr_round_trip (K : kernel) (m : machine) (cfg : line_config) :
  cmspar_separate K ->
  requested_config K (c_cflag (termios m)) = Some cfg ->
  cfg_parity cfg <> ParityMark ->
  cfg_parity cfg <> ParitySpace ->
  exists v rest,
    trace (final (ch43x_set_termios K m))
    = trace m ++ SpiWrite (wr_cmd (line (port (one m))) CH43X_LCR_REG) v :: rest
    /\ lcr_config v = cfg.
Proof.
  intros Hsep Hreq Hmark Hspace.
  destruct (set_termios_lcr_decodes K m cfg Hsep Hreq)
    as (v & rest & Htr & Hdec & _).
  exists v, rest. split; [exact Htr |]. rewrite Hdec.
  destruct cfg as [w p s]. cbn [cfg_word cfg_parity cfg_stop] in *.
  destruct p; try reflexivity; congruence.
Qed.

Lemma linux_cmspar_separate : cmspar_separate linux.
Proof. repeat split. Qed.

(** on the asm-generic layout each of the 40 configurations is requested by
    its c_cflag word, so the round trip covers all 24 without stick parity *)
Lemma linux_requests_read_back (cfg : line_config) :
  requested_config linux (cflag_of_config linux cfg) = Some cfg.
Proof. destruct cfg as [[] [] []]; reflexivity. Qed.

Lemma set_termios_lcr_round_trip_witness :
  exists v rest,
    trace (final (ch43x_set_termios linux
                    (probe_machine 0 termios_7E2 [0x08; 0x03])))
    = SpiWrite 0x0E v :: rest
    /\ lcr_config v = mk_config Bits7 ParityEven Stop2.
Proof.
  assert (Hmark : ParityEven <> ParityMark) by discriminate.
  assert (Hspace : ParityEven <> ParitySpace) by discriminate.
  destruct (set_termios_lcr_round_trip linux
              (probe_machine 0 termios_7E2 [0x08; 0x03])
              (mk_config Bits7 ParityEven Stop2)
              linux_cmspar_separate eq_refl Hmark Hspace)
    as (v & rest & Htr & Hdec).
  exists v, rest. split; [exact Htr | exact Hdec].
Defined.

(** C5 as stated fails for mark parity: the request reads as 8 bits, mark, one
    stop bit; the byte written to the line-control register is 0x0B, which is
    8 bits, odd parity, one stop bit. *)
Lemma set_termios_mark_becomes_odd :
  requested_config linux (c_cflag termios_8M1)
  = Some (mk_config Bits8 ParityMark Stop1)
  /\ exists m',
       ch43x_set_termios linux (probe_machine 0 termios_8M1 [0x08; 0x03])
       = Done tt m'
       /\ trace m' = [SpiWrite 0x0E 0x0B;
                      SpiRead 0x10 0x08; SpiWrite 0x12 0x08;
                      SpiRead 0x0C 0x03; SpiWrite 0x0E 0x80;
                      SpiWrite 0x06 0x01; SpiWrite 0x02 0x20;
                      SpiWrite 0x0E 0x03;
                      UpdateTimeout 0x3B0 9600]
       /\ lcr_config 0x0B = mk_config Bits8 ParityOdd Stop1.
Proof.
  split; [reflexivity |]. eexists. split; [vm_compute; reflexivity |].
  split; reflexivity.
Qed.

(** *** Word sizes outside the four codes *)





(** *** Parity errors with input parity checking off *)

Lemma read_status_mask_no_inpck (K : kernel) (iflag : Z) :
  tst iflag (INPCK K) = false ->
  tst (termios_read_status_mask K iflag) CH43X_LSR_PE_BIT = false
  /\ tst (termios_read_status_mask K iflag) CH43X_LSR_FE_BIT = false
  /\ tst (termios_read_status_mask K iflag) CH43X_LSR_OE_BIT = true.
Proof.
  intros Hoff. unfold termios_read_status_mask. rewrite Hoff.
  destruct (tst iflag (Z.lor (BRKINT K) (PARMRK K))); repeat split.
Qed.

(** the overrun bit is in the mask whatever the request *)
Lemma read_status_mask_has_overrun (K : kernel) (iflag : Z) :
  tst (termios_read_status_mask K iflag) CH43X_LSR_OE_BIT = true.
Proof.
  unfold termios_read_status_mask.
  destruct (tst iflag (INPCK K)), (tst iflag (Z.lor (BRKINT K) (PARMRK K)));
    reflexivity.
Qed.

(** C8, as amended: after ch43x_set_termios has returned for a request with
    input parity checking off, a received character whose status has the
    parity-error bit set and the break bit clear increments the parity
    counter and, unless the sysrq hook consumes it, is handed to the tty
    exactly once with the normal flag, the parity (and frame) bit having been
    removed from the status by the read-status-mask. *)
Theorem rx_parity_error_unreported (K : kernel) (m0 m : machine) (lsr ch : Z) :
  tst (c_iflag (termios m0)) (INPCK K) = false ->
  ch43x_set_termios K m0 = Done tt m ->
  tst lsr CH43X_LSR_PE_BIT = true ->
  tst lsr CH43X_LSR_BI_BIT = false ->
  exists m',
    ch_handler K lsr ch m = Done tt m'
    /\ parity (icount (port (one m')))
       = u32 (parity (icount (port (one m))) + 1)
    /\ tst (Z.land lsr (read_status_mask (port (one m)))) CH43X_LSR_PE_BIT = false
    /\ trace m' = trace m ++
         (if tst lsr CH43X_LSR_OE_BIT then [DevErrOverrun] else [])
         ++ (if uart_handle_sysrq_char K (port (one m')) ch then []
             else [InsertChar (Z.land lsr (read_status_mask (port (one m))))
                     CH43X_LSR_OE_BIT ch TTY_NORMAL]).
Proof.
  intros Hoff Hset Hpe Hbi.
  destruct (set_termios_effects K m0) as (rest & _ & _ & _ & Hmask & _).
  rewrite Hset in Hmask. cbn [final] in Hmask.
  destruct (read_status_mask_no_inpck K _ Hoff) as (Hmpe & Hmfe & Hmoe).
  rewrite <- Hmask in Hmpe, Hmfe, Hmoe.
  eexists. split; [apply ch_handler_spec |].
  cbn [one port icount trace upd_port upd_icount read_status_mask].
  rewrite (rx_counts_parity lsr _ Hbi Hpe).
  split; [reflexivity |]. split.
  - rewrite tst_PE in Hmpe. rewrite tst_PE, Z.land_spec, Hmpe.
    apply andb_false_r.
  - unfold rx_events.
    change (read_status_mask (upd_icount (rx_counts lsr) (port (one m))))
      with (read_status_mask (port (one m))).
    rewrite Hbi, rx_status_OE, Hmoe, andb_true_r,
      (rx_flag_parity_masked lsr _ Hpe Hbi Hmpe Hmfe),
      rx_status_no_break by (try apply some_error_bit; tauto).
    reflexivity.
Qed.

Lemma rx_parity_error_unreported_witness :
  exists m m',
    ch43x_set_termios linux (probe_machine 0 termios_raw [0x08; 0x03])
    = Done tt m
    /\ ch_handler linux 0x05 0x41 m = Done tt m'
    /\ parity (icount (port (one m'))) = 1
    /\ exists evs, trace m' = trace m ++ evs
                   /\ evs = [InsertChar 0x00 0x02 0x41 TTY_NORMAL].
Proof.
  assert (Hset : ch43x_set_termios linux
                   (probe_machine 0 termios_raw [0x08; 0x03])
                 = Done tt (final (ch43x_set_termios linux
                                     (probe_machine 0 termios_raw [0x08; 0x03]))))
    by (vm_compute; reflexivity).
  exists (final (ch43x_set_termios linux
                   (probe_machine 0 termios_raw [0x08; 0x03]))).
  destruct (rx_parity_error_unreported linux
              (probe_machine 0 termios_raw [0x08; 0x03])
              (final (ch43x_set_termios linux
                        (probe_machine 0 termios_raw [0x08; 0x03])))
              0x05 0x41 eq_refl Hset eq_refl eq_refl)
    as (m' & Hrun & Hpar & _ & Htr).
  exists m'. split; [exact Hset |]. split; [exact Hrun |].
  split; [exact Hpar |]. eexists. split; [exact Htr | reflexivity].
Defined.

(** C8 as stated fails when the break bit is set as well: with input parity
    checking off and BRKINT on, a character with status 0x15 (data ready,
    parity error, break) is delivered with the break flag, and it is the
    break counter, not the parity counter, that is incremented. *)
Lemma rx_parity_with_break_is_break :
  tst (c_iflag termios_brkint) (INPCK linux) = false
  /\ tst 0x15 CH43X_LSR_PE_BIT = true
  /\ exists m m',
       ch43x_set_termios linux (probe_machine 0 termios_brkint [0x08; 0x03])
       = Done tt m
       /\ ch_handler linux 0x15 0x41 m = Done tt m'
       /\ parity (icount (port (one m))) = 0
       /\ parity (icount (port (one m'))) = 0
       /\ brk (icount (port (one m'))) = 1
       /\ exists evs, trace m' = trace m ++ evs
                      /\ evs = [InsertChar 0x10 0x02 0x41 TTY_BREAK].
Proof.
  split; [reflexivity |]. split; [reflexivity |].
  eexists. eexists. split; [vm_compute; reflexivity |].
  split; [vm_compute; reflexivity |].
  repeat (split; [reflexivity |]).
  eexists. split; [vm_compute; reflexivity | reflexivity].
Qed.

(** ** Baud rate (ch43x_set_baud) *)

(** the macro does round to the closest quotient *)
Lemma DIV_ROUND_CLOSEST_closest (x d : Z) :
  0 <= x -> 0 < d ->
  2 * Z.abs (x - d * DIV_ROUND_CLOSEST x d) <= d.
Proof.
  intros Hx Hd. unfold DIV_ROUND_CLOSEST.
  pose proof (Z.div_mod (x + d / 2) d ltac:(lia)) as Hq.
  pose proof (Z.mod_pos_bound (x + d / 2) d Hd) as Hr.
  pose proof (Z.div_mod d 2 ltac:(lia)) as Hh.
  pose proof (Z.mod_pos_bound d 2 ltac:(lia)) as Hh2.
  lia.
Qed.

Lemma to_int_small (x : Z) : 0 <= x < 2 ^ 31 -> to_int x = x.
Proof.
  intros H. unfold to_int. rewrite Z.mod_small; lia.
Qed.

Lemma ulong_small (K : kernel) (x : Z) :
  32 <= BITS_PER_LONG K -> 0 <= x < 2 ^ 32 -> ulong K x = x.
Proof.
  intros HK Hx. unfold ulong. apply Z.mod_small.
  assert (2 ^ 32 <= 2 ^ BITS_PER_LONG K) by (apply Z.pow_le_mono_r; lia).
  lia.
Qed.

(** inside [1, clk/16] the function does what section 4.2 says: divisor
    floor(clk/16/baud), sent high byte then low byte between setting and
    restoring the line-control register, and the rounded rate returned *)
Lemma set_baud_in_range (K : kernel) (m : machine) (baud : Z) :
  32 <= BITS_PER_LONG K ->
  0 <= uartclk (port (one m)) < 2 ^ 32 ->
  0 < baud <= uartclk (port (one m)) / 16 ->
  ch43x_set_baud K baud m
  = Done (DIV_ROUND_CLOSEST (uartclk (port (one m)) / 16)
            (uartclk (port (one m)) / 16 / baud))
      {| one := one m; termios := termios m; wire := tl (wire m);
         trace := trace m ++
           [SpiRead (rd_cmd (line (port (one m))) CH43X_LCR_REG)
              (next_read (wire m));
            SpiWrite (wr_cmd (line (port (one m))) CH43X_LCR_REG)
              CH43X_LCR_CONF_MODE_A;
            SpiWrite (wr_cmd (line (port (one m))) CH43X_DLH_REG)
              (u8 (uartclk (port (one m)) / 16 / baud / 256));
            SpiWrite (wr_cmd (line (port (one m))) CH43X_DLL_REG)
              (uartclk (port (one m)) / 16 / baud mod 256);
            SpiWrite (wr_cmd (line (port (one m))) CH43X_LCR_REG)
              (next_read (wire m))] |}.
Proof.
  intros HK Hclk Hbaud.
  set (clk := uartclk (port (one m))) in *.
  assert (Hx : 0 <= clk / 16 < 2 ^ 28).
  { split; [apply Z.div_pos; lia |].
    apply Z.div_lt_upper_bound; [lia |]. change (16 * 2 ^ 28) with (2 ^ 32). lia. }
  assert (Hd : 1 <= clk / 16 / baud <= clk / 16).
  { split.
    - apply Z.div_le_lower_bound; lia.
    - apply Z.div_le_upper_bound; [lia |]. nia. }
  unfold ch43x_set_baud. run. fold clk.
  rewrite (ulong_small K clk HK Hclk).
  rewrite (ulong_small K baud HK) by lia.
  destruct (Z.eqb_spec baud 0) as [E | _]; [lia |]. run.
  destruct (Z.eqb_spec (clk / 16 / baud) 0) as [E | _]; [lia |]. run. flat.
  rewrite to_int_small.
  - unfold next_read. rewrite !u8_idem.
    rewrite (u8_small (clk / 16 / baud mod 256))
      by (apply Z.mod_pos_bound; lia).
    reflexivity.
  - unfold DIV_ROUND_CLOSEST.
    assert (0 <= (clk / 16 / baud) / 2 <= clk / 16).
    { split; [apply Z.div_pos; lia |].
      apply Z.div_le_upper_bound; lia. }
    split; [apply Z.div_pos; lia |].
    apply Z.div_lt_upper_bound; [lia |]. nia.
Qed.

(** when moreover the divisor fits the 16-bit latch, the two bytes sent are
    the divisor *)
Lemma divisor_bytes (div : Z) :
  0 <= div <= 0xffff -> 256 * u8 (div / 256) + div mod 256 = div.
Proof.
  intros H. rewrite u8_small.
  - pose proof (Z.div_mod div 256 ltac:(lia)). lia.
  - split; [apply Z.div_pos; lia |]. apply Z.div_lt_upper_bound; lia.
Qed.

(** above clk/16 the divisor is zero and the rounding division traps, after
    the zero divisor has been written *)
Lemma set_baud_above_clk16 (K : kernel) (m : machine) (baud : Z) :
  32 <= BITS_PER_LONG K ->
  0 <= uartclk (port (one m)) < 2 ^ 32 ->
  uartclk (port (one m)) / 16 < baud < 2 ^ 32 ->
  ch43x_set_baud K baud m
  = Oops
      {| one := one m; termios := termios m; wire := tl (wire m);
         trace := trace m ++
           [SpiRead (rd_cmd (line (port (one m))) CH43X_LCR_REG)
              (next_read (wire m));
            SpiWrite (wr_cmd (line (port (one m))) CH43X_LCR_REG)
              CH43X_LCR_CONF_MODE_A;
            SpiWrite (wr_cmd (line (port (one m))) CH43X_DLH_REG) 0;
            SpiWrite (wr_cmd (line (port (one m))) CH43X_DLL_REG) 0;
            SpiWrite (wr_cmd (line (port (one m))) CH43X_LCR_REG)
              (next_read (wire m))] |}.
Proof.
  intros HK Hclk Hbaud.
  set (clk := uartclk (port (one m))) in *.
  assert (Hx : 0 <= clk / 16) by (apply Z.div_pos; lia).
  unfold ch43x_set_baud. run. fold clk.
  rewrite (ulong_small K clk HK Hclk).
  rewrite (ulong_small K baud HK) by lia.
  destruct (Z.eqb_spec baud 0) as [E | _]; [lia |]. run.
  rewrite (Z.div_small (clk / 16) baud) by lia.
  run. flat. unfold next_read. rewrite !u8_idem. reflexivity.
Qed.

(** the spec's example: clock 44236800, 9600 baud, divisor 288 = 0x0120,
    9600 returned *)
Lemma set_baud_9600 :
  exists m',
    ch43x_set_baud linux 9600 (probe_machine 0 (mk_termios 0 0 0) [0x03])
    = Done 9600 m'
    /\ trace m' = [SpiRead 0x0C 0x03; SpiWrite 0x0E 0x80;
                   SpiWrite 0x06 0x01; SpiWrite 0x02 0x20;
                   SpiWrite 0x0E 0x03]
    /\ 256 * 0x01 + 0x20 = 288.
Proof.
  eexists. split; [vm_compute; reflexivity |]. split; reflexivity.
Qed.

(** C1 fails on the code inside the range ch43x_set_termios hands to
    uart_get_baud_rate: for clock 44236800 that range is [42, 66355200]; at
    3000000 baud the divisor is zero, the zero is written to both divisor
    latches and the function traps on the division instead of returning an
    achieved rate. *)
Theorem set_baud_3000000_traps :
  uartclk (probe_port 0) / 16 / 0xffff = 42
  /\ u32 (uartclk (probe_port 0) / 16 * 24) = 66355200
  /\ uartclk (probe_port 0) / 16 / 3000000 = 0
  /\ ch43x_set_baud linux 3000000 (probe_machine 0 (mk_termios 0 0 0) [0x03])
     = Oops
         {| one := probe_one 0; termios := mk_termios 0 0 0; wire := [];
            trace := [SpiRead 0x0C 0x03; SpiWrite 0x0E 0x80;
                      SpiWrite 0x06 0x00; SpiWrite 0x02 0x00;
                      SpiWrite 0x0E 0x03] |}.
Proof. repeat split. Qed.

(** at the low end of the same range the divisor does not fit the latch: at
    42 baud it is 65828 = 0x10124, and the high byte sent is 0x01 *)
Lemma set_baud_42_truncates :
  uartclk (probe_port 0) / 16 / 42 = 65828
  /\ exists m',
       ch43x_set_baud linux 42 (probe_machine 0 (mk_termios 0 0 0) [0x03])
       = Done 42 m'
       /\ trace m' = [SpiRead 0x0C 0x03; SpiWrite 0x0E 0x80;
                      SpiWrite 0x06 0x01; SpiWrite 0x02 0x24;
                      SpiWrite 0x0E 0x03].
Proof.
  split; [reflexivity |]. eexists. split; [vm_compute; reflexivity | reflexivity].
Qed.

(** ** Transmit drain (ch43x_handle_tx) *)

Lemma ring_bytes_length (K : kernel) (b : list Z) (t : Z) (n : nat) :
  length (ring_bytes K b t n) = n.
Proof. unfold ring_bytes. rewrite length_map, length_seq. reflexivity. Qed.

Section Ring.

Variable K : kernel.
Variable k : Z.
Hypothesis Hk : 0 <= k.
Hypothesis Hsize : UART_XMIT_SIZE K = 2 ^ k.

Lemma ring_size_pos : 0 < UART_XMIT_SIZE K.
Proof. rewrite Hsize. apply Z.pow_pos_nonneg; lia. Qed.

Lemma ring_mask (a : Z) :
  Z.land a (UART_XMIT_SIZE K - 1) = a mod UART_XMIT_SIZE K.
Proof.
  rewrite Hsize. rewrite <- Z.land_ones by exact Hk.
  rewrite Z.ones_equiv. reflexivity.
Qed.

Lemma tx_copy_spec (n : nat) :
  forall x : circ_buf,
    0 <= tail x < UART_XMIT_SIZE K ->
    tx_copy K n x
    = (ring_bytes K (buf x) (tail x) n,
       mk_circ (buf x) (head x)
         ((tail x + Z.of_nat n) mod UART_XMIT_SIZE K)).
Proof.
  pose proof ring_size_pos as Hpos.
  induction n as [| n IH]; intros x Hx.
  - cbn [tx_copy ring_bytes seq map Z.of_nat].
    rewrite Z.add_0_r, Z.mod_small by exact Hx. destruct x; reflexivity.
  - cbn [tx_copy]. rewrite ring_mask.
    rewrite IH by (cbn [tail]; apply Z.mod_pos_bound; exact Hpos).
    cbn [buf head tail]. f_equal.
    + unfold ring_bytes. cbn [seq map]. f_equal.
      * rewrite Z.add_0_r, Z.mod_small by exact Hx. reflexivity.
      * rewrite <- seq_shift, map_map. apply map_ext. intros i.
        rewrite Zplus_mod_idemp_l. do 3 f_equal. lia.
    + f_equal. rewrite Zplus_mod_idemp_l. f_equal. lia.
Qed.

Lemma pending_as_mod (x : circ_buf) :
  uart_circ_chars_pending K x = (head x - tail x) mod UART_XMIT_SIZE K.
Proof. unfold uart_circ_chars_pending. apply ring_mask. Qed.

(** what is left after the tail has moved on by [c] of the [n] pending bytes *)
Lemma pending_after (x : circ_buf) (n c : Z) :
  uart_circ_chars_pending K x = n ->
  0 <= c <= n ->
  uart_circ_chars_pending K
    (mk_circ (buf x) (head x) ((tail x + c) mod UART_XMIT_SIZE K))
  = n - c.
Proof.
  pose proof ring_size_pos as Hpos.
  intros Hn Hc. rewrite pending_as_mod in *. cbn [head tail].
  rewrite Zminus_mod_idemp_r.
  replace (head x - (tail x + c)) with ((head x - tail x) - c) by lia.
  rewrite <- Zminus_mod_idemp_l, Hn.
  pose proof (Z.mod_pos_bound (head x - tail x) _ Hpos).
  apply Z.mod_small. lia.
Qed.

(** one call with something to send: a single burst of min(pending, 16)
    bytes taken from the ring in order, the tail advanced by as many, the
    tx counter likewise, and a wake-up if little is left *)
Lemma handle_tx_chunk (m : machine) (n : Z) :
  x_char (port (one m)) = 0 ->
  tx_stopped (port (one m)) = false ->
  0 <= tail (xmit (port (one m))) < UART_XMIT_SIZE K ->
  uart_circ_chars_pending K (xmit (port (one m))) = n ->
  0 < n ->
  ch43x_handle_tx K m
  = Done tt
      {| one :=
           upd_port
             (fun p =>
                upd_xmit
                  (mk_circ (buf (xmit p)) (head (xmit p))
                     ((tail (xmit p) + Z.min n CH43X_FIFO_SIZE)
                      mod UART_XMIT_SIZE K))
                  (upd_icount (add_tx (Z.min n CH43X_FIFO_SIZE)) p))
             (one m);
         termios := termios m;
         wire := wire m;
         trace := trace m ++
           SpiBurst (wr_cmd (line (port (one m))) CH43X_THR_REG)
             (ring_bytes K (buf (xmit (port (one m))))
                (tail (xmit (port (one m))))
                (Z.to_nat (Z.min n CH43X_FIFO_SIZE)))
           :: wakeup K (n - Z.min n CH43X_FIFO_SIZE) |}.
Proof.
  intros Hx Hrun Htail Hn Hpos.
  assert (Hne : uart_circ_empty (xmit (port (one m))) = false).
  { unfold uart_circ_empty. destruct (Z.eqb_spec (head (xmit (port (one m))))
                                        (tail (xmit (port (one m))))) as [E | E];
      [| reflexivity].
    unfold uart_circ_chars_pending in Hn. rewrite E, Z.sub_diag, Z.land_0_l in Hn.
    lia. }
  assert (Hc : (if n >? CH43X_FIFO_SIZE then CH43X_FIFO_SIZE else n)
               = Z.min n CH43X_FIFO_SIZE).
  { destruct (Z.gtb_spec n CH43X_FIFO_SIZE); lia. }
  assert (Hc0 : 0 < Z.min n CH43X_FIFO_SIZE <= n)
    by (unfold CH43X_FIFO_SIZE; lia).
  unfold ch43x_handle_tx. run.
  rewrite Hx, Z.eqb_refl, Hrun, Hne, Hn. run.
  destruct (Z.eqb_spec n 0) as [E | _]; [lia |]. run.
  rewrite Hc. set (c := Z.min n CH43X_FIFO_SIZE) in *.
  norm. rewrite (tx_copy_spec _ _ Htail), Z2Nat.id by lia. norm.
  rewrite firstn_all2 by (rewrite ring_bytes_length; lia).
  rewrite (pending_after _ n c Hn) by lia.
  unfold wakeup, wr_cmd. destruct (n - c <? WAKEUP_CHARS K); norm; flat;
    reflexivity.
Qed.

(** one call with nothing left to send: the TX-ready interrupt is turned off *)
Lemma handle_tx_idle (m : machine) :
  x_char (port (one m)) = 0 ->
  uart_circ_empty (xmit (port (one m))) = true ->
  ch43x_handle_tx K m
  = Done tt
      {| one := one m; termios := termios m; wire := tl (wire m);
         trace := trace m ++
           [SpiRead (rd_cmd (line (port (one m))) CH43X_IER_REG)
              (next_read (wire m));
            SpiWrite (wr_cmd (line (port (one m))) CH43X_IER_REG)
              (Z.land (next_read (wire m)) (Z.lnot CH43X_IER_THRI_BIT))] |}.
Proof.
  intros Hx Hempty. unfold ch43x_handle_tx. run.
  rewrite Hx, Z.eqb_refl, Hempty. run. flat.
  unfold next_read. rewrite clear_THRI. reflexivity.
Qed.

End Ring.

(** C2: with 40 bytes pending in the transmit ring, no x_char and
    transmission not stopped, three successive calls of ch43x_handle_tx emit
    one burst write each, of 16, 16 and 8 bytes, taken from the ring in
    order; each call moves the tail on by the size of its chunk (modulo the
    ring size); a fourth call emits no burst and turns the TX-ready interrupt
    off instead. *)
Theorem handle_tx_40_bytes (K : kernel) (k : Z) (m : machine) :
  0 <= k ->
  UART_XMIT_SIZE K = 2 ^ k ->
  40 < UART_XMIT_SIZE K ->
  x_char (port (one m)) = 0 ->
  tx_stopped (port (one m)) = false ->
  0 <= tail (xmit (port (one m))) < UART_XMIT_SIZE K ->
  head (xmit (port (one m)))
  = (tail (xmit (port (one m))) + 40) mod UART_XMIT_SIZE K ->
  exists m1 m2 m3 m4,
    ch43x_handle_tx K m = Done tt m1
    /\ ch43x_handle_tx K m1 = Done tt m2
    /\ ch43x_handle_tx K m2 = Done tt m3
    /\ ch43x_handle_tx K m3 = Done tt m4
    /\ trace m1 = trace m ++
         SpiBurst (wr_cmd (line (port (one m))) CH43X_THR_REG)
           (ring_bytes K (buf (xmit (port (one m))))
              (tail (xmit (port (one m)))) 16)
         :: wakeup K 24
    /\ trace m2 = trace m1 ++
         SpiBurst (wr_cmd (line (port (one m))) CH43X_THR_REG)
           (ring_bytes K (buf (xmit (port (one m))))
              (tail (xmit (port (one m1)))) 16)
         :: wakeup K 8
    /\ trace m3 = trace m2 ++
         SpiBurst (wr_cmd (line (port (one m))) CH43X_THR_REG)
           (ring_bytes K (buf (xmit (port (one m))))
              (tail (xmit (port (one m2)))) 8)
         :: wakeup K 0
    /\ trace m4 = trace m3 ++
         [SpiRead (rd_cmd (line (port (one m))) CH43X_IER_REG)
            (next_read (wire m));
          SpiWrite (wr_cmd (line (port (one m))) CH43X_IER_REG)
            (Z.land (next_read (wire m)) (Z.lnot CH43X_IER_THRI_BIT))]
    /\ tail (xmit (port (one m1)))
       = (tail (xmit (port (one m))) + 16) mod UART_XMIT_SIZE K
    /\ tail (xmit (port (one m2)))
       = (tail (xmit (port (one m1))) + 16) mod UART_XMIT_SIZE K
    /\ tail (xmit (port (one m3)))
       = (tail (xmit (port (one m2))) + 8) mod UART_XMIT_SIZE K
    /\ tail (xmit (port (one m3))) = head (xmit (port (one m)))
    /\ tx (icount (port (one m3)))
       = u32 (u32 (u32 (tx (icount (port (one m))) + 16) + 16) + 8).
Proof.
  intros Hk Hsize Hbig Hx Hrun Htail Hhead.
  pose proof (ring_size_pos K k Hk Hsize) as Hpos.
  assert (Hpend : uart_circ_chars_pending K (xmit (port (one m))) = 40).
  { rewrite (pending_as_mod K k Hk Hsize), Hhead, Zminus_mod_idemp_l.
    replace (tail (xmit (port (one m))) + 40 - tail (xmit (port (one m))))
      with 40 by lia.
    apply Z.mod_small. lia. }
  pose proof (handle_tx_chunk K k Hk Hsize m 40 Hx Hrun Htail Hpend
                ltac:(lia)) as H1.
  change (Z.min 40 CH43X_FIFO_SIZE) with 16 in H1.
  change (40 - 16) with 24 in H1. change (Z.to_nat 16) with 16%nat in H1.
  match type of H1 with _ = Done tt ?r => set (m1 := r) in * end.
  assert (Ht1 : 0 <= tail (xmit (port (one m1))) < UART_XMIT_SIZE K)
    by (apply Z.mod_pos_bound; exact Hpos).
  assert (Hp1 : uart_circ_chars_pending K (xmit (port (one m1))) = 24)
    by (apply (pending_after K k Hk Hsize _ 40 16 Hpend); lia).
  pose proof (handle_tx_chunk K k Hk Hsize m1 24 Hx Hrun Ht1 Hp1
                ltac:(lia)) as H2.
  change (Z.min 24 CH43X_FIFO_SIZE) with 16 in H2.
  change (24 - 16) with 8 in H2. change (Z.to_nat 16) with 16%nat in H2.
  match type of H2 with _ = Done tt ?r => set (m2 := r) in * end.
  assert (Ht2 : 0 <= tail (xmit (port (one m2))) < UART_XMIT_SIZE K)
    by (apply Z.mod_pos_bound; exact Hpos).
  assert (Hp2 : uart_circ_chars_pending K (xmit (port (one m2))) = 8)
    by (apply (pending_after K k Hk Hsize (xmit (port (one m1))) 24 16 Hp1);
        lia).
  pose proof (handle_tx_chunk K k Hk Hsize m2 8 Hx Hrun Ht2 Hp2
                ltac:(lia)) as H3.
  change (Z.min 8 CH43X_FIFO_SIZE) with 8 in H3.
  change (8 - 8) with 0 in H3. change (Z.to_nat 8) with 8%nat in H3.
  match type of H3 with _ = Done tt ?r => set (m3 := r) in * end.
  assert (Hend : tail (xmit (port (one m3))) = head (xmit (port (one m)))).
  { unfold m3, m2, m1.
    cbn [one port xmit tail buf head upd_port upd_xmit upd_icount].
    rewrite Zplus_mod_idemp_l, <- Z.add_assoc, Zplus_mod_idemp_l, Hhead.
    f_equal. lia. }
  assert (He3 : uart_circ_empty (xmit (port (one m3))) = true).
  { unfold uart_circ_empty. rewrite Hend. apply Z.eqb_refl. }
  pose proof (handle_tx_idle K m3 Hx He3) as H4.
  match type of H4 with _ = Done tt ?r => set (m4 := r) in * end.
  exists m1, m2, m3, m4.
  repeat (split; [first [assumption | reflexivity] |]).
  reflexivity.
Qed.

Lemma handle_tx_40_bytes_witness :
  exists m1 m2 m3 m4,
    ch43x_handle_tx linux tx_machine = Done tt m1
    /\ ch43x_handle_tx linux m1 = Done tt m2
    /\ ch43x_handle_tx linux m2 = Done tt m3
    /\ ch43x_handle_tx linux m3 = Done tt m4
    /\ trace m4
       = [SpiBurst 0x02 [250; 251; 252; 253; 254; 255; 0; 1;
                         2; 3; 4; 5; 6; 7; 8; 9];
          WriteWakeup;
          SpiBurst 0x02 [10; 11; 12; 13; 14; 15; 16; 17;
                         18; 19; 20; 21; 22; 23; 24; 25];
          WriteWakeup;
          SpiBurst 0x02 [26; 27; 28; 29; 30; 31; 32; 33];
          WriteWakeup;
          SpiRead 0x04 0x0F; SpiWrite 0x06 0x0D]
    /\ tail (xmit (port (one m3))) = 34.
Proof.
  assert (Hk : 0 <= 12) by lia.
  assert (Hbig : 40 < UART_XMIT_SIZE linux) by reflexivity.
  assert (Htail : 0 <= tail (xmit (port (one tx_machine)))
                  < UART_XMIT_SIZE linux) by (split; [discriminate | reflexivity]).
  destruct (handle_tx_40_bytes linux 12 tx_machine Hk eq_refl Hbig eq_refl
              eq_refl Htail eq_refl)
    as (m1 & m2 & m3 & m4 & H1 & H2 & H3 & H4 & T1 & T2 & T3 & T4
        & A1 & A2 & A3 & Hend & _).
  exists m1, m2, m3, m4.
  split; [exact H1 |]. split; [exact H2 |]. split; [exact H3 |].
  split; [exact H4 |]. split; [| exact Hend].
  rewrite T4, T3, T2, T1, A2, A1. vm_compute. reflexivity.
Defined.

(** ** The classification block inside ch43x_handle_rx *)

(** the line-status path: one status read, one forced data read, the
    classification of that character, one more status read, the flush *)
Lemma handle_rx_line_status_path (K : kernel) (fuel : nat) (m : machine)
      (lsr ch lsr' : Z) (rest : list Z) :
  wire m = lsr :: ch :: lsr' :: rest ->
  tst (u8 lsr) CH43X_LSR_FIFOE_BIT = true ->
  tst (u8 lsr') CH43X_LSR_DR_BIT = false ->
  exists m2,
    ch_handler K (u8 lsr) (u8 ch)
      {| one := one m; termios := termios m; wire := lsr' :: rest;
         trace := trace m ++
           [SpiRead (rd_cmd (line (port (one m))) CH43X_LSR_REG) (u8 lsr);
            SpiRead (rd_cmd (line (port (one m))) CH43X_RHR_REG) (u8 ch)] |}
    = Done tt m2
    /\ ch43x_handle_rx K fuel CH43X_IIR_RLSE_SRC m
       = Done tt
           {| one := one m2; termios := termios m2; wire := rest;
              trace := trace m2 ++
                [SpiRead (rd_cmd (line (port (one m))) CH43X_LSR_REG) (u8 lsr');
                 FlipBufferPush] |}.
Proof.
  intros Hw Hfifoe Hdr. eexists. split; [apply ch_handler_spec |].
  unfold ch43x_handle_rx.
  change (CH43X_IIR_RLSE_SRC =? CH43X_IIR_RLSE_SRC) with true.
  run. rewrite Hw. unfold next_read. cbn [hd tl].
  rewrite Hfifoe. run. flat. rewrite ch_handler_spec. run.
  rewrite Hdr. run. flat. destruct fuel; reflexivity.
Qed.

(** the normal path on a concrete wire: the status is polled until data is
    ready, two characters are drained (the second with a parity error, input
    parity checking on), and the buffer is flushed once *)
Lemma handle_rx_drain_example :
  ch43x_handle_rx linux 4 0x04
    {| one := upd_port
                (upd_read_status_mask
                   (Z.lor CH43X_LSR_OE_BIT
                      (Z.lor CH43X_LSR_PE_BIT CH43X_LSR_FE_BIT)))
                (probe_one 0);
       termios := mk_termios 0 0 0;
       wire := [0x60; 0x61; 0x41; 0x65; 0x42; 0x60];
       trace := [] |}
  = Done tt
      {| one := upd_port
                  (fun p =>
                     upd_icount (fun _ => mk_icount 2 0 0 0 1 0)
                       (upd_read_status_mask
                          (Z.lor CH43X_LSR_OE_BIT
                             (Z.lor CH43X_LSR_PE_BIT CH43X_LSR_FE_BIT)) p))
                  (probe_one 0);
         termios := mk_termios 0 0 0;
         wire := [];
         trace := [SpiRead 0x14 0x60; SpiRead 0x14 0x61; SpiRead 0x00 0x41;
                   InsertChar 0x61 0x02 0x41 TTY_NORMAL;
                   SpiRead 0x14 0x65; SpiRead 0x00 0x42;
                   InsertChar 0x04 0x02 0x42 TTY_PARITY;
                   SpiRead 0x14 0x60; FlipBufferPush] |}.
Proof. vm_compute. reflexivity. Qed.

(** polling a chip that never reports data ready uses up any fuel *)
Lemma handle_rx_can_spin (fuel : nat) (m : machine) :
  wire m = [] ->
  exists m', ch43x_handle_rx linux fuel 0x04 m = Spin m'.
Proof.
  intros Hw. unfold ch43x_handle_rx.
  change (0x04 =? CH43X_IIR_RLSE_SRC) with false. run.
  assert (H : forall f m0, wire m0 = [] -> exists m', wait_dr f m0 = Spin m').
  { induction f as [| f IH]; intros m0 H0.
    - cbn [wait_dr]. run. rewrite H0. cbn. eexists. reflexivity.
    - cbn [wait_dr]. run. rewrite H0. cbn.
      apply IH. reflexivity. }
  destruct (H fuel m Hw) as (m' & Hspin). rewrite Hspin. eexists. reflexivity.
Qed.

(** ** Reachability of the two corner cases *)

(** on the asm-generic layout the size field has exactly the four codes, so
    the fallback of the word-size switch is never taken there *)
Lemma linux_word_size_total (c : Z) : requested_word linux c <> None.
Proof.
  unfold requested_word. cbn [CSIZE CS5 CS6 CS7 CS8 linux].
  assert (H : Z.land c 0x30
              = (if Z.testbit c 4 then 0x10 else 0)
                + (if Z.testbit c 5 then 0x20 else 0)).
  { change 0x30 with (Z.lor (2 ^ 4) (2 ^ 5)).
    rewrite Z.land_lor_distr_r, !land_pow2 by lia.
    destruct (Z.testbit c 4), (Z.testbit c 5); reflexivity. }
  rewrite H. destruct (Z.testbit c 4), (Z.testbit c 5); discriminate.
Qed.

(** a 3000000 baud request (B3000000) goes through ch43x_set_termios to
    ch43x_set_baud unchanged and traps there *)
Lemma set_termios_3000000_traps :
  exists m',
    ch43x_set_termios linux
      (probe_machine 0
         (mk_termios 0 (Z.lor (CS8 linux) (CREAD linux)) 3000000)
         [0x08; 0x03])
    = Oops m'
    /\ trace m' = [SpiWrite 0x0E 0x03;
                   SpiRead 0x10 0x08; SpiWrite 0x12 0x08;
                   SpiRead 0x0C 0x03; SpiWrite 0x0E 0x80;
                   SpiWrite 0x06 0x00; SpiWrite 0x02 0x00;
                   SpiWrite 0x0E 0x03].
Proof. eexists. split; [vm_compute; reflexivity | reflexivity]. Qed.

(** * The rest of the driver: properties *)

(** ** Register addressing *)

Lemma cmd_closed_form (portnum reg : Z) :
  0 <= portnum <= 1 -> 0 <= reg <= 7 ->
  rd_cmd portnum reg = 4 * (reg + 8 * portnum)
  /\ wr_cmd portnum reg = 4 * (reg + 8 * portnum) + 2.
Proof.
  intros Hp Hr.
  assert (Hp' : portnum = 0 \/ portnum = 1) by lia.
  assert (Hr' : reg = 0 \/ reg = 1 \/ reg = 2 \/ reg = 3 \/ reg = 4 \/ reg = 5
                \/ reg = 6 \/ reg = 7) by lia.
  destruct Hp' as [-> | ->];
    repeat (destruct Hr' as [-> | Hr']; [split; reflexivity |]);
    subst reg; split; reflexivity.
Qed.

(** X1: The address bytes keep the two channels and their eight registers apart:
    in range, two reads (or two writes) with the same address byte address
    the same register of the same channel, and no read shares its address
    byte with a write. *)
Theorem cmd_bytes_distinct (p r p' r' : Z) :
  0 <= p <= 1 -> 0 <= r <= 7 -> 0 <= p' <= 1 -> 0 <= r' <= 7 ->
  (rd_cmd p r = rd_cmd p' r' -> p = p' /\ r = r')
  /\ (wr_cmd p r = wr_cmd p' r' -> p = p' /\ r = r')
  /\ rd_cmd p r <> wr_cmd p' r'.
Proof.
  intros Hp Hr Hp' Hr'.
  destruct (cmd_closed_form p r Hp Hr) as (-> & ->).
  destruct (cmd_closed_form p' r' Hp' Hr') as (-> & ->).
  lia.
Qed.

Lemma cmd_bytes_distinct_witness :
  rd_cmd 1 CH43X_IER_REG <> wr_cmd 0 CH43X_LSR_REG.
Proof.
  apply (cmd_bytes_distinct 1 CH43X_IER_REG 0 CH43X_LSR_REG);
    unfold CH43X_IER_REG, CH43X_LSR_REG; lia.
Defined.

(** ** Read-modify-write (ch43x_port_update) *)

Lemma testbit_u8 (x i : Z) :
  0 <= i < 8 -> Z.testbit (u8 x) i = Z.testbit x i.
Proof.
  intros Hi. unfold u8. change 256 with (2 ^ 8).
  apply Z.mod_pow2_bits_low. lia.
Qed.

(** X2: An update is one read and one write of the same register of the port's
    own channel; every bit of the byte written is the bit of [val] where
    [mask] has a one and the bit just read where it has a zero. *)
Theorem port_update_bits (reg mask val : Z) (m : machine) (i : Z) :
  0 <= i < 8 ->
  exists w,
    ch43x_port_update reg mask val m
    = Done tt
        {| one := one m; termios := termios m; wire := tl (wire m);
           trace := trace m ++
             [SpiRead (rd_cmd (line (port (one m))) reg) (next_read (wire m));
              SpiWrite (wr_cmd (line (port (one m))) reg) w] |}
    /\ 0 <= w < 256
    /\ Z.testbit w i
       = if Z.testbit mask i then Z.testbit val i
         else Z.testbit (next_read (wire m)) i.
Proof.
  intros Hi. eexists. split; [| split].
  - run. flat. reflexivity.
  - apply u8_range.
  - rewrite testbit_u8 by exact Hi.
    rewrite Z.lor_spec, !Z.land_spec, Z.lnot_spec by lia.
    destruct (Z.testbit mask i), (Z.testbit val i),
      (Z.testbit (next_read (wire m)) i); reflexivity.
Qed.

Lemma port_update_bits_witness :
  exists w,
    ch43x_port_update CH43X_IER_REG CH43X_IER_THRI_BIT CH43X_IER_THRI_BIT
      (probe_machine 1 (mk_termios 0 0 0) [0x05])
    = Done tt
        {| one := probe_one 1; termios := mk_termios 0 0 0; wire := [];
           trace := [SpiRead 0x24 0x05; SpiWrite 0x26 w] |}
    /\ Z.testbit w 1 = true.
Proof.
  assert (Hi : 0 <= 1 < 8) by lia.
  destruct (port_update_bits CH43X_IER_REG CH43X_IER_THRI_BIT
              CH43X_IER_THRI_BIT (probe_machine 1 (mk_termios 0 0 0) [0x05])
              1 Hi) as (w & Hrun & _ & Hbit).
  exists w. split; [exact Hrun | exact Hbit].
Defined.

(** ** Break control (ch43x_break_ctl) *)

Lemma set_TXBREAK (r : Z) :
  u8 (Z.lor (Z.land (u8 r) (Z.lnot CH43X_LCR_TXBREAK_BIT))
        (Z.land CH43X_LCR_TXBREAK_BIT CH43X_LCR_TXBREAK_BIT))
  = Z.lor (u8 r) CH43X_LCR_TXBREAK_BIT.
Proof. apply update_set. unfold CH43X_LCR_TXBREAK_BIT. simpl. lia. Qed.

(** X3: Any non-zero break state sets the TX-break bit of the line-control
    register and leaves its other bits as read; if the chip answers the next
    read with the byte just written, break off writes back the original byte
    with the break bit clear. *)
Theorem break_on_then_off (m : machine) (st lcr : Z) (rest : list Z) :
  st <> 0 ->
  wire m = lcr :: Z.lor (u8 lcr) CH43X_LCR_TXBREAK_BIT :: rest ->
  (ch43x_break_ctl st ;; ch43x_break_ctl 0)%drv m
  = Done tt
      {| one := one m; termios := termios m; wire := rest;
         trace := trace m ++
           [SpiRead (rd_cmd (line (port (one m))) CH43X_LCR_REG) (u8 lcr);
            SpiWrite (wr_cmd (line (port (one m))) CH43X_LCR_REG)
              (Z.lor (u8 lcr) CH43X_LCR_TXBREAK_BIT);
            SpiRead (rd_cmd (line (port (one m))) CH43X_LCR_REG)
              (Z.lor (u8 lcr) CH43X_LCR_TXBREAK_BIT);
            SpiWrite (wr_cmd (line (port (one m))) CH43X_LCR_REG)
              (Z.land (u8 lcr) (Z.lnot CH43X_LCR_TXBREAK_BIT))] |}.
Proof.
  intros Hst Hw. unfold ch43x_break_ctl.
  destruct (Z.eqb_spec st 0) as [E | _]; [contradiction |].
  change (0 =? 0) with true. run. rewrite Hw. flat. unfold next_read. cbn [hd tl].
  rewrite set_TXBREAK.
  assert (Hsmall : u8 (Z.lor (u8 lcr) CH43X_LCR_TXBREAK_BIT)
                   = Z.lor (u8 lcr) CH43X_LCR_TXBREAK_BIT).
  { rewrite u8_lor, u8_idem. reflexivity. }
  rewrite Hsmall.
  replace (u8 (Z.lor (Z.land (Z.lor (u8 lcr) CH43X_LCR_TXBREAK_BIT)
                        (Z.lnot CH43X_LCR_TXBREAK_BIT))
                 (Z.land 0 CH43X_LCR_TXBREAK_BIT)))
    with (Z.land (u8 lcr) (Z.lnot CH43X_LCR_TXBREAK_BIT)); [reflexivity |].
  rewrite Z.land_0_l, Z.lor_0_r, u8_land, Hsmall.
  apply Z.bits_inj'. intros i Hi.
  rewrite !Z.land_spec, Z.lor_spec, Z.lnot_spec by exact Hi.
  destruct (Z.testbit (u8 lcr) i), (Z.testbit CH43X_LCR_TXBREAK_BIT i);
    reflexivity.
Qed.

Lemma break_on_then_off_witness :
  (ch43x_break_ctl 1 ;; ch43x_break_ctl 0)%drv
    (probe_machine 0 (mk_termios 0 0 0) [0x1B; 0x5B])
  = Done tt
      {| one := probe_one 0; termios := mk_termios 0 0 0; wire := [];
         trace := [SpiRead 0x0C 0x1B; SpiWrite 0x0E 0x5B;
                   SpiRead 0x0C 0x5B; SpiWrite 0x0E 0x1B] |}.
Proof.
  assert (H1 : 1 <> 0) by discriminate.
  exact (break_on_then_off (probe_machine 0 (mk_termios 0 0 0) [0x1B; 0x5B])
           1 0x1B [] H1 eq_refl).
Defined.

(** ** Baud rate: the working range *)

(** X4: For a rate between 1 and clk/16 whose divisor fits the 16-bit latch,
    ch43x_set_baud sets DLAB, sends the divisor floor(clk/16/baud) as high
    byte then low byte, restores the line-control byte it read, and returns
    the rate rounded to the closest for that divisor. *)
Theorem set_baud_programs_divisor (K : kernel) (m : machine) (baud : Z) :
  32 <= BITS_PER_LONG K ->
  0 <= uartclk (port (one m)) < 2 ^ 32 ->
  0 < baud <= uartclk (port (one m)) / 16 ->
  uartclk (port (one m)) / 16 / baud <= 0xffff ->
  exists hi lo achieved m',
    ch43x_set_baud K baud m = Done achieved m'
    /\ one m' = one m
    /\ trace m' = trace m ++
         [SpiRead (rd_cmd (line (port (one m))) CH43X_LCR_REG)
            (next_read (wire m));
          SpiWrite (wr_cmd (line (port (one m))) CH43X_LCR_REG)
            CH43X_LCR_DLAB_BIT;
          SpiWrite (wr_cmd (line (port (one m))) CH43X_DLH_REG) hi;
          SpiWrite (wr_cmd (line (port (one m))) CH43X_DLL_REG) lo;
          SpiWrite (wr_cmd (line (port (one m))) CH43X_LCR_REG)
            (next_read (wire m))]
    /\ 0 <= hi < 256 /\ 0 <= lo < 256
    /\ 256 * hi + lo = uartclk (port (one m)) / 16 / baud
    /\ achieved = DIV_ROUND_CLOSEST (uartclk (port (one m)) / 16)
                    (uartclk (port (one m)) / 16 / baud)
    /\ 2 * Z.abs (uartclk (port (one m)) / 16
                  - uartclk (port (one m)) / 16 / baud * achieved)
       <= uartclk (port (one m)) / 16 / baud.
Proof.
  intros HK Hclk Hbaud Hfit.
  set (clk := uartclk (port (one m))) in *.
  assert (Hx : 0 <= clk / 16) by (apply Z.div_pos; lia).
  assert (Hd : 1 <= clk / 16 / baud)
    by (apply Z.div_le_lower_bound; lia).
  exists (u8 (clk / 16 / baud / 256)), (clk / 16 / baud mod 256).
  eexists. eexists.
  split; [apply (set_baud_in_range K m baud HK Hclk Hbaud) |].
  cbn [one trace]. split; [reflexivity |]. split; [reflexivity |].
  split; [apply u8_range |].
  split; [apply Z.mod_pos_bound; lia |].
  split; [apply divisor_bytes; lia |].
  split; [reflexivity |].
  apply DIV_ROUND_CLOSEST_closest; [exact Hx |].
  apply Z.lt_le_trans with 1; [reflexivity | exact Hd].
Qed.

Lemma set_baud_programs_divisor_witness :
  exists hi lo achieved m',
    ch43x_set_baud linux 115200 (probe_machine 1 (mk_termios 0 0 0) [0x03])
    = Done achieved m'
    /\ 256 * hi + lo = 24 /\ achieved = 115200.
Proof.
  assert (HK : 32 <= BITS_PER_LONG linux) by discriminate.
  assert (Hclk : 0 <= uartclk (port (one (probe_machine 1 (mk_termios 0 0 0)
                                            [0x03]))) < 2 ^ 32)
    by (split; [discriminate | reflexivity]).
  assert (Hbaud : 0 < 115200
                  <= uartclk (port (one (probe_machine 1 (mk_termios 0 0 0)
                                           [0x03]))) / 16)
    by (split; [reflexivity | discriminate]).
  assert (Hfit : uartclk (port (one (probe_machine 1 (mk_termios 0 0 0)
                                      [0x03]))) / 16 / 115200 <= 0xffff)
    by discriminate.
  destruct (set_baud_programs_divisor linux _ 115200 HK Hclk Hbaud Hfit)
    as (hi & lo & achieved & m' & Hrun & _ & _ & _ & _ & Hdiv & Hach & _).
  exists hi, lo, achieved, m'.
  split; [exact Hrun |]. split; [exact Hdiv | exact Hach].
Defined.

(** X5: For every requested rate above clk/16 (and below 2^32) the divisor is
    zero: ch43x_set_baud writes zero to both divisor latches, restores the
    line-control register and then traps on the rounding division instead of
    returning a rate. *)
Theorem set_baud_traps_above_clk16 (K : kernel) (m : machine) (baud : Z) :
  32 <= BITS_PER_LONG K ->
  0 <= uartclk (port (one m)) < 2 ^ 32 ->
  uartclk (port (one m)) / 16 < baud < 2 ^ 32 ->
  ch43x_set_baud K baud m
  = Oops
      {| one := one m; termios := termios m; wire := tl (wire m);
         trace := trace m ++
           [SpiRead (rd_cmd (line (port (one m))) CH43X_LCR_REG)
              (next_read (wire m));
            SpiWrite (wr_cmd (line (port (one m))) CH43X_LCR_REG)
              CH43X_LCR_CONF_MODE_A;
            SpiWrite (wr_cmd (line (port (one m))) CH43X_DLH_REG) 0;
            SpiWrite (wr_cmd (line (port (one m))) CH43X_DLL_REG) 0;
            SpiWrite (wr_cmd (line (port (one m))) CH43X_LCR_REG)
              (next_read (wire m))] |}.
Proof. exact (set_baud_above_clk16 K m baud). Qed.

Lemma set_baud_traps_above_clk16_witness :
  ch43x_set_baud linux 4000000 (probe_machine 0 (mk_termios 0 0 0) [0x03])
  = Oops
      {| one := probe_one 0; termios := mk_termios 0 0 0; wire := [];
         trace := [SpiRead 0x0C 0x03; SpiWrite 0x0E 0x80;
                   SpiWrite 0x06 0x00; SpiWrite 0x02 0x00;
                   SpiWrite 0x0E 0x03] |}.
Proof.
  assert (HK : 32 <= BITS_PER_LONG linux) by discriminate.
  assert (Hclk : 0 <= uartclk (port (one (probe_machine 0 (mk_termios 0 0 0)
                                            [0x03]))) < 2 ^ 32)
    by (split; [discriminate | reflexivity]).
  assert (Hbaud : uartclk (port (one (probe_machine 0 (mk_termios 0 0 0)
                                        [0x03]))) / 16 < 4000000 < 2 ^ 32)
    by (split; reflexivity).
  exact (set_baud_traps_above_clk16 linux _ 4000000 HK Hclk Hbaud).
Defined.

(** ** Line configuration: the whole run *)







(** the forced modem-control bits when ch43x_set_termios stops, whether it
    returns or traps *)
Lemma set_termios_mcr_force (K : kernel) (m : machine) :
  mcr_force (one (final (ch43x_set_termios K m)))
  = if tst (c_cflag (termios (final (ch43x_set_termios K m)))) (CRTSCTS K)
    then u8 (Z.lor (mcr_force (one m)) (Z.lor CH43X_MCR_AFE CH43X_MCR_RTS_BIT))
    else u8 (Z.land (mcr_force (one m))
               (Z.lnot (Z.lor CH43X_MCR_AFE CH43X_MCR_RTS_BIT))).
Proof.
  unfold ch43x_set_termios. norm.
  destruct (termios_lcr K (c_cflag (termios m))) as [lcr cflag]. norm.
  destruct (tst cflag (CRTSCTS K)) eqn:E; norm; unfold ch43x_set_baud; norm;
    match goal with |- context [ulong K ?b =? 0] =>
      destruct (ulong K b =? 0) end; norm;
    try match goal with |- context [?d =? 0] =>
      destruct (d =? 0) end; norm; rewrite ?E; reflexivity.
Qed.

(** ** Stop-rx on a configured channel *)

Lemma read_status_mask_no_DR (K : kernel) (iflag : Z) :
  Z.land (termios_read_status_mask K iflag) (Z.lnot CH43X_LSR_DR_BIT)
  = termios_read_status_mask K iflag.
Proof.
  unfold termios_read_status_mask.
  destruct (tst iflag (INPCK K)), (tst iflag (Z.lor (BRKINT K) (PARMRK K)));
    reflexivity.
Qed.

(** X7: The read-status-mask installed by ch43x_set_termios never contains the
    data-ready bit, so on a channel configured by it the deferred stop-rx
    action leaves the whole channel state, mask included, as it was: all it
    does is clear the two RX enable bits in the chip. *)
Theorem stop_rx_after_set_termios (K : kernel) (m0 m : machine) :
  ch43x_set_termios K m0 = Done tt m ->
  exists m',
    ch43x_stop_rx_work_proc m = Done tt m'
    /\ one m' = one m
    /\ trace m' = trace m ++
         [SpiRead (rd_cmd (line (port (one m))) CH43X_IER_REG)
            (next_read (wire m));
          SpiWrite (wr_cmd (line (port (one m))) CH43X_IER_REG)
            (Z.land (next_read (wire m)) (Z.lnot CH43X_IER_RDI_BIT));
          SpiRead (rd_cmd (line (port (one m))) CH43X_IER_REG)
            (next_read (tl (wire m)));
          SpiWrite (wr_cmd (line (port (one m))) CH43X_IER_REG)
            (Z.land (next_read (tl (wire m))) (Z.lnot CH43X_IER_RLSI_BIT))].
Proof.
  intros Hset.
  destruct (set_termios_effects K m0) as (rest & _ & _ & _ & Hmask & _).
  rewrite Hset in Hmask. cbn [final] in Hmask.
  eexists. split.
  - unfold ch43x_stop_rx_work_proc. run. flat.
    unfold next_read. rewrite !update_clear. reflexivity.
  - cbn [one trace]. split; [| reflexivity].
    rewrite Hmask, read_status_mask_no_DR, <- Hmask.
    destruct (one m) as [p r ms ie mf]. destruct p. reflexivity.
Qed.

Lemma stop_rx_after_set_termios_witness :
  exists m m',
    ch43x_set_termios linux (probe_machine 0 termios_raw [0x08; 0x03; 0x0D; 0x0C])
    = Done tt m
    /\ ch43x_stop_rx_work_proc m = Done tt m'
    /\ one m' = one m.
Proof.
  assert (Hset : ch43x_set_termios linux
                   (probe_machine 0 termios_raw [0x08; 0x03; 0x0D; 0x0C])
                 = Done tt (final (ch43x_set_termios linux
                              (probe_machine 0 termios_raw
                                 [0x08; 0x03; 0x0D; 0x0C]))))
    by (vm_compute; reflexivity).
  destruct (stop_rx_after_set_termios linux _ _ Hset) as (m' & Hrun & Hone & _).
  eexists. exists m'. split; [exact Hset |]. split; [exact Hrun | exact Hone].
Defined.

(** ** Modem control (ch43x_md_proc) *)

(** the deferred modem-control update is a single write of the modem-control
    register *)
Lemma md_proc_run (A : serial_abi) (m : machine) :
  exists x,
    ch43x_md_proc A m
    = Done tt
        {| one := one m; termios := termios m; wire := wire m;
           trace := trace m ++
             [SpiWrite (wr_cmd (line (port (one m))) CH43X_MCR_REG)
                (u8 (Z.lor x (mcr_force (one m))))] |}
    /\ (mctrl (port (one m)) = 0 -> x = 0).
Proof.
  unfold ch43x_md_proc. run. eexists. split.
  - rewrite u8_idem. reflexivity.
  - intros H0. rewrite H0, !tst_0_l. reflexivity.
Qed.



(** X9: After ch43x_set_termios has returned for a request with hardware
    flow control, ch43x_md_proc, run in any state whose forced modem-control
    bits are still the ones ch43x_set_termios left, writes the
    auto-flow-enable and RTS bits as ones, whatever the requested signals;
    after it has returned for a request without, neither of the two is among
    the forced bits it left. *)
Theorem md_proc_after_set_termios (K : kernel) (A : serial_abi)
        (m0 m m1 : machine) :
  ch43x_set_termios K m0 = Done tt m ->
  mcr_force (one m1) = mcr_force (one m) ->
  (tst (c_cflag (termios m)) (CRTSCTS K) = true ->
   exists w,
     ch43x_md_proc A m1
     = Done tt
         {| one := one m1; termios := termios m1; wire := wire m1;
            trace := trace m1 ++
              [SpiWrite (wr_cmd (line (port (one m1))) CH43X_MCR_REG) w] |}
     /\ tst w CH43X_MCR_AFE = true /\ tst w CH43X_MCR_RTS_BIT = true)
  /\
  (tst (c_cflag (termios m)) (CRTSCTS K) = false ->
   tst (mcr_force (one m1)) CH43X_MCR_AFE = false
   /\ tst (mcr_force (one m1)) CH43X_MCR_RTS_BIT = false).
Proof.
  intros Hset Hsame. pose proof (set_termios_mcr_force K m0) as Hmf.
  rewrite Hset in Hmf. cbn [final] in Hmf. rewrite <- Hsame in Hmf.
  change CH43X_MCR_AFE with (2 ^ 5). change CH43X_MCR_RTS_BIT with (2 ^ 1).
  split; intros Hflow; rewrite Hflow in Hmf.
  - destruct (md_proc_run A m1) as (x & Hrun & _).
    eexists. split; [exact Hrun |].
    rewrite !tst_pow2, !testbit_u8, !Z.lor_spec, Hmf, !testbit_u8,
      !Z.lor_spec by lia.
    split; rewrite !orb_true_r; reflexivity.
  - rewrite Hmf, !tst_pow2, !testbit_u8, !Z.land_spec, !Z.lnot_spec by lia.
    split; rewrite andb_false_r; reflexivity.
Qed.

Lemma md_proc_after_set_termios_witness :
  exists m w,
    ch43x_set_termios linux (probe_machine 0 termios_crtscts [0x08; 0x03])
    = Done tt m
    /\ ch43x_md_proc linux_abi
         {| one := upd_port
                     (fun p => mk_uart_port (line p) (uartclk p)
                                 (read_status_mask p) (ignore_status_mask p)
                                 (x_char p) (TIOCM_DTR linux_abi) (icount p)
                                 (xmit p) (tx_stopped p))
                     (one m);
            termios := termios m; wire := []; trace := [] |}
       = Done tt
           {| one := upd_port
                       (fun p => mk_uart_port (line p) (uartclk p)
                                   (read_status_mask p) (ignore_status_mask p)
                                   (x_char p) (TIOCM_DTR linux_abi) (icount p)
                                   (xmit p) (tx_stopped p))
                       (one m);
              termios := termios m; wire := [];
              trace := [SpiWrite 0x12 w] |}
    /\ tst w CH43X_MCR_AFE = true /\ tst w CH43X_MCR_RTS_BIT = true.
Proof.
  assert (Hset : ch43x_set_termios linux
                   (probe_machine 0 termios_crtscts [0x08; 0x03])
                 = Done tt (final (ch43x_set_termios linux
                              (probe_machine 0 termios_crtscts [0x08; 0x03]))))
    by (vm_compute; reflexivity).
  assert (Hflow : tst (c_cflag (termios (final (ch43x_set_termios linux
                         (probe_machine 0 termios_crtscts [0x08; 0x03])))))
                    (CRTSCTS linux) = true)
    by (vm_compute; reflexivity).
  destruct (proj1 (md_proc_after_set_termios linux linux_abi _ _
                     {| one := upd_port
                                 (fun p => mk_uart_port (line p) (uartclk p)
                                             (read_status_mask p)
                                             (ignore_status_mask p)
                                             (x_char p) (TIOCM_DTR linux_abi)
                                             (icount p) (xmit p)
                                             (tx_stopped p))
                                 (one (final (ch43x_set_termios linux
                                         (probe_machine 0 termios_crtscts
                                            [0x08; 0x03]))));
                        termios := termios (final (ch43x_set_termios linux
                                         (probe_machine 0 termios_crtscts
                                            [0x08; 0x03])));
                        wire := []; trace := [] |}
                     Hset eq_refl) Hflow)
    as (w & Hrun & Hafe & Hrts).
  eexists. exists w. split; [exact Hset |].
  split; [exact Hrun |]. split; [exact Hafe | exact Hrts].
Defined.

(** ** Start-up and power (ch43x_startup, ch43x_pm) *)

Lemma clear_SLEEP (r : Z) :
  u8 (Z.lor (Z.land (u8 r) (Z.lnot CH43X_IER_SLEEP_BIT))
        (Z.land 0 CH43X_IER_SLEEP_BIT))
  = Z.land (u8 r) (Z.lnot CH43X_IER_SLEEP_BIT).
Proof. apply update_clear. Qed.

(** the whole run of start-up *)
Lemma startup_run (m : machine) :
  ch43x_startup m
  = Done 0
      {| one := upd_mcr_force CH43X_MCR_OUT2 (one m);
         termios := termios m;
         wire := tl (tl (wire m));
         trace := trace m ++
           [SpiRead (rd_cmd 0 CH43X_IER_REG) (next_read (wire m));
            SpiWrite (wr_cmd 0 CH43X_IER_REG)
              (Z.land (next_read (wire m)) (Z.lnot CH43X_IER_SLEEP_BIT));
            SpiWrite (wr_cmd (line (port (one m))) CH43X_FCR_REG)
              (Z.lor CH43X_FCR_RXRESET_BIT CH43X_FCR_TXRESET_BIT);
            SpiWrite (wr_cmd (line (port (one m))) CH43X_FCR_REG)
              (Z.lor CH43X_FCR_RXLVLH_BIT CH43X_FCR_FIFO_BIT);
            SpiWrite (wr_cmd (line (port (one m))) CH43X_LCR_REG)
              CH43X_LCR_WORD_LEN_8;
            SpiRead (rd_cmd (line (port (one m))) CH43X_IER_REG)
              (next_read (tl (wire m)));
            SpiWrite (wr_cmd (line (port (one m))) CH43X_IER_REG)
              (Z.lor (next_read (tl (wire m)))
                 (Z.lor (Z.lor CH43X_IER_RDI_BIT CH43X_IER_RLSI_BIT)
                    CH43X_IER_MSI_BIT));
            SpiWrite (wr_cmd (line (port (one m))) CH43X_MCR_REG)
              CH43X_MCR_OUT2] |}.
Proof.
  unfold ch43x_startup. steps. flat. unfold next_read.
  rewrite clear_SLEEP, (u8_lor (u8 (hd 0 (tl (wire m))))), u8_idem.
  reflexivity.
Qed.

(** X10: Start-up wakes the chip through channel 0's interrupt-enable register,
    resets and enables the FIFOs (trigger level bit 7), sets 8-bit words,
    turns on the RX-data, RX-line-status and modem-status interrupts of its
    own channel while leaving the other bits of that register -- the
    TX-ready enable among them -- as read, asserts OUT2 and makes OUT2 the
    forced modem-control bits; it returns 0. *)
Theorem startup_effect (m : machine) :
  ch43x_startup m
  = Done 0
      {| one := upd_mcr_force CH43X_MCR_OUT2 (one m);
         termios := termios m;
         wire := tl (tl (wire m));
         trace := trace m ++
           [SpiRead (rd_cmd 0 CH43X_IER_REG) (next_read (wire m));
            SpiWrite (wr_cmd 0 CH43X_IER_REG)
              (Z.land (next_read (wire m)) (Z.lnot CH43X_IER_SLEEP_BIT));
            SpiWrite (wr_cmd (line (port (one m))) CH43X_FCR_REG)
              (Z.lor CH43X_FCR_RXRESET_BIT CH43X_FCR_TXRESET_BIT);
            SpiWrite (wr_cmd (line (port (one m))) CH43X_FCR_REG)
              (Z.lor CH43X_FCR_RXLVLH_BIT CH43X_FCR_FIFO_BIT);
            SpiWrite (wr_cmd (line (port (one m))) CH43X_LCR_REG)
              CH43X_LCR_WORD_LEN_8;
            SpiRead (rd_cmd (line (port (one m))) CH43X_IER_REG)
              (next_read (tl (wire m)));
            SpiWrite (wr_cmd (line (port (one m))) CH43X_IER_REG)
              (Z.lor (next_read (tl (wire m)))
                 (Z.lor (Z.lor CH43X_IER_RDI_BIT CH43X_IER_RLSI_BIT)
                    CH43X_IER_MSI_BIT));
            SpiWrite (wr_cmd (line (port (one m))) CH43X_MCR_REG)
              CH43X_MCR_OUT2] |}
  /\ tst (Z.lor (next_read (tl (wire m)))
            (Z.lor (Z.lor CH43X_IER_RDI_BIT CH43X_IER_RLSI_BIT)
               CH43X_IER_MSI_BIT)) CH43X_IER_THRI_BIT
     = tst (next_read (tl (wire m))) CH43X_IER_THRI_BIT.
Proof.
  split; [apply startup_run |].
  change CH43X_IER_THRI_BIT with (2 ^ 1).
  rewrite !tst_pow2, Z.lor_spec by lia.
  change (Z.testbit (Z.lor (Z.lor CH43X_IER_RDI_BIT CH43X_IER_RLSI_BIT)
                       CH43X_IER_MSI_BIT) 1) with false.
  apply orb_false_r.
Qed.

(** X11: After ch43x_startup, OUT2 is among the forced modem-control bits:
    ch43x_md_proc, run in any state whose forced bits are still the ones
    start-up left, writes OUT2 as a one whatever signals are requested, and
    so it does after a ch43x_set_termios that returns from such a state,
    which changes only the auto-flow-enable and RTS forced bits. *)
Theorem md_proc_after_startup (K : kernel) (A : serial_abi)
        (m0 m m1 : machine) (r : Z) :
  ch43x_startup m0 = Done r m ->
  mcr_force (one m1) = mcr_force (one m) ->
  (exists w,
     ch43x_md_proc A m1
     = Done tt
         {| one := one m1; termios := termios m1; wire := wire m1;
            trace := trace m1 ++
              [SpiWrite (wr_cmd (line (port (one m1))) CH43X_MCR_REG) w] |}
     /\ tst w CH43X_MCR_OUT2 = true)
  /\
  (forall m2,
      ch43x_set_termios K m1 = Done tt m2 ->
      exists w,
        ch43x_md_proc A m2
        = Done tt
            {| one := one m2; termios := termios m2; wire := wire m2;
               trace := trace m2 ++
                 [SpiWrite (wr_cmd (line (port (one m2))) CH43X_MCR_REG) w] |}
        /\ tst w CH43X_MCR_OUT2 = true).
Proof.
  intros Hup Hsame. pose proof (startup_run m0) as Hrun.
  rewrite Hrun in Hup. injection Hup as _ <-.
  cbn [one mcr_force upd_mcr_force] in Hsame.
  change CH43X_MCR_OUT2 with (2 ^ 3) in *.
  split.
  - destruct (md_proc_run A m1) as (x & Hmd & _).
    eexists. split; [exact Hmd |].
    rewrite Hsame, tst_pow2, testbit_u8, Z.lor_spec by lia.
    change (Z.testbit (2 ^ 3) 3) with true. apply orb_true_r.
  - intros m2 Hset. pose proof (set_termios_mcr_force K m1) as Hmf.
    rewrite Hset in Hmf. cbn [final] in Hmf. rewrite Hsame in Hmf.
    destruct (md_proc_run A m2) as (x & Hmd & _).
    eexists. split; [exact Hmd |].
    rewrite tst_pow2, testbit_u8, Z.lor_spec, Hmf by lia.
    destruct (tst (c_cflag (termios m2)) (CRTSCTS K));
      rewrite testbit_u8 by lia;
      [rewrite Z.lor_spec | rewrite Z.land_spec, Z.lnot_spec by lia];
      change (Z.testbit (2 ^ 3) 3) with true;
      change (Z.testbit (Z.lor CH43X_MCR_AFE CH43X_MCR_RTS_BIT) 3) with false;
      apply orb_true_r.
Qed.

Lemma md_proc_after_startup_witness :
  exists m w,
    ch43x_startup (probe_machine 1 (mk_termios 0 0 0) [0x20; 0x00])
    = Done 0 m
    /\ ch43x_md_proc linux_abi m
       = Done tt
           {| one := one m; termios := termios m; wire := wire m;
              trace := trace m ++ [SpiWrite 0x32 w] |}
    /\ tst w CH43X_MCR_OUT2 = true.
Proof.
  assert (Hup : ch43x_startup (probe_machine 1 (mk_termios 0 0 0) [0x20; 0x00])
                = Done 0 (final (ch43x_startup
                                   (probe_machine 1 (mk_termios 0 0 0)
                                      [0x20; 0x00]))))
    by (vm_compute; reflexivity).
  destruct (proj1 (md_proc_after_startup linux linux_abi _ _
                     (final (ch43x_startup
                               (probe_machine 1 (mk_termios 0 0 0)
                                  [0x20; 0x00])))
                     0 Hup eq_refl))
    as (w & Hrun & Hout2).
  eexists. exists w. split; [exact Hup |]. split; [exact Hrun | exact Hout2].
Defined.

(** X12: Power management goes through the interrupt-enable register of channel
    0 whichever channel it is called for: the ON state clears the sleep bit
    there, any other state sets it, and the other bits are written back as
    read. *)
Theorem pm_effect (A : serial_abi) (state : Z) (m : machine) :
  ch43x_pm A state m
  = Done tt
      {| one := one m; termios := termios m; wire := tl (wire m);
         trace := trace m ++
           [SpiRead (rd_cmd 0 CH43X_IER_REG) (next_read (wire m));
            SpiWrite (wr_cmd 0 CH43X_IER_REG)
              (if state =? UART_PM_STATE_ON A
               then Z.land (next_read (wire m)) (Z.lnot CH43X_IER_SLEEP_BIT)
               else Z.lor (next_read (wire m)) CH43X_IER_SLEEP_BIT)] |}.
Proof.
  unfold ch43x_pm. destruct (state =? UART_PM_STATE_ON A); run; flat;
    unfold next_read; rewrite ?clear_SLEEP, ?set_SLEEP; reflexivity.
Qed.

(** ** The RS485 ioctl (ch43x_ioctl, ch43x_config_rs485) *)

(** X13: A set request stores the user's record verbatim, without validation
    and without touching the chip, and returns 0 with the user buffer as it
    was; a get request that follows returns 0 and hands the same record
    back, leaving the channel as the set request left it. *)
Theorem ioctl_set_then_get (A : serial_abi) (m : machine)
        (r old : serial_rs485) :
  IOCTL_CMD_SRS485 A <> IOCTL_CMD_GRS485 A ->
  ch43x_ioctl A (IOCTL_CMD_SRS485 A) (UserBuf r) m
  = Done (0, UserBuf r)
      {| one := upd_rs485 r (one m); termios := termios m; wire := wire m;
         trace := trace m |}
  /\ ch43x_ioctl A (IOCTL_CMD_GRS485 A) (UserBuf old)
       {| one := upd_rs485 r (one m); termios := termios m; wire := wire m;
          trace := trace m |}
     = Done (0, UserBuf r)
         {| one := upd_rs485 r (one m); termios := termios m; wire := wire m;
            trace := trace m |}.
Proof.
  intros Hne. unfold ch43x_ioctl, ch43x_config_rs485.
  rewrite !Z.eqb_refl.
  destruct (Z.eqb_spec (IOCTL_CMD_GRS485 A) (IOCTL_CMD_SRS485 A)) as [E | _];
    [symmetry in E; contradiction |].
  steps. split; reflexivity.
Qed.

Lemma linux_ioctl_cmds_differ :
  IOCTL_CMD_SRS485 linux_abi <> IOCTL_CMD_GRS485 linux_abi.
Proof. discriminate. Qed.

Lemma ioctl_set_then_get_witness :
  ch43x_ioctl linux_abi (IOCTL_CMD_SRS485 linux_abi)
    (UserBuf (mk_rs485 1 2 3)) (probe_machine 0 (mk_termios 0 0 0) [])
  = Done (0, UserBuf (mk_rs485 1 2 3))
      {| one := upd_rs485 (mk_rs485 1 2 3) (probe_one 0);
         termios := mk_termios 0 0 0; wire := []; trace := [] |}
  /\ ch43x_ioctl linux_abi (IOCTL_CMD_GRS485 linux_abi)
       (UserBuf (mk_rs485 0 0 0))
       {| one := upd_rs485 (mk_rs485 1 2 3) (probe_one 0);
          termios := mk_termios 0 0 0; wire := []; trace := [] |}
     = Done (0, UserBuf (mk_rs485 1 2 3))
         {| one := upd_rs485 (mk_rs485 1 2 3) (probe_one 0);
            termios := mk_termios 0 0 0; wire := []; trace := [] |}.
Proof.
  exact (ioctl_set_then_get linux_abi (probe_machine 0 (mk_termios 0 0 0) [])
           (mk_rs485 1 2 3) (mk_rs485 0 0 0) linux_ioctl_cmds_differ).
Defined.

(** X14: A request whose argument cannot be accessed fails with -EFAULT and any
    request other than the two RS485 ones with -ENOIOCTLCMD; in both cases
    the channel, the stored RS485 record included, and the user buffer are
    left as they were. *)
Theorem ioctl_rejects (A : serial_abi) (m : machine) (cmd : Z) (arg : user_arg) :
  IOCTL_CMD_SRS485 A <> IOCTL_CMD_GRS485 A ->
  ch43x_ioctl A (IOCTL_CMD_SRS485 A) UserFault m = Done (- EFAULT A, UserFault) m
  /\ ch43x_ioctl A (IOCTL_CMD_GRS485 A) UserFault m
     = Done (- EFAULT A, UserFault) m
  /\ (cmd <> IOCTL_CMD_SRS485 A -> cmd <> IOCTL_CMD_GRS485 A ->
      ch43x_ioctl A cmd arg m = Done (- ENOIOCTLCMD A, arg) m).
Proof.
  intros Hne. unfold ch43x_ioctl. rewrite !Z.eqb_refl.
  destruct (Z.eqb_spec (IOCTL_CMD_GRS485 A) (IOCTL_CMD_SRS485 A)) as [E | _];
    [symmetry in E; contradiction |].
  split; [reflexivity |]. split; [reflexivity |].
  intros H1 H2.
  destruct (Z.eqb_spec cmd (IOCTL_CMD_SRS485 A)); [contradiction |].
  destruct (Z.eqb_spec cmd (IOCTL_CMD_GRS485 A)); [contradiction |].
  reflexivity.
Qed.

Lemma ioctl_rejects_witness :
  ch43x_ioctl linux_abi 0x5401 (UserBuf (mk_rs485 1 2 3))
    (probe_machine 0 (mk_termios 0 0 0) [])
  = Done (-515, UserBuf (mk_rs485 1 2 3))
      (probe_machine 0 (mk_termios 0 0 0) []).
Proof.
  assert (H1 : 0x5401 <> IOCTL_CMD_SRS485 linux_abi) by discriminate.
  assert (H2 : 0x5401 <> IOCTL_CMD_GRS485 linux_abi) by discriminate.
  exact (proj2 (proj2 (ioctl_rejects linux_abi
                         (probe_machine 0 (mk_termios 0 0 0) []) 0x5401
                         (UserBuf (mk_rs485 1 2 3)) linux_ioctl_cmds_differ))
           H1 H2).
Defined.

(** ** Chip test (ch43x_spi_test) *)

(** X15: The test reads the interrupt-identification and line-status registers,
    then writes 0x55 to the scratch pad and reads it back; only if that
    matches does it write and read back 0xAA.  It returns 0 exactly when both
    read-backs match and -1 otherwise, stopping at the first mismatch. *)
Theorem spi_test_verdict (m : machine) :
  ch43x_spi_test m
  = Done
      (if (next_read (tl (tl (wire m))) =? 0x55)
          && (next_read (tl (tl (tl (wire m)))) =? 0xAA) then 0 else -1)
      {| one := one m; termios := termios m;
         wire := if next_read (tl (tl (wire m))) =? 0x55
                 then tl (tl (tl (tl (wire m))))
                 else tl (tl (tl (wire m)));
         trace := trace m ++
           [SpiRead (rd_cmd (line (port (one m))) CH43X_IIR_REG)
              (next_read (wire m));
            SpiRead (rd_cmd (line (port (one m))) CH43X_LSR_REG)
              (next_read (tl (wire m)));
            SpiWrite (wr_cmd (line (port (one m))) CH43X_SPR_REG) 0x55;
            SpiRead (rd_cmd (line (port (one m))) CH43X_SPR_REG)
              (next_read (tl (tl (wire m))))]
           ++ (if next_read (tl (tl (wire m))) =? 0x55
               then [SpiWrite (wr_cmd (line (port (one m))) CH43X_SPR_REG) 0xAA;
                     SpiRead (rd_cmd (line (port (one m))) CH43X_SPR_REG)
                       (next_read (tl (tl (tl (wire m)))))]
               else []) |}.
Proof.
  unfold ch43x_spi_test. steps.
  destruct (next_read (tl (tl (wire m))) =? 0x55); steps.
  - destruct (next_read (tl (tl (tl (wire m)))) =? 0xAA); steps; flat;
      reflexivity.
  - flat. reflexivity.
Qed.

(** ** Transmitter status (ch43x_tx_empty) against the RS485 gate *)



(** ** Interrupt dispatch (ch43x_port_irq) *)

(** X17: When the chip reports no interrupt pending, the service routine has read
    the line-status and the interrupt-identification register once each and
    done nothing else -- whatever fuel it was given. *)
Theorem port_irq_idle (K : kernel) (fuel : nat) (m : machine) :
  tst (next_read (tl (wire m))) CH43X_IIR_NO_INT_BIT = true ->
  ch43x_port_irq K fuel m
  = Done tt
      {| one := one m; termios := termios m; wire := tl (tl (wire m));
         trace := trace m ++
           [SpiRead (rd_cmd (line (port (one m))) CH43X_LSR_REG)
              (next_read (wire m));
            SpiRead (rd_cmd (line (port (one m))) CH43X_IIR_REG)
              (next_read (tl (wire m)))] |}.
Proof.
  intros Hidle.
  destruct fuel; cbn [ch43x_port_irq]; steps;
    destruct (tst (next_read (wire m)) 2); steps; rewrite Hidle; steps; flat;
    reflexivity.
Qed.

Lemma port_irq_idle_witness :
  ch43x_port_irq linux 0 (probe_machine 1 (mk_termios 0 0 0) [0x60; 0x01])
  = Done tt
      {| one := probe_one 1; termios := mk_termios 0 0 0; wire := [];
         trace := [SpiRead 0x34 0x60; SpiRead 0x28 0x01] |}.
Proof.
  exact (port_irq_idle linux 0 (probe_machine 1 (mk_termios 0 0 0) [0x60; 0x01])
           eq_refl).
Defined.

(** the same fact with the machine spelt out, for use after other steps *)
Lemma port_irq_idle_on (K : kernel) (fuel : nat) (o : ch43x_one)
      (t : ktermios) (w : list Z) (tr : list event) :
  tst (next_read (tl w)) CH43X_IIR_NO_INT_BIT = true ->
  ch43x_port_irq K fuel (mk_machine o t w tr)
  = Done tt
      (mk_machine o t (tl (tl w))
         (tr ++ [SpiRead (rd_cmd (line (port o)) CH43X_LSR_REG) (next_read w);
                 SpiRead (rd_cmd (line (port o)) CH43X_IIR_REG)
                   (next_read (tl w))])).
Proof.
  intros Hidle.
  destruct fuel; cbn [ch43x_port_irq]; steps;
    destruct (tst (next_read w) 2); steps; rewrite Hidle; steps; flat;
    reflexivity.
Qed.

(** X18: An interrupt source that is none of the five the routine knows is
    logged and otherwise ignored: the loop goes round once more, and when
    the chip then reports no interrupt the channel is as it was, after four
    register reads. *)
Theorem port_irq_unexpected_source (K : kernel) (fuel : nat) (m : machine) :
  tst (next_read (tl (wire m))) CH43X_IIR_NO_INT_BIT = false ->
  Z.land (next_read (tl (wire m))) CH43X_IIR_ID_MASK <> CH43X_IIR_RDI_SRC ->
  Z.land (next_read (tl (wire m))) CH43X_IIR_ID_MASK <> CH43X_IIR_RLSE_SRC ->
  Z.land (next_read (tl (wire m))) CH43X_IIR_ID_MASK <> CH43X_IIR_RTOI_SRC ->
  Z.land (next_read (tl (wire m))) CH43X_IIR_ID_MASK <> CH43X_IIR_MSI_SRC ->
  Z.land (next_read (tl (wire m))) CH43X_IIR_ID_MASK <> CH43X_IIR_THRI_SRC ->
  tst (next_read (tl (tl (tl (wire m))))) CH43X_IIR_NO_INT_BIT = true ->
  ch43x_port_irq K (S fuel) m
  = Done tt
      {| one := one m; termios := termios m;
         wire := tl (tl (tl (tl (wire m))));
         trace := trace m ++
           [SpiRead (rd_cmd (line (port (one m))) CH43X_LSR_REG)
              (next_read (wire m));
            SpiRead (rd_cmd (line (port (one m))) CH43X_IIR_REG)
              (next_read (tl (wire m)));
            SpiRead (rd_cmd (line (port (one m))) CH43X_LSR_REG)
              (next_read (tl (tl (wire m))));
            SpiRead (rd_cmd (line (port (one m))) CH43X_IIR_REG)
              (next_read (tl (tl (tl (wire m)))))] |}.
Proof.
  intros Hint Hrdi Hrlse Hrtoi Hmsi Hthri Hidle.
  cbn [ch43x_port_irq]. steps.
  destruct (tst (next_read (wire m)) 2); steps; rewrite Hint; steps;
    destruct (Z.eqb_spec (Z.land (next_read (tl (wire m))) CH43X_IIR_ID_MASK)
                CH43X_IIR_RDI_SRC); try contradiction;
    destruct (Z.eqb_spec (Z.land (next_read (tl (wire m))) CH43X_IIR_ID_MASK)
                CH43X_IIR_RLSE_SRC); try contradiction;
    destruct (Z.eqb_spec (Z.land (next_read (tl (wire m))) CH43X_IIR_ID_MASK)
                CH43X_IIR_RTOI_SRC); try contradiction;
    destruct (Z.eqb_spec (Z.land (next_read (tl (wire m))) CH43X_IIR_ID_MASK)
                CH43X_IIR_MSI_SRC); try contradiction;
    destruct (Z.eqb_spec (Z.land (next_read (tl (wire m))) CH43X_IIR_ID_MASK)
                CH43X_IIR_THRI_SRC); try contradiction;
    steps; rewrite port_irq_idle_on by exact Hidle; flat; reflexivity.
Qed.

Lemma port_irq_unexpected_source_witness :
  ch43x_port_irq linux 1
    (probe_machine 0 (mk_termios 0 0 0) [0x60; 0x08; 0x60; 0x01])
  = Done tt
      {| one := probe_one 0; termios := mk_termios 0 0 0; wire := [];
         trace := [SpiRead 0x14 0x60; SpiRead 0x08 0x08;
                   SpiRead 0x14 0x60; SpiRead 0x08 0x01] |}.
Proof.
  assert (H1 : Z.land 0x08 CH43X_IIR_ID_MASK <> CH43X_IIR_RDI_SRC) by discriminate.
  assert (H2 : Z.land 0x08 CH43X_IIR_ID_MASK <> CH43X_IIR_RLSE_SRC) by discriminate.
  assert (H3 : Z.land 0x08 CH43X_IIR_ID_MASK <> CH43X_IIR_RTOI_SRC) by discriminate.
  assert (H4 : Z.land 0x08 CH43X_IIR_ID_MASK <> CH43X_IIR_MSI_SRC) by discriminate.
  assert (H5 : Z.land 0x08 CH43X_IIR_ID_MASK <> CH43X_IIR_THRI_SRC) by discriminate.
  exact (port_irq_unexpected_source linux 0
           (probe_machine 0 (mk_termios 0 0 0) [0x60; 0x08; 0x60; 0x01])
           eq_refl H1 H2 H3 H4 H5 eq_refl).
Defined.

(** X19: A modem-status interrupt makes the routine read the modem-status
    register and cache the byte in the channel; nothing else of the channel
    changes, and nothing is written to the chip. *)
Theorem port_irq_modem_status (K : kernel) (fuel : nat) (m : machine) :
  tst (next_read (tl (wire m))) CH43X_IIR_NO_INT_BIT = false ->
  Z.land (next_read (tl (wire m))) CH43X_IIR_ID_MASK = CH43X_IIR_MSI_SRC ->
  tst (next_read (tl (tl (tl (tl (wire m)))))) CH43X_IIR_NO_INT_BIT = true ->
  ch43x_port_irq K (S fuel) m
  = Done tt
      {| one := upd_msr_reg (next_read (tl (tl (wire m)))) (one m);
         termios := termios m;
         wire := tl (tl (tl (tl (tl (wire m)))));
         trace := trace m ++
           [SpiRead (rd_cmd (line (port (one m))) CH43X_LSR_REG)
              (next_read (wire m));
            SpiRead (rd_cmd (line (port (one m))) CH43X_IIR_REG)
              (next_read (tl (wire m)));
            SpiRead (rd_cmd (line (port (one m))) CH43X_MSR_REG)
              (next_read (tl (tl (wire m))));
            SpiRead (rd_cmd (line (port (one m))) CH43X_LSR_REG)
              (next_read (tl (tl (tl (wire m)))));
            SpiRead (rd_cmd (line (port (one m))) CH43X_IIR_REG)
              (next_read (tl (tl (tl (tl (wire m))))))] |}.
Proof.
  intros Hint Hsrc Hidle.
  cbn [ch43x_port_irq]. steps.
  destruct (tst (next_read (wire m)) 2); steps; rewrite Hint; steps;
    rewrite Hsrc;
    change (CH43X_IIR_MSI_SRC =? CH43X_IIR_RDI_SRC) with false;
    change (CH43X_IIR_MSI_SRC =? CH43X_IIR_RLSE_SRC) with false;
    change (CH43X_IIR_MSI_SRC =? CH43X_IIR_RTOI_SRC) with false;
    change (CH43X_IIR_MSI_SRC =? CH43X_IIR_MSI_SRC) with true;
    steps; rewrite port_irq_idle_on by exact Hidle; flat;
    unfold next_read; rewrite u8_idem; reflexivity.
Qed.

Lemma port_irq_modem_status_witness :
  ch43x_port_irq linux 1
    (probe_machine 0 (mk_termios 0 0 0) [0x60; 0x00; 0x11; 0x60; 0x01])
  = Done tt
      {| one := upd_msr_reg 0x11 (probe_one 0); termios := mk_termios 0 0 0;
         wire := [];
         trace := [SpiRead 0x14 0x60; SpiRead 0x08 0x00; SpiRead 0x18 0x11;
                   SpiRead 0x14 0x60; SpiRead 0x08 0x01] |}.
Proof.
  exact (port_irq_modem_status linux 0
           (probe_machine 0 (mk_termios 0 0 0) [0x60; 0x00; 0x11; 0x60; 0x01])
           eq_refl eq_refl eq_refl).
Defined.

(** X20: A TX-ready interrupt with bytes pending sends one chunk of at most
    sixteen bytes through ch43x_handle_tx; when the chip then reports no
    interrupt the routine returns with the tail moved on and the transmit
    counter raised by the size of the chunk. *)
Theorem port_irq_tx_ready (K : kernel) (k : Z) (fuel : nat) (m : machine)
        (n : Z) :
  0 <= k ->
  UART_XMIT_SIZE K = 2 ^ k ->
  x_char (port (one m)) = 0 ->
  tx_stopped (port (one m)) = false ->
  0 <= tail (xmit (port (one m))) < UART_XMIT_SIZE K ->
  uart_circ_chars_pending K (xmit (port (one m))) = n ->
  0 < n ->
  tst (next_read (tl (wire m))) CH43X_IIR_NO_INT_BIT = false ->
  Z.land (next_read (tl (wire m))) CH43X_IIR_ID_MASK = CH43X_IIR_THRI_SRC ->
  tst (next_read (tl (tl (tl (wire m))))) CH43X_IIR_NO_INT_BIT = true ->
  ch43x_port_irq K (S fuel) m
  = Done tt
      {| one :=
           upd_port
             (fun p =>
                upd_xmit
                  (mk_circ (buf (xmit p)) (head (xmit p))
                     ((tail (xmit p) + Z.min n CH43X_FIFO_SIZE)
                      mod UART_XMIT_SIZE K))
                  (upd_icount (add_tx (Z.min n CH43X_FIFO_SIZE)) p))
             (one m);
         termios := termios m;
         wire := tl (tl (tl (tl (wire m))));
         trace := trace m ++
           [SpiRead (rd_cmd (line (port (one m))) CH43X_LSR_REG)
              (next_read (wire m));
            SpiRead (rd_cmd (line (port (one m))) CH43X_IIR_REG)
              (next_read (tl (wire m)));
            SpiBurst (wr_cmd (line (port (one m))) CH43X_THR_REG)
              (ring_bytes K (buf (xmit (port (one m))))
                 (tail (xmit (port (one m))))
                 (Z.to_nat (Z.min n CH43X_FIFO_SIZE)))]
           ++ wakeup K (n - Z.min n CH43X_FIFO_SIZE)
           ++ [SpiRead (rd_cmd (line (port (one m))) CH43X_LSR_REG)
                 (next_read (tl (tl (wire m))));
               SpiRead (rd_cmd (line (port (one m))) CH43X_IIR_REG)
                 (next_read (tl (tl (tl (wire m)))))] |}.
Proof.
  intros Hk Hsize Hx Hrun Htail Hn Hpos Hint Hsrc Hidle.
  cbn [ch43x_port_irq]. steps.
  destruct (tst (next_read (wire m)) 2); steps; rewrite Hint; steps;
    rewrite Hsrc;
    change (CH43X_IIR_THRI_SRC =? CH43X_IIR_RDI_SRC) with false;
    change (CH43X_IIR_THRI_SRC =? CH43X_IIR_RLSE_SRC) with false;
    change (CH43X_IIR_THRI_SRC =? CH43X_IIR_RTOI_SRC) with false;
    change (CH43X_IIR_THRI_SRC =? CH43X_IIR_MSI_SRC) with false;
    change (CH43X_IIR_THRI_SRC =? CH43X_IIR_THRI_SRC) with true;
    steps;
    (rewrite (handle_tx_chunk K k Hk Hsize _ n); [| exact Hx | exact Hrun
       | exact Htail | exact Hn | exact Hpos]);
    steps; rewrite port_irq_idle_on by exact Hidle; flat;
    unfold wakeup; destruct (n - Z.min n CH43X_FIFO_SIZE <? WAKEUP_CHARS K);
    reflexivity.
Qed.

Lemma port_irq_tx_ready_witness :
  exists m',
    ch43x_port_irq linux 1
      {| one := one tx_machine; termios := mk_termios 0 0 0;
         wire := [0x60; 0x02; 0x60; 0x01]; trace := [] |}
    = Done tt m'
    /\ trace m'
       = [SpiRead 0x14 0x60; SpiRead 0x08 0x02;
          SpiBurst 0x02 [250; 251; 252; 253; 254; 255; 0; 1;
                         2; 3; 4; 5; 6; 7; 8; 9];
          WriteWakeup;
          SpiRead 0x14 0x60; SpiRead 0x08 0x01]
    /\ tail (xmit (port (one m'))) = 10.
Proof.
  assert (Hk : 0 <= 12) by lia.
  assert (Htail : 0 <= tail (xmit (port (one tx_machine)))
                  < UART_XMIT_SIZE linux) by (split; [discriminate | reflexivity]).
  assert (Hpos : 0 < 40) by reflexivity.
  eexists. split.
  - exact (port_irq_tx_ready linux 12 0
             {| one := one tx_machine; termios := mk_termios 0 0 0;
                wire := [0x60; 0x02; 0x60; 0x01]; trace := [] |}
             40 Hk eq_refl eq_refl eq_refl Htail eq_refl Hpos
             eq_refl eq_refl eq_refl).
  - split; vm_compute; reflexivity.
Defined.

(** ** Modem status (ch43x_get_mctrl) *)

Lemma tst_u32 (x c : Z) : 0 <= c < 2 ^ 32 -> tst (u32 x) c = tst x c.
Proof.
  intros Hc. unfold tst, u32.
  rewrite <- Z.land_ones by lia.
  rewrite <- Z.land_assoc, (Z.land_comm (Z.ones 32) c), Z.land_ones by lia.
  rewrite (Z.mod_small c) by exact Hc. reflexivity.
Qed.

Lemma tst_lor_l (a b c : Z) : tst (Z.lor a b) c = tst a c || tst b c.
Proof.
  unfold tst. rewrite (Z.land_comm (Z.lor a b)), (Z.land_comm a), (Z.land_comm b).
  apply (tst_lor c a b).
Qed.

Lemma tst_self (c : Z) : c <> 0 -> tst c c = true.
Proof.
  intros Hc. unfold tst. rewrite Z.land_diag.
  destruct (Z.eqb_spec c 0); [contradiction | reflexivity].
Qed.

Lemma tst_disjoint (a b : Z) : Z.land a b = 0 -> tst a b = false /\ tst b a = false.
Proof.
  intros H. unfold tst. rewrite (Z.land_comm b a), H. split; reflexivity.
Qed.

(** X21: ch43x_get_mctrl answers from the cached modem-status byte without
    touching the chip: carrier, ring, data-set-ready and clear-to-send are
    reported exactly when the corresponding bit of the cached byte is set. *)
Theorem get_mctrl_reports (A : serial_abi) (m : machine) :
  modem_bits_separate A ->
  exists r,
    ch43x_get_mctrl A m = Done r m
    /\ tst r (TIOCM_CAR A) = tst (msr_reg (one m)) (UART_MSR_DCD A)
    /\ tst r (TIOCM_RNG A) = tst (msr_reg (one m)) (UART_MSR_RI A)
    /\ tst r (TIOCM_DSR A) = tst (msr_reg (one m)) (UART_MSR_DSR A)
    /\ tst r (TIOCM_CTS A) = tst (msr_reg (one m)) (UART_MSR_CTS A).
Proof.
  intros ((Hcar & Hrng & Hdsr & Hcts) & H12 & H13 & H14 & H23 & H24 & H34).
  destruct (tst_disjoint _ _ H12) as (E12 & E21).
  destruct (tst_disjoint _ _ H13) as (E13 & E31).
  destruct (tst_disjoint _ _ H14) as (E14 & E41).
  destruct (tst_disjoint _ _ H23) as (E23 & E32).
  destruct (tst_disjoint _ _ H24) as (E24 & E42).
  destruct (tst_disjoint _ _ H34) as (E34 & E43).
  assert (S1 := tst_self (TIOCM_CAR A) ltac:(lia)).
  assert (S2 := tst_self (TIOCM_RNG A) ltac:(lia)).
  assert (S3 := tst_self (TIOCM_DSR A) ltac:(lia)).
  assert (S4 := tst_self (TIOCM_CTS A) ltac:(lia)).
  unfold ch43x_get_mctrl. steps. eexists. split; [reflexivity |].
  rewrite !tst_u32 by lia.
  destruct (tst (msr_reg (one m)) (UART_MSR_DCD A)),
    (tst (msr_reg (one m)) (UART_MSR_RI A)),
    (tst (msr_reg (one m)) (UART_MSR_DSR A)),
    (tst (msr_reg (one m)) (UART_MSR_CTS A));
    rewrite ?tst_lor_l, ?tst_0_l, ?S1, ?S2, ?S3, ?S4, ?E12, ?E21, ?E13, ?E31,
      ?E14, ?E41, ?E23, ?E32, ?E24, ?E42, ?E34, ?E43;
    repeat split.
Qed.

Lemma linux_modem_bits_separate : modem_bits_separate linux_abi.
Proof. repeat split. Qed.

Lemma get_mctrl_reports_witness :
  exists r,
    ch43x_get_mctrl linux_abi
      {| one := upd_msr_reg 0x90 (probe_one 0); termios := mk_termios 0 0 0;
         wire := []; trace := [] |}
    = Done r
        {| one := upd_msr_reg 0x90 (probe_one 0); termios := mk_termios 0 0 0;
           wire := []; trace := [] |}
    /\ tst r (TIOCM_CAR linux_abi) = true
    /\ tst r (TIOCM_RNG linux_abi) = false
    /\ tst r (TIOCM_DSR linux_abi) = false
    /\ tst r (TIOCM_CTS linux_abi) = true.
Proof.
  exact (get_mctrl_reports linux_abi
           {| one := upd_msr_reg 0x90 (probe_one 0); termios := mk_termios 0 0 0;
              wire := []; trace := [] |} linux_modem_bits_separate).
Defined.

(** ** Receive drain (ch43x_handle_rx as a whole) *)

Lemma delivered_app (a b : list event) :
  delivered (a ++ b) = delivered a ++ delivered b.
Proof.
  induction a as [| e a IH]; [reflexivity |].
  destruct e; cbn [app delivered]; rewrite IH; reflexivity.
Qed.

Lemma rx_counts_rx (lsr : Z) (c : uart_icount) :
  rx (rx_counts lsr c) = u32 (rx c + 1).
Proof.
  unfold rx_counts.
  destruct (tst lsr CH43X_LSR_BI_BIT); [reflexivity |].
  destruct (tst lsr CH43X_LSR_PE_BIT); [reflexivity |].
  destruct (tst lsr CH43X_LSR_FE_BIT); [reflexivity |].
  destruct (tst lsr CH43X_LSR_OE_BIT); reflexivity.
Qed.

Lemma u32_add_l (a b : Z) : u32 (u32 a + b) = u32 (a + b).
Proof. unfold u32. apply Zplus_mod_idemp_l. Qed.

Lemma u32_idem (a : Z) : u32 (u32 a) = u32 a.
Proof. unfold u32. apply Z.mod_mod. discriminate. Qed.

(** classifying a character never pushes the flip buffer *)
Lemma rx_events_no_push (K : kernel) (lsr ch : Z) (p : uart_port) :
  ~ In FlipBufferPush (rx_events K lsr ch p).
Proof.
  unfold rx_events. intros Hin.
  destruct (tst lsr CH43X_LSR_BI_BIT && uart_handle_break K p);
    [exact Hin |].
  apply in_app_or in Hin. destruct Hin as [Hin | Hin].
  - destruct (tst _ CH43X_LSR_OE_BIT);
      [destruct Hin as [Hin | []]; discriminate Hin | exact Hin].
  - destruct (uart_handle_sysrq_char K p ch);
      [exact Hin | destruct Hin as [Hin | []]; discriminate Hin].
Qed.

Section RxDrain.

Variable K : kernel.
Hypothesis Hbreak : forall p, uart_handle_break K p = false.
Hypothesis Hsysrq : forall p ch, uart_handle_sysrq_char K p ch = false.

Lemma delivered_rx_events (lsr ch : Z) (p : uart_port) :
  delivered (rx_events K lsr ch p) = [ch].
Proof.
  unfold rx_events. rewrite Hbreak, Hsysrq, andb_false_r.
  destruct (tst _ CH43X_LSR_OE_BIT); reflexivity.
Qed.

(** the do-while loop, entered with data ready: every character on the wire
    is read and inserted, in order, until the status shows no more data *)
Lemma rx_drain_delivers (last : Z) (rest : list Z) :
  tst (u8 last) CH43X_LSR_DR_BIT = false ->
  forall (l : list (Z * Z)) (fuel : nat) (lsr ch : Z) (m : machine),
    tst lsr CH43X_LSR_DR_BIT = true ->
    wire m = ch :: rx_answers l last ++ rest ->
    Forall (fun sc => tst (u8 (fst sc)) CH43X_LSR_DR_BIT = true) l ->
    (length l <= fuel)%nat ->
    exists m' evs,
      rx_drain K fuel lsr m = Done tt m'
      /\ trace m' = trace m ++ evs
      /\ delivered evs = u8 ch :: map (fun sc => u8 (snd sc)) l
      /\ wire m' = rest
      /\ u32 (rx (icount (port (one m'))))
         = u32 (rx (icount (port (one m))) + 1 + Z.of_nat (length l))
      /\ ~ In FlipBufferPush evs.
Proof.
  intros Hlast.
  induction l as [| [s c] l IH]; intros fuel lsr ch m Hdr Hw Hall Hfuel.
  - eexists.
    exists (SpiRead (rd_cmd (line (port (one m))) CH43X_RHR_REG) (u8 ch)
            :: rx_events K lsr (u8 ch)
                 (upd_icount (rx_counts lsr) (port (one m)))
            ++ [SpiRead (rd_cmd (line (port (one m))) CH43X_LSR_REG)
                  (u8 last)]).
    split; [| split; [| split; [| split; [| split]]]].
    + destruct fuel; cbn [rx_drain]; rewrite Hdr; steps; rewrite Hw;
        unfold next_read; cbn [hd tl rx_answers flat_map app];
        rewrite ch_handler_spec; steps; rewrite Hlast; steps; flat;
        reflexivity.
    + cbn [trace]. reflexivity.
    + cbn [delivered]. rewrite delivered_app, delivered_rx_events.
      reflexivity.
    + reflexivity.
    + cbn [one port icount upd_port upd_icount length Z.of_nat].
      rewrite rx_counts_rx, u32_idem, Z.add_0_r. reflexivity.
    + intros [Hin | Hin]; [discriminate Hin |].
      apply in_app_or in Hin. destruct Hin as [Hin | [Hin | []]];
        [exact (rx_events_no_push _ _ _ _ Hin) | discriminate Hin].
  - destruct fuel as [| fuel]; [cbn [length] in Hfuel; lia |].
    inversion Hall as [| ? ? Hs Hall']; subst.
    cbn [fst] in Hs.
    set (m1 := {| one := upd_port (upd_icount (rx_counts lsr)) (one m);
                  termios := termios m;
                  wire := c :: rx_answers l last ++ rest;
                  trace := (trace m ++
                    SpiRead (rd_cmd (line (port (one m))) CH43X_RHR_REG) (u8 ch)
                    :: rx_events K lsr (u8 ch)
                         (upd_icount (rx_counts lsr) (port (one m))))
                    ++ [SpiRead (rd_cmd (line (port (one m))) CH43X_LSR_REG)
                          (u8 s)] |}).
    destruct (IH fuel (u8 s) c m1 Hs eq_refl Hall'
                ltac:(cbn [length] in Hfuel; lia))
      as (m' & evs & Hrun & Htr & Hdel & Hwire & Hrx & Hnp).
    exists m',
      ((SpiRead (rd_cmd (line (port (one m))) CH43X_RHR_REG) (u8 ch)
        :: rx_events K lsr (u8 ch) (upd_icount (rx_counts lsr) (port (one m))))
       ++ [SpiRead (rd_cmd (line (port (one m))) CH43X_LSR_REG) (u8 s)]
       ++ evs).
    split; [| split; [| split; [| split; [| split]]]].
    + cbn [rx_drain]. rewrite Hdr. steps. rewrite Hw.
      unfold next_read. cbn [hd tl rx_answers flat_map app fst snd].
      rewrite ch_handler_spec. steps. rewrite Hs. steps.
      rewrite <- Hrun. unfold m1, rx_answers. f_equal. f_equal.
      rewrite <- !app_assoc. reflexivity.
    + rewrite Htr. unfold m1. cbn [trace]. rewrite <- !app_assoc.
      reflexivity.
    + rewrite !delivered_app. cbn [delivered app].
      rewrite delivered_rx_events, Hdel. reflexivity.
    + exact Hwire.
    + rewrite Hrx. unfold m1.
      cbn [one port icount upd_port upd_icount length].
      rewrite rx_counts_rx, <- !Z.add_assoc, u32_add_l. f_equal. lia.
    + intros Hin. apply in_app_or in Hin. destruct Hin as [Hin | Hin].
      * destruct Hin as [Hin | Hin]; [discriminate Hin |].
        exact (rx_events_no_push _ _ _ _ Hin).
      * destruct Hin as [Hin | Hin]; [discriminate Hin |].
        exact (Hnp Hin).
Qed.

(** a receive interrupt other than line status, the chip answering with the
    characters of [l]: each of them is read and inserted, in order, and the
    buffer is pushed once at the end *)
Lemma handle_rx_drains (fuel : nat) (iir : Z) (m : machine)
      (s c : Z) (l : list (Z * Z)) (last : Z) (rest : list Z) :
  iir <> CH43X_IIR_RLSE_SRC ->
  wire m = rx_answers ((s, c) :: l) last ++ rest ->
  Forall (fun sc => tst (u8 (fst sc)) CH43X_LSR_DR_BIT = true) ((s, c) :: l) ->
  tst (u8 last) CH43X_LSR_DR_BIT = false ->
  (length l <= fuel)%nat ->
  exists m' evs,
    ch43x_handle_rx K fuel iir m = Done tt m'
    /\ trace m' = trace m ++ evs ++ [FlipBufferPush]
    /\ delivered evs = map (fun sc => u8 (snd sc)) ((s, c) :: l)
    /\ wire m' = rest
    /\ u32 (rx (icount (port (one m'))))
       = u32 (rx (icount (port (one m))) + Z.of_nat (length ((s, c) :: l)))
    /\ ~ In FlipBufferPush evs.
Proof.
  intros Hiir Hw Hall Hlast Hfuel.
  inversion Hall as [| ? ? Hs Hall']; subst. cbn [fst] in Hs.
  set (m1 := {| one := one m; termios := termios m;
                wire := c :: rx_answers l last ++ rest;
                trace := trace m ++
                  [SpiRead (rd_cmd (line (port (one m))) CH43X_LSR_REG)
                     (u8 s)] |}).
  destruct (rx_drain_delivers last rest Hlast l fuel (u8 s) c m1 Hs eq_refl
              Hall' Hfuel)
    as (m' & evs & Hrun & Htr & Hdel & Hwire & Hrx & Hnp).
  exists {| one := one m'; termios := termios m'; wire := wire m';
            trace := trace m' ++ [FlipBufferPush] |},
    (SpiRead (rd_cmd (line (port (one m))) CH43X_LSR_REG) (u8 s) :: evs).
  split; [| split; [| split; [| split; [| split]]]].
  - unfold ch43x_handle_rx.
    destruct (Z.eqb_spec iir CH43X_IIR_RLSE_SRC) as [E | _]; [contradiction |].
    steps.
    assert (Hwait : wait_dr fuel m = Done (u8 s) m1).
    { destruct fuel; cbn [wait_dr]; steps; rewrite Hw; unfold next_read;
        cbn [hd tl rx_answers flat_map app fst snd]; rewrite Hs;
        reflexivity. }
    rewrite Hwait, Hrun. steps. reflexivity.
  - cbn [trace]. rewrite Htr. unfold m1. cbn [trace].
    rewrite <- !app_assoc. reflexivity.
  - cbn [delivered map snd]. exact Hdel.
  - exact Hwire.
  - cbn [one]. rewrite Hrx. unfold m1. cbn [one length]. f_equal. lia.
  - intros [Hin | Hin]; [discriminate Hin | exact (Hnp Hin)].
Qed.

End RxDrain.

(** X22: On a receive interrupt other than line status, when neither the break
    hook nor the sysrq hook consumes anything, ch43x_handle_rx hands every
    character the chip reports as ready to the tty layer, once and in the
    order read, whatever the error bits of its status; it counts each of them
    and pushes the flip buffer exactly once, as the last thing it does. *)
Theorem handle_rx_delivers_in_order (K : kernel) (fuel : nat) (iir : Z)
        (m : machine) (s c : Z) (l : list (Z * Z)) (last : Z) :
  (forall p, uart_handle_break K p = false) ->
  (forall p ch, uart_handle_sysrq_char K p ch = false) ->
  iir <> CH43X_IIR_RLSE_SRC ->
  wire m = rx_answers ((s, c) :: l) last ->
  Forall (fun sc => tst (u8 (fst sc)) CH43X_LSR_DR_BIT = true) ((s, c) :: l) ->
  tst (u8 last) CH43X_LSR_DR_BIT = false ->
  (length l <= fuel)%nat ->
  exists m' evs,
    ch43x_handle_rx K fuel iir m = Done tt m'
    /\ trace m' = trace m ++ evs ++ [FlipBufferPush]
    /\ delivered evs = map (fun sc => u8 (snd sc)) ((s, c) :: l)
    /\ wire m' = []
    /\ u32 (rx (icount (port (one m'))))
       = u32 (rx (icount (port (one m))) + Z.of_nat (length ((s, c) :: l)))
    /\ ~ In FlipBufferPush evs.
Proof.
  intros Hb Hq Hiir Hw Hall Hlast Hfuel.
  apply (handle_rx_drains K Hb Hq fuel iir m s c l last []);
    try assumption.
  rewrite app_nil_r. exact Hw.
Qed.

Lemma handle_rx_delivers_in_order_witness :
  exists m' evs,
    ch43x_handle_rx linux 2 CH43X_IIR_RDI_SRC
      {| one := probe_one 0; termios := mk_termios 0 0 0;
         wire := [0x61; 0x41; 0x65; 0x42; 0x63; 0x43; 0x60]; trace := [] |}
    = Done tt m'
    /\ trace m' = [] ++ evs ++ [FlipBufferPush]
    /\ delivered evs = [0x41; 0x42; 0x43]
    /\ wire m' = []
    /\ u32 (rx (icount (port (one m')))) = 3
    /\ ~ In FlipBufferPush evs.
Proof.
  assert (Hb : forall p, uart_handle_break linux p = false)
    by (intros p; reflexivity).
  assert (Hq : forall p ch, uart_handle_sysrq_char linux p ch = false)
    by (intros p ch; reflexivity).
  assert (Hiir : CH43X_IIR_RDI_SRC <> CH43X_IIR_RLSE_SRC) by discriminate.
  assert (Hall : Forall (fun sc => tst (u8 (fst sc)) CH43X_LSR_DR_BIT = true)
                   [(0x61, 0x41); (0x65, 0x42); (0x63, 0x43)])
    by (repeat constructor).
  assert (Hfuel : (length [(0x65, 0x42); (0x63, 0x43)] <= 2)%nat)
    by (cbn [length]; lia).
  exact (handle_rx_delivers_in_order linux 2 CH43X_IIR_RDI_SRC
           {| one := probe_one 0; termios := mk_termios 0 0 0;
              wire := [0x61; 0x41; 0x65; 0x42; 0x63; 0x43; 0x60];
              trace := [] |}
           0x61 0x41 [(0x65, 0x42); (0x63, 0x43)] 0x60
           Hb Hq Hiir eq_refl Hall eq_refl Hfuel).
Defined.

(** X23: A receive interrupt served from the dispatch loop: ch43x_port_irq hands
    every ready character to the tty layer, once and in order, and returns
    on the next pass, when the chip reports no interrupt pending. *)
Theorem port_irq_rx_ready (K : kernel) (fuel : nat) (m : machine)
        (lsr0 iir s c : Z) (l : list (Z * Z)) (last lsr1 iir1 : Z) :
  (forall p, uart_handle_break K p = false) ->
  (forall p ch, uart_handle_sysrq_char K p ch = false) ->
  wire m = lsr0 :: iir :: rx_answers ((s, c) :: l) last ++ [lsr1; iir1] ->
  tst (u8 iir) CH43X_IIR_NO_INT_BIT = false ->
  Z.land (u8 iir) CH43X_IIR_ID_MASK = CH43X_IIR_RDI_SRC
  \/ Z.land (u8 iir) CH43X_IIR_ID_MASK = CH43X_IIR_RTOI_SRC ->
  Forall (fun sc => tst (u8 (fst sc)) CH43X_LSR_DR_BIT = true) ((s, c) :: l) ->
  tst (u8 last) CH43X_LSR_DR_BIT = false ->
  tst (u8 iir1) CH43X_IIR_NO_INT_BIT = true ->
  (length l <= S fuel)%nat ->
  exists m',
    ch43x_port_irq K (S fuel) m = Done tt m'
    /\ delivered (trace m')
       = delivered (trace m) ++ map (fun sc => u8 (snd sc)) ((s, c) :: l)
    /\ wire m' = []
    /\ u32 (rx (icount (port (one m'))))
       = u32 (rx (icount (port (one m))) + Z.of_nat (length ((s, c) :: l))).
Proof.
  intros Hb Hq Hw Hint Hsrc Hall Hlast Hidle Hfuel.
  assert (Hiir : Z.land (u8 iir) CH43X_IIR_ID_MASK <> CH43X_IIR_RLSE_SRC)
    by (destruct Hsrc as [E | E]; rewrite E; discriminate).
  assert (Hsel : (Z.land (u8 iir) CH43X_IIR_ID_MASK =? CH43X_IIR_RDI_SRC)
                 || (Z.land (u8 iir) CH43X_IIR_ID_MASK =? CH43X_IIR_RLSE_SRC)
                 || (Z.land (u8 iir) CH43X_IIR_ID_MASK =? CH43X_IIR_RTOI_SRC)
                 = true)
    by (destruct Hsrc as [E | E]; rewrite E; reflexivity).
  set (m1 := {| one := one m; termios := termios m;
                wire := rx_answers ((s, c) :: l) last ++ [lsr1; iir1];
                trace := (trace m ++
                  [SpiRead (rd_cmd (line (port (one m))) CH43X_LSR_REG)
                     (u8 lsr0)]) ++
                  [SpiRead (rd_cmd (line (port (one m))) CH43X_IIR_REG)
                     (u8 iir)] |}).
  destruct (handle_rx_drains K Hb Hq (S fuel)
              (Z.land (u8 iir) CH43X_IIR_ID_MASK) m1 s c l last [lsr1; iir1]
              Hiir eq_refl Hall Hlast Hfuel)
    as (m2 & evs & Hrun & Htr & Hdel & Hwire & Hrx & _).
  destruct m2 as [o2 t2 w2 tr2]. cbn [one wire trace] in Htr, Hwire, Hrx.
  subst w2.
  exists (mk_machine o2 t2 []
            (tr2 ++ [SpiRead (rd_cmd (line (port o2)) CH43X_LSR_REG) (u8 lsr1);
                     SpiRead (rd_cmd (line (port o2)) CH43X_IIR_REG)
                       (u8 iir1)])).
  split; [| split; [| split]].
  - cbn [ch43x_port_irq]. steps. rewrite Hw. unfold next_read. cbn [hd tl].
    destruct (tst (u8 lsr0) 2); steps; rewrite Hint; steps; rewrite Hsel;
      fold m1; rewrite Hrun, port_irq_idle_on by exact Hidle;
      reflexivity.
  - cbn [trace]. rewrite delivered_app, Htr, !delivered_app, Hdel.
    unfold m1. cbn [trace]. rewrite !delivered_app. cbn [delivered].
    rewrite !app_nil_r. reflexivity.
  - reflexivity.
  - cbn [one]. rewrite Hrx. reflexivity.
Qed.

Lemma port_irq_rx_ready_witness :
  exists m',
    ch43x_port_irq linux 1
      {| one := probe_one 0; termios := mk_termios 0 0 0;
         wire := [0x61; 0x04; 0x61; 0x41; 0x61; 0x42; 0x60; 0x60; 0x01];
         trace := [] |}
    = Done tt m'
    /\ delivered (trace m') = [0x41; 0x42]
    /\ wire m' = []
    /\ u32 (rx (icount (port (one m')))) = 2.
Proof.
  assert (Hb : forall p, uart_handle_break linux p = false)
    by (intros p; reflexivity).
  assert (Hq : forall p ch, uart_handle_sysrq_char linux p ch = false)
    by (intros p ch; reflexivity).
  assert (Hsrc : Z.land (u8 0x04) CH43X_IIR_ID_MASK = CH43X_IIR_RDI_SRC
                 \/ Z.land (u8 0x04) CH43X_IIR_ID_MASK = CH43X_IIR_RTOI_SRC)
    by (left; reflexivity).
  assert (Hall : Forall (fun sc => tst (u8 (fst sc)) CH43X_LSR_DR_BIT = true)
                   [(0x61, 0x41); (0x61, 0x42)])
    by (repeat constructor).
  assert (Hfuel : (length [(0x61, 0x42)] <= 1)%nat) by (cbn [length]; lia).
  exact (port_irq_rx_ready linux 0
           {| one := probe_one 0; termios := mk_termios 0 0 0;
              wire := [0x61; 0x04; 0x61; 0x41; 0x61; 0x42; 0x60; 0x60; 0x01];
              trace := [] |}
           0x61 0x04 0x61 0x41 [(0x61, 0x42)] 0x60 0x60 0x01
           Hb Hq eq_refl eq_refl Hsrc Hall eq_refl eq_refl Hfuel).
Defined.

(** X24: ch43x_handle_rx polls the line status without a bound: on a receive
    interrupt other than line status, as long as the chip never reports data
    ready, the function does not return, and nothing reaches the tty layer. *)
Theorem handle_rx_waits_for_data (K : kernel) (fuel : nat) (iir : Z)
        (m : machine) :
  iir <> CH43X_IIR_RLSE_SRC ->
  Forall (fun v => tst (u8 v) CH43X_LSR_DR_BIT = false) (wire m) ->
  exists m',
    ch43x_handle_rx K fuel iir m = Spin m'
    /\ delivered (trace m') = delivered (trace m)
    /\ one m' = one m.
Proof.
  intros Hiir Hall.
  assert (H : forall f m0,
             Forall (fun v => tst (u8 v) CH43X_LSR_DR_BIT = false) (wire m0) ->
             exists m', wait_dr f m0 = Spin m'
                        /\ delivered (trace m') = delivered (trace m0)
                        /\ one m' = one m0).
  { assert (Hnext : forall w,
               Forall (fun v => tst (u8 v) CH43X_LSR_DR_BIT = false) w ->
               tst (next_read w) CH43X_LSR_DR_BIT = false
               /\ Forall (fun v => tst (u8 v) CH43X_LSR_DR_BIT = false) (tl w)).
    { intros w Hw. destruct Hw as [| v w Hv Hw]; split;
        [reflexivity | constructor | exact Hv | exact Hw]. }
    induction f as [| f IH]; intros m0 H0;
      destruct (Hnext _ H0) as (Hdr & Htl).
    - cbn [wait_dr]. steps. rewrite Hdr. eexists. split; [reflexivity |].
      cbn [trace one]. rewrite delivered_app, app_nil_r. split; reflexivity.
    - cbn [wait_dr]. steps. rewrite Hdr.
      match goal with |- exists m', wait_dr f ?m1 = _ /\ _ =>
        destruct (IH m1 Htl) as (m' & Hrun & Hdel & Hone) end.
      exists m'. split; [exact Hrun |]. rewrite Hdel, Hone. cbn [trace one].
      rewrite delivered_app, app_nil_r. split; reflexivity. }
  destruct (H fuel m Hall) as (m' & Hrun & Hdel & Hone).
  exists m'. split; [| split; assumption].
  unfold ch43x_handle_rx.
  destruct (Z.eqb_spec iir CH43X_IIR_RLSE_SRC) as [E | _]; [contradiction |].
  steps. rewrite Hrun. reflexivity.
Qed.

Lemma handle_rx_waits_for_data_witness :
  exists m',
    ch43x_handle_rx linux 5 CH43X_IIR_RTOI_SRC
      {| one := probe_one 0; termios := mk_termios 0 0 0;
         wire := [0x60; 0x60]; trace := [] |}
    = Spin m'
    /\ delivered (trace m') = []
    /\ one m' = probe_one 0.
Proof.
  assert (Hiir : CH43X_IIR_RTOI_SRC <> CH43X_IIR_RLSE_SRC) by discriminate.
  assert (Hall : Forall (fun v => tst (u8 v) CH43X_LSR_DR_BIT = false)
                   [0x60; 0x60])
    by (repeat constructor).
  exact (handle_rx_waits_for_data linux 5 CH43X_IIR_RTOI_SRC
           {| one := probe_one 0; termios := mk_termios 0 0 0;
              wire := [0x60; 0x60]; trace := [] |} Hiir Hall).
Defined.

(** ** Transmit drain over several calls *)

Lemma sent_app (a b : list event) : sent (a ++ b) = sent a ++ sent b.
Proof.
  induction a as [| e a IH]; [reflexivity |].
  destruct e; cbn [app sent]; rewrite IH, ?app_assoc; reflexivity.
Qed.

Lemma map_seq_from {A : Type} (f : nat -> A) (n : nat) :
  forall a, map f (seq a n) = map (fun i => f (a + i)%nat) (seq 0 n).
Proof.
  induction n as [| n IH]; intros a; [reflexivity |].
  cbn [seq map]. rewrite Nat.add_0_r. f_equal.
  rewrite IH, <- seq_shift, map_map. apply map_ext. intros i.
  rewrite Nat.add_succ_r. reflexivity.
Qed.

Lemma ring_bytes_app (K : kernel) (b : list Z) (t : Z) (a c : nat) :
  0 < UART_XMIT_SIZE K ->
  ring_bytes K b t (a + c)
  = ring_bytes K b t a
    ++ ring_bytes K b ((t + Z.of_nat a) mod UART_XMIT_SIZE K) c.
Proof.
  intros Hpos. unfold ring_bytes. rewrite seq_app, map_app. f_equal.
  cbn [Nat.add]. rewrite map_seq_from. apply map_ext. intros i.
  rewrite Zplus_mod_idemp_l. do 3 f_equal. lia.
Qed.

Section TxDrain.

Variable K : kernel.
Variable k : Z.
Hypothesis Hk : 0 <= k.
Hypothesis Hsize : UART_XMIT_SIZE K = 2 ^ k.

Lemma pending_zero_empty (x : circ_buf) :
  0 <= tail x < UART_XMIT_SIZE K ->
  0 <= head x < UART_XMIT_SIZE K ->
  uart_circ_chars_pending K x = 0 ->
  uart_circ_empty x = true.
Proof.
  intros Ht Hh Hp. rewrite (pending_as_mod K k Hk Hsize) in Hp.
  unfold uart_circ_empty. apply Z.eqb_eq.
  destruct (Z_le_gt_dec (tail x) (head x)) as [Hle | Hgt].
  - rewrite Z.mod_small in Hp by lia. lia.
  - replace (head x - tail x)
      with ((head x - tail x + UART_XMIT_SIZE K) + (-1) * UART_XMIT_SIZE K)
      in Hp by lia.
    rewrite Z_mod_plus_full, Z.mod_small in Hp by lia. lia.
Qed.

(** [j] calls in a row: the bursts carry the first min(n, 16 j) pending
    bytes, and the ring, the counter and the flags are as the next call
    needs them *)
Lemma handle_tx_times (j : nat) :
  forall (m : machine) (n : Z),
    x_char (port (one m)) = 0 ->
    tx_stopped (port (one m)) = false ->
    0 <= tail (xmit (port (one m))) < UART_XMIT_SIZE K ->
    0 <= head (xmit (port (one m))) < UART_XMIT_SIZE K ->
    uart_circ_chars_pending K (xmit (port (one m))) = n ->
    exists m',
      times j (ch43x_handle_tx K) m = Done tt m'
      /\ sent (trace m')
         = sent (trace m)
           ++ ring_bytes K (buf (xmit (port (one m))))
                (tail (xmit (port (one m))))
                (Z.to_nat (Z.min n (CH43X_FIFO_SIZE * Z.of_nat j)))
      /\ x_char (port (one m')) = 0
      /\ tx_stopped (port (one m')) = false
      /\ buf (xmit (port (one m'))) = buf (xmit (port (one m)))
      /\ head (xmit (port (one m'))) = head (xmit (port (one m)))
      /\ tail (xmit (port (one m')))
         = (tail (xmit (port (one m)))
            + Z.min n (CH43X_FIFO_SIZE * Z.of_nat j)) mod UART_XMIT_SIZE K
      /\ u32 (tx (icount (port (one m'))))
         = u32 (tx (icount (port (one m)))
                + Z.min n (CH43X_FIFO_SIZE * Z.of_nat j)).
Proof.
  pose proof (ring_size_pos K k Hk Hsize) as Hpos.
  unfold CH43X_FIFO_SIZE.
  induction j as [| j IH]; intros m n Hx Hrun Htail Hhead Hn.
  - assert (Hn0 : 0 <= n).
    { rewrite <- Hn, (pending_as_mod K k Hk Hsize).
      apply Z.mod_pos_bound. exact Hpos. }
    exists m. replace (Z.min n (16 * Z.of_nat 0)) with 0 by lia.
    cbn [times Z.to_nat]. unfold ring_bytes. cbn [seq map].
    rewrite app_nil_r, !Z.add_0_r, Z.mod_small by exact Htail.
    repeat split; first [assumption | reflexivity].
  - destruct (Z.eq_dec n 0) as [E0 | Hne].
    + pose proof Hn as Hp0. rewrite E0 in Hp0. rewrite E0.
      pose proof (pending_zero_empty _ Htail Hhead Hp0) as Hempty.
      pose proof (handle_tx_idle K m Hx Hempty) as H1.
      match type of H1 with _ = Done tt ?r => set (m1 := r) in * end.
      destruct (IH m1 0 Hx Hrun Htail Hhead Hp0)
        as (m' & Hr & Hs & Hx' & Hrun' & Hb' & Hh' & Ht' & Hc').
      exists m'. cbn [times]. unfold bind. rewrite H1.
      split; [exact Hr |].
      replace (Z.min 0 (16 * Z.of_nat (S j))) with 0 by lia.
      replace (Z.min 0 (16 * Z.of_nat j)) with 0 in Hs, Ht', Hc' by lia.
      unfold m1 in Hs. cbn [trace one] in Hs.
      rewrite sent_app in Hs. cbn [sent] in Hs. rewrite app_nil_r in Hs.
      repeat split; assumption.
    + assert (Hpos_n : 0 < n).
      { assert (0 <= n); [| lia].
        rewrite <- Hn, (pending_as_mod K k Hk Hsize).
        apply Z.mod_pos_bound. exact Hpos. }
      pose proof (handle_tx_chunk K k Hk Hsize m n Hx Hrun Htail Hn Hpos_n)
        as H1.
      unfold CH43X_FIFO_SIZE in H1.
      set (c := Z.min n 16) in *.
      assert (Hc : 0 < c <= n) by (unfold c; lia).
      match type of H1 with _ = Done tt ?r => set (m1 := r) in * end.
      assert (Ht1 : 0 <= tail (xmit (port (one m1))) < UART_XMIT_SIZE K)
        by (apply Z.mod_pos_bound; exact Hpos).
      assert (Hp1 : uart_circ_chars_pending K (xmit (port (one m1))) = n - c)
        by (apply (pending_after K k Hk Hsize _ n c Hn); lia).
      destruct (IH m1 (n - c) Hx Hrun Ht1 Hhead Hp1)
        as (m' & Hr & Hs & Hx' & Hrun' & Hb' & Hh' & Ht' & Hc').
      exists m'. cbn [times]. unfold bind. rewrite H1.
      split; [exact Hr |].
      unfold m1 in Hs, Hb', Hh', Ht', Hc'.
      cbn [trace one port xmit icount buf head tail tx upd_port upd_xmit
           upd_icount add_tx] in Hs, Hb', Hh', Ht', Hc'.
      set (r := Z.min (n - c) (16 * Z.of_nat j)) in *.
      assert (Hr0 : 0 <= r) by (unfold r; lia).
      assert (Hsum : Z.min n (16 * Z.of_nat (S j)) = c + r)
        by (unfold r, c; lia).
      rewrite Hsum.
      split; [| split; [exact Hx' | split; [exact Hrun' | split;
        [exact Hb' | split; [exact Hh' | split]]]]].
      * assert (Hwk : sent (wakeup K (n - c)) = [])
          by (unfold wakeup; destruct (n - c <? WAKEUP_CHARS K); reflexivity).
        rewrite Hs, sent_app. cbn [sent].
        rewrite Hwk, app_nil_r, <- app_assoc. f_equal.
        rewrite Z2Nat.inj_add by lia.
        rewrite ring_bytes_app by exact Hpos.
        rewrite Z2Nat.id by lia. reflexivity.
      * rewrite Ht', Zplus_mod_idemp_l, Z.add_assoc. reflexivity.
      * rewrite Hc', u32_add_l, Z.add_assoc. reflexivity.
Qed.

End TxDrain.

(** X25: With [n] bytes pending, no x_char and transmission not stopped, [j]
    successive calls of ch43x_handle_tx write the first min(n, 16 j) pending
    bytes to the chip, each once and in ring order, whatever the ring's
    wrap-around; what is left pending is the rest, and calls made after the
    ring has run empty send nothing. *)
Theorem handle_tx_in_order (K : kernel) (k : Z) (j : nat) (m : machine)
        (n : Z) :
  0 <= k ->
  UART_XMIT_SIZE K = 2 ^ k ->
  x_char (port (one m)) = 0 ->
  tx_stopped (port (one m)) = false ->
  0 <= tail (xmit (port (one m))) < UART_XMIT_SIZE K ->
  0 <= head (xmit (port (one m))) < UART_XMIT_SIZE K ->
  uart_circ_chars_pending K (xmit (port (one m))) = n ->
  exists m',
    times j (ch43x_handle_tx K) m = Done tt m'
    /\ sent (trace m')
       = sent (trace m)
         ++ ring_bytes K (buf (xmit (port (one m))))
              (tail (xmit (port (one m))))
              (Z.to_nat (Z.min n (CH43X_FIFO_SIZE * Z.of_nat j)))
    /\ uart_circ_chars_pending K (xmit (port (one m')))
       = n - Z.min n (CH43X_FIFO_SIZE * Z.of_nat j)
    /\ u32 (tx (icount (port (one m'))))
       = u32 (tx (icount (port (one m)))
              + Z.min n (CH43X_FIFO_SIZE * Z.of_nat j)).
Proof.
  intros Hk Hsize Hx Hrun Htail Hhead Hn.
  pose proof (ring_size_pos K k Hk Hsize) as Hpos.
  destruct (handle_tx_times K k Hk Hsize j m n Hx Hrun Htail Hhead Hn)
    as (m' & Hr & Hs & _ & _ & _ & Hh' & Ht' & Hc').
  exists m'. split; [exact Hr | split; [exact Hs | split; [| exact Hc']]].
  assert (Hn0 : 0 <= n).
  { rewrite <- Hn, (pending_as_mod K k Hk Hsize).
    apply Z.mod_pos_bound. exact Hpos. }
  pose proof (pending_after K k Hk Hsize (xmit (port (one m))) n
                (Z.min n (CH43X_FIFO_SIZE * Z.of_nat j)) Hn
                ltac:(unfold CH43X_FIFO_SIZE; lia)) as Hp.
  unfold uart_circ_chars_pending in *. cbn [head tail] in Hp.
  rewrite Hh', Ht'. exact Hp.
Qed.

Lemma handle_tx_in_order_witness :
  exists m',
    times 3 (ch43x_handle_tx linux) tx_machine = Done tt m'
    /\ sent (trace m')
       = [250; 251; 252; 253; 254; 255; 0; 1; 2; 3; 4; 5; 6; 7; 8; 9;
          10; 11; 12; 13; 14; 15; 16; 17; 18; 19; 20; 21; 22; 23; 24; 25;
          26; 27; 28; 29; 30; 31; 32; 33]
    /\ uart_circ_chars_pending linux (xmit (port (one m'))) = 0.
Proof.
  assert (Hk : 0 <= 12) by lia.
  assert (Htail : 0 <= tail (xmit (port (one tx_machine)))
                  < UART_XMIT_SIZE linux) by (split; [discriminate | reflexivity]).
  assert (Hhead : 0 <= head (xmit (port (one tx_machine)))
                  < UART_XMIT_SIZE linux) by (split; [discriminate | reflexivity]).
  assert (Hpend : uart_circ_chars_pending linux (xmit (port (one tx_machine)))
                  = 40) by (vm_compute; reflexivity).
  destruct (handle_tx_in_order linux 12 3 tx_machine 40 Hk eq_refl eq_refl
              eq_refl Htail Hhead Hpend)
    as (m' & Hr & Hs & Hp & _).
  exists m'. split; [exact Hr | split].
  - rewrite Hs. vm_compute. reflexivity.
  - rewrite Hp. reflexivity.
Defined.

(** X26: While transmission is stopped, ch43x_handle_tx sends nothing from the
    ring and leaves it as it is, however much is pending: a pending x_char
    still goes out, as a single write that is counted and cleared; without
    one, the TX-ready interrupt is turned off. *)
Theorem handle_tx_stopped (K : kernel) (m : machine) :
  tx_stopped (port (one m)) = true ->
  exists m',
    ch43x_handle_tx K m = Done tt m'
    /\ xmit (port (one m')) = xmit (port (one m))
    /\ sent (trace m') = sent (trace m)
    /\ (x_char (port (one m)) <> 0 ->
        trace m' = trace m ++
          [SpiWrite (wr_cmd (line (port (one m))) CH43X_THR_REG)
             (u8 (x_char (port (one m))))]
        /\ x_char (port (one m')) = 0
        /\ tx (icount (port (one m')))
           = u32 (tx (icount (port (one m))) + 1))
    /\ (x_char (port (one m)) = 0 ->
        trace m' = trace m ++
          [SpiRead (rd_cmd (line (port (one m))) CH43X_IER_REG)
             (next_read (wire m));
           SpiWrite (wr_cmd (line (port (one m))) CH43X_IER_REG)
             (Z.land (next_read (wire m)) (Z.lnot CH43X_IER_THRI_BIT))]
        /\ one m' = one m).
Proof.
  intros Hstop. unfold ch43x_handle_tx. steps.
  destruct (Z.eqb_spec (x_char (port (one m))) 0) as [E | E]; steps.
  - rewrite Hstop, orb_true_r. steps. flat. eexists.
    split; [reflexivity |].
    cbn [one port xmit trace]. rewrite sent_app. cbn [sent].
    rewrite app_nil_r.
    split; [reflexivity | split; [reflexivity | split]].
    + intros H. contradiction.
    + intros _. unfold next_read. rewrite clear_THRI.
      split; [reflexivity | destruct (one m); reflexivity].
  - eexists. split; [reflexivity |].
    cbn [one port xmit trace x_char icount tx]. rewrite sent_app.
    cbn [sent]. rewrite app_nil_r.
    split; [reflexivity | split; [reflexivity | split]].
    + intros _. repeat split; reflexivity.
    + intros H. contradiction.
Qed.

Lemma handle_tx_stopped_witness :
  exists m',
    ch43x_handle_tx linux
      {| one := upd_port
                  (fun p => mk_uart_port (line p) (uartclk p)
                              (read_status_mask p) (ignore_status_mask p) 0x13
                              (mctrl p) (icount p) (xmit p) true)
                  (one tx_machine);
         termios := mk_termios 0 0 0; wire := []; trace := [] |}
    = Done tt m'
    /\ trace m' = [SpiWrite 0x02 0x13]
    /\ x_char (port (one m')) = 0
    /\ xmit (port (one m')) = xmit (port (one tx_machine)).
Proof.
  assert (Hx : 0x13 <> 0) by discriminate.
  destruct (handle_tx_stopped linux
              {| one := upd_port
                          (fun p => mk_uart_port (line p) (uartclk p)
                                      (read_status_mask p)
                                      (ignore_status_mask p) 0x13
                                      (mctrl p) (icount p) (xmit p) true)
                          (one tx_machine);
                 termios := mk_termios 0 0 0; wire := []; trace := [] |}
              eq_refl)
    as (m' & Hr & Hxm & _ & Hsome & _).
  destruct (Hsome Hx) as (Htr & Hx0 & _).
  exists m'. split; [exact Hr | split; [exact Htr | split; [exact Hx0 |]]].
  exact Hxm.
Defined.

(** ** Register dump (ch43x_dump_register) *)

Lemma skipn_S_tl {A : Type} (n : nat) (w : list A) :
  skipn (S n) w = skipn n (tl w).
Proof.
  destruct w; [| reflexivity].
  cbn [tl]. rewrite !skipn_nil. reflexivity.
Qed.

(** X27: ch43x_dump_register leaves the channel's software state alone
    and takes 19 answers from the chip.  It saves the line-control register,
    sets DLAB and reads register 0, clears DLAB again by a read-modify-write,
    then reads registers 0 to 15 and writes the saved line-control value
    back.  The first of those sixteen reads, made with DLAB clear, is of the
    receive holding register: that byte leaves the receive FIFO, and nothing
    in the run hands it to the tty layer. *)
Theorem dump_register_effect (m : machine) :
  ch43x_dump_register m
  = Done 0
      {| one := one m; termios := termios m; wire := skipn 19 (wire m);
         trace := trace m ++
           [SpiRead (rd_cmd (line (port (one m))) CH43X_LCR_REG)
              (next_read (wire m));
            SpiWrite (wr_cmd (line (port (one m))) CH43X_LCR_REG)
              CH43X_LCR_DLAB_BIT;
            SpiRead (rd_cmd (line (port (one m))) 0)
              (next_read (skipn 1 (wire m)));
            SpiRead (rd_cmd (line (port (one m))) CH43X_LCR_REG)
              (next_read (skipn 2 (wire m)));
            SpiWrite (wr_cmd (line (port (one m))) CH43X_LCR_REG)
              (Z.land (next_read (skipn 2 (wire m)))
                 (Z.lnot CH43X_LCR_DLAB_BIT));
            SpiRead (rd_cmd (line (port (one m))) CH43X_RHR_REG)
              (next_read (skipn 3 (wire m)))]
           ++ map (fun i =>
                     SpiRead (rd_cmd (line (port (one m))) (Z.of_nat i))
                       (next_read (skipn (3 + i) (wire m))))
                (seq 1 15)
           ++ [SpiWrite (wr_cmd (line (port (one m))) CH43X_LCR_REG)
                 (next_read (wire m))] |}
  /\ tst (Z.land (next_read (skipn 2 (wire m))) (Z.lnot CH43X_LCR_DLAB_BIT))
       CH43X_LCR_DLAB_BIT = false.
Proof.
  split; [| apply tst_clear_self].
  cbn [map seq Nat.add app]. rewrite !skipn_S_tl. cbn [skipn].
  assert (Hn : u8 (next_read (wire m)) = next_read (wire m))
    by (unfold next_read; apply u8_idem).
  assert (Hc : u8 (Z.lor (Z.land (next_read (tl (tl (wire m))))
                            (Z.lnot CH43X_LCR_CONF_MODE_A))
                     (Z.land 0 CH43X_LCR_CONF_MODE_A))
               = Z.land (next_read (tl (tl (wire m))))
                   (Z.lnot CH43X_LCR_DLAB_BIT))
    by (unfold next_read; apply update_clear).
  unfold ch43x_dump_register. steps. flat. rewrite Hn, Hc. reflexivity.
Qed.
